(** * Bearer-token authentication middleware (backend/middleware)

    A shallow embedding of the Go package [middleware]:
    - [helper.go]          : [extractBearerToken]
    - [jwt.go]             : [GetKeycloakPublicKey], [fetchJWKS],
                             [jwkToRSAPublicKey], [verifyToken],
                             [JWTAuthMiddleware]
    - [tokenintrospect.go] : [introspectToken],
                             [TokenIntrospectionMiddleware]
    - [config.go]          : the configuration constants

    The gin request context is an explicit state that every handler threads
    through; the process-wide [publicKeys] map is a [gmap] passed in and out;
    the network, the JSON decoder and the RSA primitive are operations of an
    interface ([External]) the package is parametrised by. *)

From Stdlib Require Import ZArith Ascii String DecimalString List Bool Lia.
From stdpp Require Import base option list gmap strings.

Set Warnings "-register-all".

Local Open Scope string_scope.
Local Open Scope list_scope.
Local Open Scope Z_scope.

(* ===================================================================== *)
(** ** Go standard library: [strings.Split]                               *)
(* ===================================================================== *)

Module GoStrings.

(** [strings.HasPrefix]. *)
Fixpoint HasPrefix (s prefix : string) {struct prefix} : bool :=
  match prefix, s with
  | EmptyString, _ => true
  | String p prefix', String c s' => Ascii.eqb c p && HasPrefix s' prefix'
  | String _ _, EmptyString => false
  end.

(** The scanning loop of [strings.Split] for a non-empty separator:
    [cur] is the part being accumulated, [skip] the number of bytes of a
    matched separator that are still to be consumed.  Matches are taken
    left to right and do not overlap. *)
Fixpoint genSplit (sep s cur : string) (skip : nat) : list string :=
  match s with
  | EmptyString => [cur]
  | String c s' =>
      match skip with
      | S k => genSplit sep s' cur k
      | O =>
          if HasPrefix s sep
          then cur :: genSplit sep s' EmptyString (String.length sep - 1)
          else genSplit sep s' (cur +:+ String c EmptyString) O
      end
  end.

(** [explode]: the split of [s] for the empty separator.  (Go cuts after
    each UTF-8 sequence; bytes and sequences coincide on ASCII input.  The
    package only ever splits on [" "].) *)
Fixpoint explode (s : string) : list string :=
  match s with
  | EmptyString => []
  | String c s' => String c EmptyString :: explode s'
  end.

(** [strings.Split(s, sep)]. *)
Definition Split (s sep : string) : list string :=
  match sep with
  | EmptyString => explode s
  | String _ _ => genSplit sep s EmptyString O
  end.

End GoStrings.

(* ===================================================================== *)
(** ** Go [error] values                                                  *)
(* ===================================================================== *)

(** A decoded JSON value as far as the package looks at one: the entries of
    a token header ([map[string]interface{}]).  Only strings are ever
    inspected; arrays and objects are [VComposite]. *)
Inductive Value : Type :=
  | VString (s : string)
  | VNumber (n : Z)
  | VBool (b : bool)
  | VNull
  | VComposite.

(** Arguments of a [fmt.Errorf] call other than the wrapped error. *)
Inductive Arg : Type :=
  | ArgString (s : string)          (* %s *)
  | ArgInt (n : Z)                  (* %d *)
  | ArgValue (v : option Value).    (* %v of an interface value, nil when absent *)

(** The sentinel errors of github.com/golang-jwt/jwt/v5 the package can meet. *)
Inductive Sentinel : Type :=
  | ErrTokenMalformed
  | ErrTokenUnverifiable
  | ErrTokenSignatureInvalid
  | ErrTokenInvalidClaims
  | ErrTokenExpired
  | ErrTokenNotValidYet.

Definition Sentinel_eqb (a b : Sentinel) : bool :=
  match a, b with
  | ErrTokenMalformed, ErrTokenMalformed
  | ErrTokenUnverifiable, ErrTokenUnverifiable
  | ErrTokenSignatureInvalid, ErrTokenSignatureInvalid
  | ErrTokenInvalidClaims, ErrTokenInvalidClaims
  | ErrTokenExpired, ErrTokenExpired
  | ErrTokenNotValidYet, ErrTokenNotValidYet => true
  | _, _ => false
  end.

(** An [error]:
    - [ErrorNew msg]: an error of the Go libraries (net/http, io,
      encoding/json, encoding/base64, crypto/rsa), known by its message;
    - [Errorf format args wrapped]: [fmt.Errorf(format, args...)], with the
      operand of [%w] (if the format has one) in [wrapped];
    - [Joined errs]: the validator's [errors.Join] of sentinel errors;
    - [JWTError msg sentinel cause]: the library's
      [newError(msg, sentinel, cause)]. *)
Inductive error : Type :=
  | ErrorNew (msg : string)
  | Errorf (format : string) (args : list Arg) (wrapped : option error)
  | Joined (errs : list Sentinel)
  | JWTError (msg : string) (sentinel : Sentinel) (cause : option error).

(** [errors.Is(err, target)] for a sentinel target. *)
Fixpoint Is (err : error) (target : Sentinel) : bool :=
  match err with
  | ErrorNew _ => false
  | Errorf _ _ None => false
  | Errorf _ _ (Some e) => Is e target
  | Joined errs => existsb (Sentinel_eqb target) errs
  | JWTError _ s None => Sentinel_eqb target s
  | JWTError _ s (Some e) => Sentinel_eqb target s || Is e target
  end.

(** The format strings of the errors this package creates along [err]'s
    chain of wrapped errors, outermost first. *)
Fixpoint formats (err : error) : list string :=
  match err with
  | ErrorNew _ | Joined _ => []
  | Errorf f _ None => [f]
  | Errorf f _ (Some e) => f :: formats e
  | JWTError _ _ None => []
  | JWTError _ _ (Some e) => formats e
  end.

Definition hasFormat (err : error) (f : string) : bool :=
  existsb (String.eqb f) (formats err).

(* ===================================================================== *)
(** ** net/http status codes and the gin request context                  *)
(* ===================================================================== *)

Definition StatusOK : Z := 200.
Definition StatusUnauthorized : Z := 401.
Definition StatusInternalServerError : Z := 500.

Module gin.

(** A value of a [gin.H] body: a string literal or [err.Error()]. *)
Inductive Text : Type :=
  | Lit (s : string)
  | ErrorString (e : error).

(** [gin.H], a JSON object. *)
Abbreviation H := (gmap string Text).

(** [gin.Context], restricted to what the handlers of this package touch:
    the request header, the responses written so far (oldest first), the
    abort flag, the key/value store filled by [Set], and how often the
    remaining handlers of the chain were run through [Next]. *)
Record Context : Type := mkContext {
  RequestHeader : gmap string (list string);
  Written : list (Z * H);
  Aborted : bool;
  Keys : gmap string string;
  NextCalls : nat
}.

(** A context as the router hands it to the first handler. *)
Definition newContext (header : gmap string (list string)) : Context :=
  {| RequestHeader := header; Written := []; Aborted := false;
     Keys := ∅; NextCalls := O |}.

(** [c.GetHeader(key)]: the first value of the header, [""] when the
    request has none.  [key] is in canonical form. *)
Definition GetHeader (c : Context) (key : string) : string :=
  match RequestHeader c !! key with
  | Some (v :: _) => v
  | _ => ""
  end.

(** [c.JSON(code, obj)]. *)
Definition JSON (c : Context) (code : Z) (obj : H) : Context :=
  {| RequestHeader := RequestHeader c; Written := Written c ++ [(code, obj)];
     Aborted := Aborted c; Keys := Keys c; NextCalls := NextCalls c |}.

(** [c.Abort()]: no pending handler of the chain will run. *)
Definition Abort (c : Context) : Context :=
  {| RequestHeader := RequestHeader c; Written := Written c;
     Aborted := true; Keys := Keys c; NextCalls := NextCalls c |}.

(** [c.Set(key, value)]. *)
Definition Set_ (c : Context) (key value : string) : Context :=
  {| RequestHeader := RequestHeader c; Written := Written c;
     Aborted := Aborted c; Keys := <[key := value]> (Keys c);
     NextCalls := NextCalls c |}.

(** [c.Next()]: runs the pending handlers, unless the chain was aborted.
    What they do is outside this package; the context counts the runs. *)
Definition Next (c : Context) : Context :=
  if Aborted c then c
  else {| RequestHeader := RequestHeader c; Written := Written c;
          Aborted := Aborted c; Keys := Keys c; NextCalls := S (NextCalls c) |}.

(** Whether the handlers downstream of a handler ran, from the context [c]
    the handler was entered with and the context [c'] it returned: it ran
    them itself through [Next], or it returns with the chain not aborted
    and the engine goes on with them. *)
Definition ranDownstream (c c' : Context) : bool :=
  Nat.ltb (NextCalls c) (NextCalls c') || negb (Aborted c').

End gin.
Import gin.

(* ===================================================================== *)
(** ** config.go                                                          *)
(* ===================================================================== *)

Definition keycloakURL : string := "http://localhost:8080/realms/users".
Definition jwksURL : string := keycloakURL +:+ "/protocol/openid-connect/certs".
Definition keycloakIntrospectURL : string :=
  keycloakURL +:+ "/protocol/openid-connect/token/introspect".
Definition serverClientID : string := "36601c4e-2027-41f9-b02e-c6a06e20d171".
Definition serverClientSecret : string := "TPuXmlD9X4nzLb5toUTi6MnmWUtoT88U".

(* ===================================================================== *)
(** ** helper.go                                                          *)
(* ===================================================================== *)

Definition msgHeaderRequired : string := "Authorization header required".
Definition msgHeaderFormat : string :=
  "Invalid authorization header format. Expected: Bearer <token>".

(** [extractBearerToken(c)]: the token and the success flag, with the
    context as the call leaves it. *)
Definition extractBearerToken (c : Context) : (string * bool) * Context :=
  (* Step 1: Check if Authorization header exists *)
  let authHeader := GetHeader c "Authorization" in
  if String.eqb authHeader "" then
    let c := JSON c StatusUnauthorized {[ "error" := Lit msgHeaderRequired ]} in
    let c := Abort c in
    ("", false, c)
  else
    (* Step 2: Extract Bearer token from "Bearer <token>" format *)
    let parts := GoStrings.Split authHeader " " in
    if negb (Nat.eqb (length parts) 2)
       || negb (String.eqb (default "" (parts !! O)) "Bearer") then
      let c := JSON c StatusUnauthorized {[ "error" := Lit msgHeaderFormat ]} in
      let c := Abort c in
      ("", false, c)
    else
      (default "" (parts !! 1%nat), true, c).

(* ===================================================================== *)
(** ** Go standard library: base64, big integers, RSA public keys         *)
(* ===================================================================== *)

Module base64.

(** The value of a character of the URL-safe alphabet
    [A-Z a-z 0-9 - _]. *)
Definition decodeMap (c : ascii) : option Z :=
  let n := Z.of_nat (nat_of_ascii c) in
  if (65 <=? n) && (n <=? 90) then Some (n - 65)
  else if (97 <=? n) && (n <=? 122) then Some (n - 97 + 26)
  else if (48 <=? n) && (n <=? 57) then Some (n - 48 + 52)
  else if n =? 45 then Some 62
  else if n =? 95 then Some 63
  else None.

(** The decoder ignores carriage returns and line feeds; any other
    character outside the alphabet (the padding character included, as the
    raw encoding has none) is a [CorruptInputError]. *)
Fixpoint sextets (s : string) : option (list Z) :=
  match s with
  | EmptyString => Some []
  | String c s' =>
      let n := nat_of_ascii c in
      if Nat.eqb n 10 || Nat.eqb n 13 then sextets s'
      else match decodeMap c, sextets s' with
           | Some v, Some vs => Some (v :: vs)
           | _, _ => None
           end
  end.

(** Quanta of four characters give three bytes; a final quantum of two or
    three characters gives one or two bytes (its spare low bits are not
    checked: the encoding is not strict); a single left-over character is
    an error. *)
Fixpoint quanta (vs : list Z) : option (list Z) :=
  match vs with
  | [] => Some []
  | [_] => None
  | [a; b] => Some [Z.land (Z.lor (Z.shiftl a 2) (Z.shiftr b 4)) 255]
  | [a; b; c] =>
      Some [Z.land (Z.lor (Z.shiftl a 2) (Z.shiftr b 4)) 255;
            Z.land (Z.lor (Z.shiftl b 4) (Z.shiftr c 2)) 255]
  | a :: b :: c :: d :: rest =>
      match quanta rest with
      | Some bs =>
          Some (Z.land (Z.lor (Z.shiftl a 2) (Z.shiftr b 4)) 255
                :: Z.land (Z.lor (Z.shiftl b 4) (Z.shiftr c 2)) 255
                :: Z.land (Z.lor (Z.shiftl c 6) d) 255
                :: bs)
      | None => None
      end
  end.

(** [CorruptInputError(n)], with the text its [Error()] gives. *)
Definition CorruptInputError (n : nat) : error :=
  ErrorNew ("illegal base64 data at input byte "
            +:+ NilZero.string_of_uint (Nat.to_uint n)).

(** The index of the first character the decoder does not take: neither of
    the alphabet nor a line break. *)
Fixpoint firstInvalid (s : string) : nat :=
  match s with
  | EmptyString => O
  | String c s' =>
      let n := nat_of_ascii c in
      if Nat.eqb n 10 || Nat.eqb n 13 then S (firstInvalid s')
      else match decodeMap c with
           | Some _ => S (firstInvalid s')
           | None => O
           end
  end.

(** [base64.RawURLEncoding.DecodeString(s)]: the error is at the first
    character that is not taken, or, for a single left-over character, at
    the last byte of the input. *)
Definition RawURLEncoding_DecodeString (s : string) : error + list Z :=
  match sextets s with
  | Some vs =>
      match quanta vs with
      | Some bs => inr bs
      | None => inl (CorruptInputError (String.length s - 1))
      end
  | None => inl (CorruptInputError (firstInvalid s))
  end.

End base64.

Module big.

(** [new(big.Int).SetBytes(buf)]: [buf] read as a big-endian unsigned
    integer. *)
Definition SetBytes (buf : list Z) : Z :=
  fold_left (fun acc b => acc * 256 + b) buf 0.

(** [x.Int64()] for [x >= 0]: the low 64 bits, as a signed integer. *)
Definition Int64 (x : Z) : Z :=
  (x + 2 ^ 63) mod 2 ^ 64 - 2 ^ 63.

End big.

Module rsa.

(** [rsa.PublicKey]; [E] is an [int] (64 bits). *)
Record PublicKey : Type := mkPublicKey { N : Z; E : Z }.

End rsa.

(* ===================================================================== *)
(** ** Data structures of jwt.go and tokenintrospect.go                   *)
(* ===================================================================== *)

(** A point in time ([time.Time], [*jwt.NumericDate]): an integer count of
    clock ticks. *)
Abbreviation Time := Z (only parsing).

(** [JWK]: a single JSON Web Key. *)
Record JWK : Type := mkJWK {
  Kid : string;   (* Key ID *)
  Kty : string;   (* Key Type (RSA) *)
  Alg : string;   (* Algorithm (RS256) *)
  Use : string;   (* Usage (sig for signature) *)
  JWK_N : string; (* Modulus, field [N] *)
  JWK_E : string  (* Exponent, field [E] *)
}.

(** [JWKS]: the JSON Web Key Set document. *)
Record JWKS : Type := mkJWKS { JWKS_Keys : list JWK }.

(** [jwt.RegisteredClaims]; a nil [*NumericDate] is [None]. *)
Record RegisteredClaims : Type := mkRegisteredClaims {
  Issuer : string;
  Subject : string;
  Audience : list string;
  ExpiresAt : option Time;
  NotBefore : option Time;
  IssuedAt : option Time;
  ID : string
}.

(** [CustomClaims]. *)
Record CustomClaims : Type := mkCustomClaims {
  Registered : RegisteredClaims;
  PreferredUsername : string;
  Email : string;
  Name : string
}.

(** [IntrospectionResponse]. *)
Record IntrospectionResponse : Type := mkIntrospectionResponse {
  Active : bool;
  Exp : Z;
  Iat : Z;
  ClientID : string;
  Username : string;
  TokenType : string;
  Sub : string;
  IR_Email : string  (* field [Email] *)
}.

(* ===================================================================== *)
(** ** net/http requests and responses                                    *)
(* ===================================================================== *)

Module http.

(** An outgoing request: method, URL, header and the form values of the
    body ([url.Values], written by [Encode] in key order). *)
Record Request : Type := mkRequest {
  Method : string;
  URL : string;
  Header : gmap string string;
  Form : gmap string string
}.

(** What [client.Do] hands back when the round trip worked: the status
    code and what [io.ReadAll(resp.Body)] will give. *)
Record Response : Type := mkResponse {
  StatusCode : Z;
  Body : error + string
}.

End http.

(* ===================================================================== *)
(** ** github.com/golang-jwt/jwt/v5, as far as [verifyToken] drives it     *)
(* ===================================================================== *)

Module jwt.

Inductive Hash : Type := SHA256 | SHA384 | SHA512.

(** The registered signing methods, by their Go type. *)
Inductive SigningMethod : Type :=
  | SigningMethodRSA (h : Hash)       (* RS256 RS384 RS512 *)
  | SigningMethodRSAPSS (h : Hash)    (* PS256 PS384 PS512 *)
  | SigningMethodHMAC (h : Hash)      (* HS256 HS384 HS512 *)
  | SigningMethodECDSA (h : Hash)     (* ES256 ES384 ES512 *)
  | SigningMethodEd25519              (* EdDSA *)
  | signingMethodNone.                (* none *)

(** [jwt.GetSigningMethod(alg)]. *)
Definition GetSigningMethod (alg : string) : option SigningMethod :=
  if String.eqb alg "RS256" then Some (SigningMethodRSA SHA256)
  else if String.eqb alg "RS384" then Some (SigningMethodRSA SHA384)
  else if String.eqb alg "RS512" then Some (SigningMethodRSA SHA512)
  else if String.eqb alg "PS256" then Some (SigningMethodRSAPSS SHA256)
  else if String.eqb alg "PS384" then Some (SigningMethodRSAPSS SHA384)
  else if String.eqb alg "PS512" then Some (SigningMethodRSAPSS SHA512)
  else if String.eqb alg "HS256" then Some (SigningMethodHMAC SHA256)
  else if String.eqb alg "HS384" then Some (SigningMethodHMAC SHA384)
  else if String.eqb alg "HS512" then Some (SigningMethodHMAC SHA512)
  else if String.eqb alg "ES256" then Some (SigningMethodECDSA SHA256)
  else if String.eqb alg "ES384" then Some (SigningMethodECDSA SHA384)
  else if String.eqb alg "ES512" then Some (SigningMethodECDSA SHA512)
  else if String.eqb alg "EdDSA" then Some SigningMethodEd25519
  else if String.eqb alg "none" then Some signingMethodNone
  else None.

(** [jwt.Token]. *)
Record Token : Type := mkToken {
  Raw : string;
  Method : SigningMethod;
  Header : gmap string Value;
  Claims : CustomClaims;
  Signature : list Z;
  Valid : bool
}.

(** The default validator ([Validator.Validate]): the expiry and the
    not-before time are checked when the claim is there; issued-at,
    audience, issuer and subject are checked only on request, and
    [verifyToken] requests nothing.  All failures are joined. *)
Definition verifyExpiresAt (claims : CustomClaims) (now : Time) : bool :=
  match ExpiresAt (Registered claims) with
  | None => true
  | Some exp => now <? exp                 (* now.Before(exp) *)
  end.

Definition verifyNotBefore (claims : CustomClaims) (now : Time) : bool :=
  match NotBefore (Registered claims) with
  | None => true
  | Some nbf => negb (now <? nbf)          (* !now.Before(nbf) *)
  end.

Definition Validate (claims : CustomClaims) (now : Time) : option error :=
  let errs :=
    (if verifyExpiresAt claims now then [] else [ErrTokenExpired])
    ++ (if verifyNotBefore claims now then [] else [ErrTokenNotValidYet]) in
  match errs with
  | [] => None
  | _ :: _ => Some (Joined errs)
  end.

End jwt.

(* ===================================================================== *)
(** ** What the package takes from outside                                *)
(* ===================================================================== *)

(** The operations whose results the package only consumes: the HTTP round
    trip to the identity provider, the JSON decoder at each of the four types
    it is used at, and the RSA signature check of a signing method. *)
Class External : Type := {
  (** [client.Do(req)] and [http.Get(url)]. *)
  Do : http.Request -> error + http.Response;
  (** [json.Unmarshal(body, &jwks)]. *)
  UnmarshalJWKS : string -> error + JWKS;
  (** [json.Unmarshal(body, &introspectResp)]. *)
  UnmarshalIntrospection : string -> error + IntrospectionResponse;
  (** [json.Unmarshal(headerBytes, &token.Header)]. *)
  UnmarshalHeader : list Z -> error + gmap string Value;
  (** The JSON decoding of the claims segment into [CustomClaims]. *)
  UnmarshalClaims : list Z -> error + CustomClaims;
  (** [method.Verify(signingString, sig, key)]: [None] is a nil error. *)
  Verify : jwt.SigningMethod -> string -> list Z -> rsa.PublicKey -> option error
}.

Section Package.

Context {ext : External}.

(* ------------------------------------------------------------------- *)
(** *** The parser of golang-jwt                                        *)
(* ------------------------------------------------------------------- *)

(** [Parser.ParseUnverified]: the token is cut at its dots into exactly
    three segments, the first two are base64url- and JSON-decoded, and the
    signing method is looked up from the header's [alg].  The result is
    the token and its segments.  (For a header segment that is not
    base64url the library words its message after the token's prefix; the
    sentinel is the same.) *)
Definition ParseUnverified (tokenString : string)
  : error + (jwt.Token * (string * string * string)) :=
  match GoStrings.Split tokenString "." with
  | [p0; p1; p2] =>
      match base64.RawURLEncoding_DecodeString p0 with
      | inl err => inl (JWTError "could not base64 decode header" ErrTokenMalformed (Some err))
      | inr headerBytes =>
      match UnmarshalHeader headerBytes with
      | inl err => inl (JWTError "could not JSON decode header" ErrTokenMalformed (Some err))
      | inr header =>
      match base64.RawURLEncoding_DecodeString p1 with
      | inl err => inl (JWTError "could not base64 decode claim" ErrTokenMalformed (Some err))
      | inr claimBytes =>
      match UnmarshalClaims claimBytes with
      | inl err => inl (JWTError "could not JSON decode claim" ErrTokenMalformed (Some err))
      | inr claims =>
      match header !! "alg" with
      | Some (VString alg) =>
          match jwt.GetSigningMethod alg with
          | Some method =>
              inr ({| jwt.Raw := tokenString; jwt.Method := method;
                      jwt.Header := header; jwt.Claims := claims;
                      jwt.Signature := []; jwt.Valid := false |},
                   (p0, p1, p2))
          | None =>
              inl (JWTError "signing method (alg) is unavailable" ErrTokenUnverifiable None)
          end
      | _ => inl (JWTError "signing method (alg) is unspecified" ErrTokenUnverifiable None)
      end end end end end
  | _ => inl (JWTError "token contains an invalid number of segments" ErrTokenMalformed None)
  end.

(** [jwt.ParseWithClaims(tokenString, &CustomClaims{}, keyFunc)] with the
    default parser: decode, fetch the key through [keyFunc], check the
    signature over the first two segments, then validate the registered
    claims at the clock reading [now].  The token comes back valid, or an
    error does. *)
Definition ParseWithClaims (tokenString : string)
    (keyFunc : jwt.Token -> error + rsa.PublicKey) (now : Time)
  : error + jwt.Token :=
  match ParseUnverified tokenString with
  | inl err => inl err
  | inr (token, (p0, p1, p2)) =>
      match base64.RawURLEncoding_DecodeString p2 with
      | inl err =>
          inl (JWTError "could not base64 decode signature" ErrTokenMalformed (Some err))
      | inr sig =>
          let token :=
            {| jwt.Raw := jwt.Raw token; jwt.Method := jwt.Method token;
               jwt.Header := jwt.Header token; jwt.Claims := jwt.Claims token;
               jwt.Signature := sig; jwt.Valid := false |} in
          let text := p0 +:+ "." +:+ p1 in
          match keyFunc token with
          | inl err =>
              inl (JWTError "error while executing keyfunc" ErrTokenUnverifiable (Some err))
          | inr key =>
              match Verify (jwt.Method token) text sig key with
              | Some err => inl (JWTError "" ErrTokenSignatureInvalid (Some err))
              | None =>
                  match jwt.Validate (jwt.Claims token) now with
                  | Some err => inl (JWTError "" ErrTokenInvalidClaims (Some err))
                  | None =>
                      inr {| jwt.Raw := jwt.Raw token; jwt.Method := jwt.Method token;
                             jwt.Header := jwt.Header token;
                             jwt.Claims := jwt.Claims token;
                             jwt.Signature := sig; jwt.Valid := true |}
                  end
              end
          end
      end
  end.

(* ------------------------------------------------------------------- *)
(** *** jwt.go                                                          *)
(* ------------------------------------------------------------------- *)

(** [fetchJWKS()]. *)
Definition fetchJWKS : error + JWKS :=
  match Do {| http.Method := "GET"; http.URL := jwksURL;
              http.Header := ∅; http.Form := ∅ |} with
  | inl err => inl (Errorf "failed to fetch JWKS: %w" [] (Some err))
  | inr resp =>
      if negb (http.StatusCode resp =? StatusOK) then
        inl (Errorf "failed to fetch JWKS: status code %d"
                    [ArgInt (http.StatusCode resp)] None)
      else
        match http.Body resp with
        | inl err => inl (Errorf "failed to read JWKS response: %w" [] (Some err))
        | inr body =>
            match UnmarshalJWKS body with
            | inl err => inl (Errorf "failed to parse JWKS: %w" [] (Some err))
            | inr jwks => inr jwks
            end
        end
  end.

(** [jwkToRSAPublicKey(jwk)]. *)
Definition jwkToRSAPublicKey (jwk : JWK) : error + rsa.PublicKey :=
  (* Decode the modulus (n) *)
  match base64.RawURLEncoding_DecodeString (JWK_N jwk) with
  | inl err => inl (Errorf "failed to decode modulus: %w" [] (Some err))
  | inr nBytes =>
      (* Decode the exponent (e) *)
      match base64.RawURLEncoding_DecodeString (JWK_E jwk) with
      | inl err => inl (Errorf "failed to decode exponent: %w" [] (Some err))
      | inr eBytes =>
          (* Convert bytes to big integers *)
          let n := big.SetBytes nBytes in
          let e := big.SetBytes eBytes in
          (* Create RSA public key *)
          inr {| rsa.N := n; rsa.E := big.Int64 e |}
      end
  end.

(** The loop of [GetKeycloakPublicKey] over [keys.Keys], writing into the
    map [publicKeys] refers to. *)
Fixpoint convertKeys (keys : list JWK) (publicKeys : gmap string rsa.PublicKey)
  : gmap string rsa.PublicKey * option error :=
  match keys with
  | [] => (publicKeys, None)
  | key :: keys' =>
      match jwkToRSAPublicKey key with
      | inl err =>
          (publicKeys,
           Some (Errorf "failed to convert JWK to RSA public key: %w" [] (Some err)))
      | inr pubKey => convertKeys keys' (<[Kid key := pubKey]> publicKeys)
      end
  end.

(** [GetKeycloakPublicKey()]: from the value of the package variable
    [publicKeys] before the call to its value after the call, and the
    returned error. *)
Definition GetKeycloakPublicKey (publicKeys : gmap string rsa.PublicKey)
  : gmap string rsa.PublicKey * option error :=
  (* Fetch JWKS (JSON Web Key Set) from Keycloak *)
  match fetchJWKS with
  | inl err => (publicKeys, Some (Errorf "failed to fetch JWKS: %w" [] (Some err)))
  | inr keys =>
      (* Convert JWKs to RSA public keys *)
      let publicKeys : gmap string rsa.PublicKey := ∅ in
      convertKeys (JWKS_Keys keys) publicKeys
  end.

(** The key function [verifyToken] passes to the parser. *)
Definition keyFunc (publicKeys : gmap string rsa.PublicKey) (token : jwt.Token)
  : error + rsa.PublicKey :=
  (* Verify the signing method is RSA *)
  match jwt.Method token with
  | jwt.SigningMethodRSA _ =>
      (* Get the key ID from token header *)
      match jwt.Header token !! "kid" with
      | Some (VString kid) =>
          (* Get the corresponding public key *)
          match publicKeys !! kid with
          | Some publicKey => inr publicKey
          | None => inl (Errorf "public key not found for kid: %s" [ArgString kid] None)
          end
      | _ => inl (Errorf "kid header not found in token" [] None)
      end
  | _ =>
      inl (Errorf "unexpected signing method: %v"
                  [ArgValue (jwt.Header token !! "alg")] None)
  end.

(** The audience loop of [verifyToken]. *)
Definition validAudience (audience : list string) : bool :=
  existsb (fun aud => String.eqb aud "account") audience.

(** [verifyToken(tokenString)], reading the package variable [publicKeys];
    [now] is the clock as the parser reads it, [now'] the clock as the
    expiry check of [verifyToken] reads it afterwards. *)
Definition verifyToken (publicKeys : gmap string rsa.PublicKey) (now now' : Time)
    (tokenString : string) : error + CustomClaims :=
  (* Parse the token *)
  match ParseWithClaims tokenString (keyFunc publicKeys) now with
  | inl err => inl (Errorf "failed to parse token: %w" [] (Some err))
  | inr token =>
      (* Extract and validate claims *)
      let claims := jwt.Claims token in
      if negb (jwt.Valid token) then inl (Errorf "invalid token claims" [] None)
      else
        (* Validate issuer *)
        let expectedIssuer := keycloakURL in
        if negb (String.eqb (Issuer (Registered claims)) expectedIssuer) then
          inl (Errorf "invalid issuer: expected %s, got %s"
                      [ArgString expectedIssuer;
                       ArgString (Issuer (Registered claims))] None)
        else
          (* Validate expiration *)
          if match ExpiresAt (Registered claims) with
             | Some exp => exp <? now'      (* ExpiresAt.Before(time.Now()) *)
             | None => false
             end
          then inl (Errorf "token has expired" [] None)
          else
            (* Validate audience (optional, based on your needs) *)
            if negb (Nat.eqb (length (Audience (Registered claims))) 0)
               && negb (validAudience (Audience (Registered claims)))
            then inl (Errorf "invalid audience" [] None)
            else inr claims
  end.

(** [JWTAuthMiddleware()], the handler it returns. *)
Definition JWTAuthMiddleware (publicKeys : gmap string rsa.PublicKey)
    (now now' : Time) (c : Context) : Context :=
  (* Extract Bearer token from Authorization header *)
  let '(token, ok, c) := extractBearerToken c in
  if negb ok then c (* Error response already sent by extractBearerToken *)
  else
    (* Verify the JWT token *)
    match verifyToken publicKeys now now' token with
    | inl err =>
        let c := JSON c StatusUnauthorized
                   {[ "error" := Lit "Invalid or expired JWT token";
                      "detail" := ErrorString err;
                      "method" := Lit "JWT Validation" ]} in
        Abort c
    | inr claims =>
        (* Store user info in context for use in handlers *)
        let c := Set_ c "user_id" (Subject (Registered claims)) in
        let c := Set_ c "email" (Email claims) in
        (* Token is valid, continue to the next handler *)
        Next c
    end.

(* ------------------------------------------------------------------- *)
(** *** tokenintrospect.go                                              *)
(* ------------------------------------------------------------------- *)

(** The request [introspectToken] prepares: the form data, the POST to the
    introspection endpoint and its content type. *)
Definition introspectionRequest (token : string) : http.Request :=
  (* Prepare form data for introspection request *)
  let data : gmap string string :=
    <["client_secret" := serverClientSecret]>
      (<["client_id" := serverClientID]> (<["token" := token]> ∅)) in
  (* Create HTTP request to Keycloak introspection endpoint *)
  {| http.Method := "POST"; http.URL := keycloakIntrospectURL;
     http.Header := {[ "Content-Type" := "application/x-www-form-urlencoded" ]};
     http.Form := data |}.

(** [introspectToken(token)].  [http.NewRequest] cannot fail here: its
    method and URL are the constants ["POST"] and
    [keycloakIntrospectURL]. *)
Definition introspectToken (token : string) : error + IntrospectionResponse :=
  (* Prepare form data, create HTTP request to Keycloak introspection endpoint *)
  let req := introspectionRequest token in
  (* Send request to Keycloak *)
  match Do req with
  | inl err => inl (Errorf "failed to introspect token: %w" [] (Some err))
  | inr resp =>
      (* Read response body *)
      match http.Body resp with
      | inl err => inl (Errorf "failed to read introspection response: %w" [] (Some err))
      | inr body =>
          (* Check HTTP status code *)
          if negb (http.StatusCode resp =? StatusOK) then
            inl (Errorf "introspection failed with status %d: %s"
                        [ArgInt (http.StatusCode resp); ArgString body] None)
          else
            (* Parse JSON response *)
            match UnmarshalIntrospection body with
            | inl err =>
                inl (Errorf "failed to parse introspection response: %w" [] (Some err))
            | inr introspectResp => inr introspectResp
            end
      end
  end.

(** [TokenIntrospectionMiddleware()], the handler it returns. *)
Definition TokenIntrospectionMiddleware (c : Context) : Context :=
  (* Extract Bearer token from Authorization header *)
  let '(token, ok, c) := extractBearerToken c in
  if negb ok then c (* Error response already sent by extractBearerToken *)
  else
    (* Introspect the token with Keycloak *)
    match introspectToken token with
    | inl err =>
        let c := JSON c StatusInternalServerError
                   {[ "error" := Lit "Failed to introspect token";
                      "detail" := ErrorString err;
                      "method" := Lit "Token Introspection" ]} in
        Abort c
    | inr introspectResp =>
        (* Step 4: Check if token is active *)
        if negb (Active introspectResp) then
          let c := JSON c StatusUnauthorized
                     {[ "error" := Lit "Token is not active or has been revoked";
                        "method" := Lit "Token Introspection" ]} in
          Abort c
        else
          (* Store user info in context for use in handlers *)
          let c := Set_ c "user_id" (Sub introspectResp) in
          let c := Set_ c "email" (IR_Email introspectResp) in
          (* Token is valid and active, continue to the next handler *)
          Next c
    end.

End Package.

(* ===================================================================== *)
(** ** The failures of the design, read off the results                   *)
(* ===================================================================== *)

(** How a failed [verifyToken] or [introspectToken] is told apart: by the
    sentinel of the JWT library in the error's chain, or by the format of
    the error this package created. *)
Definition UnknownKey (err : error) : bool :=
  hasFormat err "public key not found for kid: %s".

Definition BadSignature (err : error) : bool :=
  Is err ErrTokenSignatureInvalid.

Definition Expired (err : error) : bool :=
  Is err ErrTokenExpired || hasFormat err "token has expired".

Definition InvalidAudience (err : error) : bool :=
  hasFormat err "invalid audience".


Definition MalformedResponse (err : error) : bool :=
  hasFormat err "failed to parse introspection response: %w".

(** The two rejections of the bearer extractor, as the response it writes. *)
Definition MissingHeader (c : Context) : (string * bool) * Context :=
  ("", false, Abort (JSON c StatusUnauthorized {[ "error" := Lit msgHeaderRequired ]})).

Definition MalformedHeader (c : Context) : (string * bool) * Context :=
  ("", false, Abort (JSON c StatusUnauthorized {[ "error" := Lit msgHeaderFormat ]})).

(** [hasSpace s]: [s] has a space character (U+0020). *)
Fixpoint hasSpace (s : string) : bool :=
  match s with
  | EmptyString => false
  | String c s' => Ascii.eqb c " " || hasSpace s'
  end.

(** The parts of a header when "whitespace-separated" is read as
    [strings.Fields] reads it: maximal runs of non-whitespace characters. *)
Definition isSpace (c : ascii) : bool :=
  let n := nat_of_ascii c in
  (Nat.eqb n 32 || Nat.eqb n 9 || Nat.eqb n 10 || Nat.eqb n 11
   || Nat.eqb n 12 || Nat.eqb n 13)%nat.

Fixpoint fieldsFrom (s cur : string) : list string :=
  match s with
  | EmptyString => match cur with EmptyString => [] | _ => [cur] end
  | String c s' =>
      if isSpace c
      then match cur with
           | EmptyString => fieldsFrom s' EmptyString
           | _ => cur :: fieldsFrom s' EmptyString
           end
      else fieldsFrom s' (cur +:+ String c EmptyString)
  end.

Definition whitespaceSeparatedParts (s : string) : list string :=
  fieldsFrom s EmptyString.

(** Whether a header "splits into exactly two whitespace-separated parts
    with the first part equal to [Bearer]", and then its second part. *)
Definition twoPartsBearer (header : string) : option string :=
  match whitespaceSeparatedParts header with
  | [p0; p1] => if String.eqb p0 "Bearer" then Some p1 else None
  | _ => None
  end.

(** [converts jwk pk]: the key record [jwk] converts to the public key
    [pk]. *)
Definition converts (jwk : JWK) (pk : rsa.PublicKey) : Prop :=
  jwkToRSAPublicKey jwk = inr pk.

(** The mapping that holds exactly the converted keys [pks] of the records
    [keys], each under its record's key identifier; of two records with one
    identifier the later one counts. *)
Definition keyTable (keys : list JWK) (pks : list rsa.PublicKey)
  : gmap string rsa.PublicKey :=
  list_to_map (reverse (zip (Kid <$> keys) pks)).

(** The identity attributes of a request context. *)
Definition identityStored (c : Context) : Prop :=
  is_Some (Keys c !! "user_id") /\ is_Some (Keys c !! "email").

Definition noIdentity (c : Context) : Prop :=
  Keys c !! "user_id" = None /\ Keys c !! "email" = None.

(** The three ways a middleware of verification method [method] leaves a request
    it was entered with in context [c]: rejected by the bearer extractor,
    rejected by the middleware itself with a response of its own, or authorized
    with the two identity attributes stored and the downstream handlers
    run. *)
Inductive MiddlewareOutcome (c : Context) (method : string) : Context -> Prop :=
  | RejectedByExtractor (msg : string) :
      snd (fst (extractBearerToken c)) = false ->
      MiddlewareOutcome c method
        (Abort (JSON c StatusUnauthorized {[ "error" := Lit msg ]}))
  | RejectedByMiddleware (code : Z) (body : H) :
      snd (fst (extractBearerToken c)) = true ->
      is_Some (body !! "error") ->
      body !! "method" = Some (Lit method) ->
      MiddlewareOutcome c method (Abort (JSON c code body))
  | Authorized (user_id email : string) :
      snd (fst (extractBearerToken c)) = true ->
      MiddlewareOutcome c method (Next (Set_ (Set_ c "user_id" user_id) "email" email)).

(** What a rejection response carries: a reason always, the verification
    method when [named] and not otherwise. *)
Definition carries (method : string) (named : bool) (response : Z * H) : Prop :=
  is_Some (snd response !! "error")
  /\ snd response !! "method" = if named then Some (Lit method) else None.

(* ===================================================================== *)
(** ** A small identity provider to run the package against               *)
(* ===================================================================== *)

(** An instance of [External] on which every operation computes: textbook
    RSA over two small moduli for the signature check, and decoders that
    know the handful of documents below. *)
Module Sample.

(** The provider's published key ["k1"] with its private exponent, and a
    second key pair the provider never published. *)
Definition keyA : rsa.PublicKey := {| rsa.N := 3233; rsa.E := 17 |}.
Definition privA : Z := 2753.
Definition keyB : rsa.PublicKey := {| rsa.N := 8633; rsa.E := 5 |}.
Definition privB : Z := 5069.

(** The digest of a signing string. *)
Definition digest (text : string) : Z :=
  fold_left (fun acc c => acc * 31 + Z.of_nat (nat_of_ascii c))
            (list_ascii_of_string text) 7 mod 3001 + 2.

(** [b ^ e mod m] by repeated squaring. *)
Fixpoint powmod_pos (b : Z) (e : positive) (m : Z) : Z :=
  match e with
  | xH => b mod m
  | xO e' => let r := powmod_pos b e' m in (r * r) mod m
  | xI e' => let r := powmod_pos b e' m in (r * r * b) mod m
  end.

Definition powmod (b e m : Z) : Z :=
  match e with
  | Z0 => 1 mod m
  | Zpos p => powmod_pos b p m
  | Zneg _ => 0
  end.

(** Signing with a private exponent, and the matching check. *)
Definition sign (priv : Z) (key : rsa.PublicKey) (text : string) : Z :=
  powmod (digest text) priv (rsa.N key).

Definition verify (_ : jwt.SigningMethod) (text : string) (sig : list Z)
    (key : rsa.PublicKey) : option error :=
  if powmod (big.SetBytes sig) (rsa.E key) (rsa.N key) =? digest text mod rsa.N key
  then None
  else Some (ErrorNew "crypto/rsa: verification error").

(** Token headers, by the bytes of the header segment. *)
Definition unmarshalHeader (bytes : list Z) : error + gmap string Value :=
  match bytes with
  | [1] => inr {[ "alg" := VString "RS256"; "kid" := VString "k1" ]}
  | [2] => inr {[ "alg" := VString "RS256"; "kid" := VString "k9" ]}
  | [3] => inr {[ "alg" := VString "HS256"; "kid" := VString "k1" ]}
  | _ => inl (ErrorNew "invalid character")
  end.

Definition claimsOf (exp : option Time) (nbf : option Time) (aud : list string)
  : CustomClaims :=
  {| Registered :=
       {| Issuer := keycloakURL; Subject := "alice"; Audience := aud;
          ExpiresAt := exp; NotBefore := nbf; IssuedAt := None; ID := "" |};
     PreferredUsername := "alice"; Email := "alice@example.com";
     Name := "Alice" |}.

(** Token claims, by the bytes of the claims segment. *)
Definition unmarshalClaims (bytes : list Z) : error + CustomClaims :=
  match bytes with
  | [1] => inr (claimsOf (Some 2000) None ["account"])
  | [2] => inr (claimsOf (Some 500) None ["account"])
  | [3] => inr (claimsOf (Some 2000) None [])
  | [4] => inr (claimsOf (Some 2000) None ["other"; "web"])
  | [5] => inr (claimsOf (Some 2000) (Some 1500) [])
  | _ => inl (ErrorNew "invalid character")
  end.

(** Key-set documents, by their body. *)
Definition jwkA : JWK :=
  {| Kid := "k1"; Kty := "RSA"; Alg := "RS256"; Use := "sig";
     JWK_N := "DKE"; JWK_E := "EQ" |}.
Definition jwkBroken : JWK :=
  {| Kid := "k2"; Kty := "RSA"; Alg := "RS256"; Use := "sig";
     JWK_N := "DKE="; JWK_E := "EQ" |}.
Definition jwkC : JWK :=
  {| Kid := "k3"; Kty := "RSA"; Alg := "RS256"; Use := "sig";
     JWK_N := "Ibk"; JWK_E := "BQ" |}.

Definition unmarshalJWKS (body : string) : error + JWKS :=
  if String.eqb body "one-key" then inr {| JWKS_Keys := [jwkA] |}
  else if String.eqb body "three-keys-second-bad"
       then inr {| JWKS_Keys := [jwkA; jwkBroken; jwkC] |}
  else inl (ErrorNew "unexpected end of JSON input").

(** Introspection results, by their body. *)
Definition unmarshalIntrospection (body : string) : error + IntrospectionResponse :=
  if String.eqb body "active-alice" then
    inr {| Active := true; Exp := 2000; Iat := 900; ClientID := "web";
           Username := "alice"; TokenType := "Bearer"; Sub := "alice";
           IR_Email := "alice@example.com" |}
  else if String.eqb body "inactive" then
    inr {| Active := false; Exp := 0; Iat := 0; ClientID := "";
           Username := ""; TokenType := ""; Sub := ""; IR_Email := "" |}
  else inl (ErrorNew "invalid character").

(** The provider: the certs endpoint answers [certs]; the introspection
    endpoint answers by the token it is sent. *)
Definition roundTrip (certs : error + http.Response) (req : http.Request)
  : error + http.Response :=
  if String.eqb (http.URL req) jwksURL then certs
  else
    match http.Form req !! "token" with
    | Some token =>
        if String.eqb token "live" then
          inr {| http.StatusCode := 200; http.Body := inr "active-alice" |}
        else if String.eqb token "revoked" then
          inr {| http.StatusCode := 200; http.Body := inr "inactive" |}
        else if String.eqb token "outage" then
          inr {| http.StatusCode := 503; http.Body := inr "Service Unavailable" |}
        else if String.eqb token "garbled" then
          inr {| http.StatusCode := 200; http.Body := inr "<html>" |}
        else inl (ErrorNew "dial tcp: connection refused")
    | None => inl (ErrorNew "dial tcp: connection refused")
    end.

Definition provider (certs : error + http.Response) : External :=
  {| Do := roundTrip certs;
     UnmarshalJWKS := unmarshalJWKS;
     UnmarshalIntrospection := unmarshalIntrospection;
     UnmarshalHeader := unmarshalHeader;
     UnmarshalClaims := unmarshalClaims;
     Verify := verify |}.

(** The provider serving the one-key document. *)
Definition healthy : External :=
  provider (inr {| http.StatusCode := 200; http.Body := inr "one-key" |}).

(** The key-set cache after a successful start-up. *)
Definition publicKeys : gmap string rsa.PublicKey := {[ "k1" := keyA ]}.

(** Tokens: header [k1]/[RS256] unless said otherwise. *)
Definition tokGood : string := "AQ.AQ.AGo".           (* signed by A *)
Definition tokForged : string := "AQ.AQ.GBE".         (* signed by B *)
Definition tokUnknownKid : string := "Ag.AQ.B6g".     (* kid k9, signed by B *)
Definition tokExpired : string := "AQ.Ag.Bx8".        (* exp 500, signed by A *)
Definition tokForgedExpired : string := "AQ.Ag.IAs".  (* exp 500, signed by B *)
Definition tokNoAudience : string := "AQ.Aw.CCw".     (* no aud, signed by A *)
Definition tokOtherAudience : string := "AQ.BA.BN8".  (* aud other, signed by A *)

(** A request carrying [value] as its Authorization header. *)
Definition request (value : string) : Context :=
  newContext {[ "Authorization" := [value] ]}.

End Sample.

(* ===================================================================== *)
(** ** main.go: the handlers, the routes and the start-up                 *)
(* ===================================================================== *)

(** [countChar a s]: how often the character [a] occurs in [s]. *)
Fixpoint countChar (a : ascii) (s : string) : nat :=
  match s with
  | EmptyString => O
  | String c s' => (if Ascii.eqb c a then 1 else 0) + countChar a s'
  end.

(** A character the raw URL-safe decoder takes: one of the alphabet, or a
    carriage return or line feed, which it skips. *)
Definition base64Char (c : ascii) : bool :=
  match base64.decodeMap c with
  | Some _ => true
  | None => Nat.eqb (nat_of_ascii c) 10 || Nat.eqb (nat_of_ascii c) 13
  end.

Fixpoint allBase64 (s : string) : bool :=
  match s with
  | EmptyString => true
  | String c s' => base64Char c && allBase64 s'
  end.

(** The number of alphabet characters of [s], the skipped ones left out. *)
Fixpoint alphabetLength (s : string) : nat :=
  match s with
  | EmptyString => O
  | String c s' =>
      (match base64.decodeMap c with Some _ => 1 | None => 0 end) + alphabetLength s'
  end.

(** A string the raw URL-safe decoder accepts: only characters it takes,
    and not a single alphabet character left over after the groups of
    four. *)
Definition rawURLValid (s : string) : bool :=
  allBase64 s && negb (Nat.eqb (Nat.modulo (alphabetLength s) 4) 1).

(** The context an authorizing middleware returns for an un-aborted
    request. *)
Definition authorized (c : Context) (user_id email : string) : Context :=
  {| RequestHeader := RequestHeader c; Written := Written c; Aborted := false;
     Keys := <["email" := email]> (<["user_id" := user_id]> (Keys c));
     NextCalls := S (NextCalls c) |}.

Module server.

(** [Todo]. *)
Record Todo : Type := mkTodo {
  Todo_ID : string;      (* field [ID] *)
  Title : string;
  Description : string;
  Completed : bool
}.

(** [var todos]. *)
Definition todos : list Todo :=
  [ {| Todo_ID := "1"; Title := "Learn Go";
       Description := "Study Go programming language"; Completed := false |};
    {| Todo_ID := "2"; Title := "Build API";
       Description := "Create REST API with Gin"; Completed := false |};
    {| Todo_ID := "3"; Title := "Integrate Keycloak";
       Description := "Add authentication with Keycloak"; Completed := true |} ].

(** The JSON a handler of package main answers with.  The fields of an
    object are in the order the encoder writes them: a [gin.H] by key, a
    struct by field. *)
Inductive Json : Type :=
  | JNull
  | JString (s : string)
  | JBool (b : bool)
  | JArray (items : list Json)
  | JObject (fields : list (string * Json)).

Definition todoJson (t : Todo) : Json :=
  JObject [("id", JString (Todo_ID t)); ("title", JString (Title t));
           ("description", JString (Description t));
           ("completed", JBool (Completed t))].

(** [c.Get(key)] with the [exists] result dropped, as a JSON value: the
    stored string, or nil. *)
Definition Get (c : Context) (key : string) : Json :=
  match Keys c !! key with
  | Some value => JString value
  | None => JNull
  end.

(** [getTodosPublic(c)]: the response it writes. *)
Definition getTodosPublic (c : Context) : Z * Json :=
  (StatusOK,
   JObject [("data", JArray (map todoJson todos));
            ("message", JString "Public endpoint - no authentication required")]).

(** [getTodosPrivate(c)]: the response it writes. *)
Definition getTodosPrivate (c : Context) : Z * Json :=
  let userID := Get c "user_id" in
  let email := Get c "email" in
  let response :=
    JObject [("authenticated_user",
              JObject [("email", email); ("user_id", userID)]);
             ("data", JArray (map todoJson todos));
             ("message", JString "Protected endpoint - authentication required")] in
  (StatusOK, response).

(** A route registered as [router.GET(path, middleware, handler)]: the
    engine runs [middleware]; [handler], the next of the chain, runs inside
    the middleware's [c.Next()], its last statement, or not at all when the
    middleware aborted.  The result is the final context and what the
    handler wrote, if it ran. *)
Definition handle (middleware : Context -> Context) (handler : Context -> Z * Json)
    (c : Context) : Context * option (Z * Json) :=
  let c' := middleware c in
  if ranDownstream c c' then (c', Some (handler c')) else (c', None).

(** The response a client gets: the handler's when it ran, else the last
    one the middleware wrote. *)
Definition answer (served : Context * option (Z * Json)) : option (Z * (H + Json)) :=
  match snd served with
  | Some (code, body) => Some (code, inr body)
  | None =>
      match last (Written (fst served)) with
      | Some (code, body) => Some (code, inl body)
      | None => None
      end
  end.

End server.


Section Server.

Context {ext : External}.

(** The three routes of [main], for a request the engine hands to the
    route's chain. *)
Definition routePublic (c : Context) : Context * option (Z * server.Json) :=
  (c, Some (server.getTodosPublic c)).

Definition routePrivateJWT (publicKeys : gmap string rsa.PublicKey) (now now' : Time)
    (c : Context) : Context * option (Z * server.Json) :=
  server.handle (JWTAuthMiddleware publicKeys now now') server.getTodosPrivate c.


(** The value [main] panics with: [fmt.Sprintf(format, err)]. *)
Inductive PanicValue : Type :=
  | Sprintf (format : string) (err : error).

(** Where [main] is: it has panicked; it is inside [router.Run], the server
    listening and the routes served with the keys loaded; or [router.Run]
    has returned without an error and [main] has returned. *)
Inductive Startup : Type :=
  | Panic (value : PanicValue)
  | Listening (publicKeys : gmap string rsa.PublicKey)
  | Returned.

(** [main] from its start to its call of [router.Run(serverPort)]: the key
    set is loaded into the still empty [publicKeys]; an error panics,
    otherwise the router is set up and run with the keys loaded.  (The CORS
    configuration and the registration of the routes cannot fail.) *)
Definition main : Startup :=
  match GetKeycloakPublicKey ∅ with
  | (_, Some err) => Panic (Sprintf "Failed to initialize JWT: %v" err)
  | (publicKeys, None) => Listening publicKeys
  end.

(** [main] to its end, [run] being what [router.Run] returns once it
    returns: an error of the server panics. *)
Definition mainEnd (run : option error) : Startup :=
  match main with
  | Listening _ =>
      match run with
      | Some err => Panic (Sprintf "Failed to start server: %v" err)
      | None => Returned
      end
  | stopped => stopped
  end.

(** What makes [verifyToken] accept [tokenString] with [claims]: the token
    decodes, is of an RSA method, names a cached key under which its
    signature verifies, its time claims hold at both clock readings, its
    issuer is the configured one and its audience is empty or has
    ["account"]. *)
Definition Accepts (publicKeys : gmap string rsa.PublicKey) (now now' : Time)
    (tokenString : string) (claims : CustomClaims) : Prop :=
  exists token p0 p1 p2 sig h kid key,
    ParseUnverified tokenString = inr (token, (p0, p1, p2))
    /\ base64.RawURLEncoding_DecodeString p2 = inr sig
    /\ jwt.Method token = jwt.SigningMethodRSA h
    /\ jwt.Header token !! "kid" = Some (VString kid)
    /\ publicKeys !! kid = Some key
    /\ Verify (jwt.Method token) (p0 +:+ "." +:+ p1) sig key = None
    /\ claims = jwt.Claims token
    /\ (forall exp, ExpiresAt (Registered claims) = Some exp -> now < exp /\ now' <= exp)
    /\ (forall nbf, NotBefore (Registered claims) = Some nbf -> nbf <= now)
    /\ Issuer (Registered claims) = keycloakURL
    /\ (Audience (Registered claims) = [] \/ In "account" (Audience (Registered claims))).

End Server.

(** A second provider for the runs below: the sample one, knowing in
    addition a header without [kid], one whose [kid] is a number, and
    claims of another issuer. *)
Module Probe.

Definition unmarshalHeader (bytes : list Z) : error + gmap string Value :=
  match bytes with
  | [4] => inr {[ "alg" := VString "RS256" ]}
  | [5] => inr {[ "alg" := VString "RS256"; "kid" := VNumber 7 ]}
  | _ => Sample.unmarshalHeader bytes
  end.

Definition unmarshalClaims (bytes : list Z) : error + CustomClaims :=
  match bytes with
  | [6] =>
      inr {| Registered :=
               {| Issuer := "http://localhost:8080/realms/staff"; Subject := "mallory";
                  Audience := ["account"]; ExpiresAt := Some 2000; NotBefore := None;
                  IssuedAt := None; ID := "" |};
             PreferredUsername := "mallory"; Email := "mallory@example.com";
             Name := "Mallory" |}
  | _ => Sample.unmarshalClaims bytes
  end.

Definition provider : External :=
  {| Do := Sample.roundTrip
             (inr {| http.StatusCode := 200; http.Body := inr "one-key" |});
     UnmarshalJWKS := Sample.unmarshalJWKS;
     UnmarshalIntrospection := Sample.unmarshalIntrospection;
     UnmarshalHeader := unmarshalHeader;
     UnmarshalClaims := unmarshalClaims;
     Verify := Sample.verify |}.

(** A key-set document in which the identifier [k1] comes twice, with two
    different exponents, and the provider serving it. *)
Definition jwkRotated : JWK :=
  {| Kid := "k1"; Kty := "RSA"; Alg := "RS256"; Use := "sig";
     JWK_N := "DKE"; JWK_E := "AQAB" |}.

Definition unmarshalJWKS (body : string) : error + JWKS :=
  if String.eqb body "k1-twice"
  then inr {| JWKS_Keys := [Sample.jwkA; jwkRotated; Sample.jwkC] |}
  else Sample.unmarshalJWKS body.

Definition rotating : External :=
  {| Do := Sample.roundTrip
             (inr {| http.StatusCode := 200; http.Body := inr "k1-twice" |});
     UnmarshalJWKS := unmarshalJWKS;
     UnmarshalIntrospection := Sample.unmarshalIntrospection;
     UnmarshalHeader := unmarshalHeader;
     UnmarshalClaims := unmarshalClaims;
     Verify := Sample.verify |}.

Definition tokNoKid : string := "BA.AQ.AGo".        (* header without kid *)
Definition tokNumberKid : string := "BQ.AQ.AGo".    (* kid is the number 7 *)
Definition tokHMAC : string := "Aw.AQ.BJE".         (* alg HS256 *)
Definition tokOtherIssuer : string := "AQ.Bg.BPg".  (* issuer .../staff, signed by A *)
Definition tokNotYet : string := "AQ.BQ.CTw".       (* nbf 1500, signed by A *)

End Probe.

(* ===================================================================== *)
(** ** The library functions on small inputs                              *)
(* ===================================================================== *)

Example Split_two : GoStrings.Split "Bearer abc" " " = ["Bearer"; "abc"].
Proof. reflexivity. Qed.

Example Split_double_space : GoStrings.Split "Bearer  abc" " " = ["Bearer"; ""; "abc"].
Proof. reflexivity. Qed.

Example Split_no_sep : GoStrings.Split "Bearer" " " = ["Bearer"].
Proof. reflexivity. Qed.

Example Split_long_sep : GoStrings.Split "a--b-c----" "--" = ["a"; "b-c"; ""; ""].
Proof. reflexivity. Qed.

Example base64_AQAB : base64.RawURLEncoding_DecodeString "AQAB" = inr [1; 0; 1].
Proof. reflexivity. Qed.

Example base64_short : base64.RawURLEncoding_DecodeString "_-8" = inr [255; 239].
Proof. reflexivity. Qed.

Example base64_padded :
  base64.RawURLEncoding_DecodeString "AQ=="
  = inl (ErrorNew "illegal base64 data at input byte 2").
Proof. reflexivity. Qed.

Example SetBytes_65537 : big.SetBytes [1; 0; 1] = 65537.
Proof. reflexivity. Qed.

(* ===================================================================== *)
(** ** [strings.Split] on a single space                                  *)
(* ===================================================================== *)

Lemma append_cons (a : ascii) (s t : string) :
  String a s +:+ t = String a (s +:+ t).
Proof. reflexivity. Qed.

Lemma append_empty_r (s : string) : s +:+ "" = s.
Proof. induction s as [|a s IH]; [reflexivity|]. rewrite append_cons, IH. reflexivity. Qed.

Lemma append_assoc (s t u : string) : (s +:+ t) +:+ u = s +:+ (t +:+ u).
Proof.
  induction s as [|a s IH]; [reflexivity|].
  rewrite !append_cons, IH. reflexivity.
Qed.

Lemma hasSpace_append (s t : string) :
  hasSpace (s +:+ t) = hasSpace s || hasSpace t.
Proof.
  induction s as [|a s IH]; [reflexivity|].
  rewrite append_cons. cbn [hasSpace]. rewrite IH. apply orb_assoc.
Qed.

(** One step of the scan. *)
Lemma genSplit_space_step (c : ascii) (s cur : string) :
  GoStrings.genSplit " " (String c s) cur O =
  if Ascii.eqb c " "
  then cur :: GoStrings.genSplit " " s "" O
  else GoStrings.genSplit " " s (cur +:+ String c "") O.
Proof.
  cbn [GoStrings.genSplit GoStrings.HasPrefix String.length Nat.sub].
  rewrite andb_true_r. reflexivity.
Qed.

(** Without a space nothing is cut. *)
Lemma genSplit_no_space (s cur : string) :
  hasSpace s = false -> GoStrings.genSplit " " s cur O = [cur +:+ s].
Proof.
  revert cur. induction s as [|c s IH]; intros cur Hs.
  - cbn [GoStrings.genSplit]. rewrite append_empty_r. reflexivity.
  - cbn [hasSpace] in Hs. apply orb_false_iff in Hs as [Hc Hs].
    rewrite genSplit_space_step, Hc, IH by assumption.
    rewrite append_assoc. reflexivity.
Qed.

(** The first space ends the first part. *)
Lemma genSplit_first_space (a b cur : string) :
  hasSpace a = false ->
  GoStrings.genSplit " " (a +:+ " " +:+ b) cur O =
  (cur +:+ a) :: GoStrings.genSplit " " b "" O.
Proof.
  revert cur. induction a as [|c a IH]; intros cur Ha.
  - change ("" +:+ " " +:+ b) with (String " " b).
    rewrite genSplit_space_step, append_empty_r. reflexivity.
  - cbn [hasSpace] in Ha. apply orb_false_iff in Ha as [Hc Ha].
    rewrite append_cons, genSplit_space_step, Hc, IH by assumption.
    rewrite append_assoc. reflexivity.
Qed.

(** The scan never returns an empty list. *)
Lemma genSplit_space_nonempty (s cur : string) :
  GoStrings.genSplit " " s cur O <> [].
Proof.
  revert cur. induction s as [|c s IH]; intros cur.
  - discriminate.
  - rewrite genSplit_space_step. destruct (Ascii.eqb c " "); [discriminate | apply IH].
Qed.

(** A result of one part: the input had no space. *)
Lemma genSplit_space_one (s cur q : string) :
  GoStrings.genSplit " " s cur O = [q] -> q = cur +:+ s /\ hasSpace s = false.
Proof.
  revert cur. induction s as [|c s IH]; intros cur H.
  - cbn [GoStrings.genSplit] in H. injection H as <-.
    rewrite append_empty_r. split; reflexivity.
  - rewrite genSplit_space_step in H. cbn [hasSpace].
    destruct (Ascii.eqb c " ") eqn:Hc.
    + injection H as _ H. exfalso. exact (genSplit_space_nonempty _ _ H).
    + apply IH in H as [-> Hs]. rewrite append_assoc. split; [reflexivity | exact Hs].
Qed.

(** A result of two parts: the input is the two parts around its only
    space. *)
Lemma genSplit_space_two (s cur q0 q1 : string) :
  GoStrings.genSplit " " s cur O = [q0; q1] ->
  exists a, q0 = cur +:+ a /\ s = a +:+ " " +:+ q1
            /\ hasSpace a = false /\ hasSpace q1 = false.
Proof.
  revert cur. induction s as [|c s IH]; intros cur H.
  - discriminate.
  - rewrite genSplit_space_step in H. destruct (Ascii.eqb c " ") eqn:Hc.
    + injection H as <- H. apply genSplit_space_one in H as [-> Hs].
      apply Ascii.eqb_eq in Hc as ->.
      exists "". rewrite append_empty_r. repeat split; try reflexivity. exact Hs.
    + apply IH in H as (a & -> & -> & Ha & Hq).
      exists (String c a). rewrite append_assoc. repeat split; try assumption.
      cbn [hasSpace]. rewrite Hc, Ha. reflexivity.
Qed.

(** [strings.Split(s, " ")] has exactly the two parts [p0] and [p1] iff [s]
    is [p0], one space, [p1], and neither part has a space. *)
Lemma Split_space_two (s p0 p1 : string) :
  GoStrings.Split s " " = [p0; p1] <->
  s = p0 +:+ " " +:+ p1 /\ hasSpace p0 = false /\ hasSpace p1 = false.
Proof.
  unfold GoStrings.Split. split.
  - intros H. apply genSplit_space_two in H as (a & -> & -> & Ha & Hq).
    repeat split; assumption.
  - intros (-> & H0 & H1).
    rewrite genSplit_first_space, genSplit_no_space by assumption.
    reflexivity.
Qed.

(* ===================================================================== *)
(** ** helper.go: the bearer extractor                                    *)
(* ===================================================================== *)

Lemma Split_space_empty : GoStrings.Split "" " " = [""].
Proof. reflexivity. Qed.

(** C3, as amended.  For every request, with [h] its Authorization header
    ([""] when absent): if [h] is empty the extractor rejects with the
    missing-header response; if [h] is not empty and [strings.Split(h, " ")],
    which cuts at every single space character, does not give exactly two
    parts with the first equal to [Bearer], it rejects with the
    malformed-header response; otherwise it succeeds, leaves the context as
    it was and returns the second part, which is all of [h] after
    ["Bearer "]. *)
Theorem extractBearerToken_spec (c : Context) :
  let h := GetHeader c "Authorization" in
  (h = "" -> extractBearerToken c = MissingHeader c)
  /\ (h <> "" -> (forall tok, GoStrings.Split h " " <> ["Bearer"; tok]) ->
      extractBearerToken c = MalformedHeader c)
  /\ (forall tok, GoStrings.Split h " " = ["Bearer"; tok] ->
      extractBearerToken c = (tok, true, c)
      /\ h = "Bearer " +:+ tok /\ hasSpace tok = false).
Proof.
  cbv zeta. unfold extractBearerToken, MissingHeader, MalformedHeader.
  split; [| split].
  - intros ->. reflexivity.
  - intros Hne Hno. apply String.eqb_neq in Hne. rewrite Hne.
    destruct (GoStrings.Split (GetHeader c "Authorization") " ")
      as [|p0 [|p1 [|p2 rest]]] eqn:Hs; try reflexivity.
    cbn [length Nat.eqb negb orb lookup list_lookup default from_option id].
    destruct (String.eqb p0 "Bearer") eqn:Hp; [| reflexivity].
    apply String.eqb_eq in Hp as ->. exfalso. exact (Hno p1 eq_refl).
  - intros tok Hs.
    destruct (String.eqb (GetHeader c "Authorization") "") eqn:He.
    + apply String.eqb_eq in He. rewrite He in Hs. discriminate.
    + rewrite Hs. split; [reflexivity|].
      apply Split_space_two in Hs as (-> & _ & Htok). split; [reflexivity | exact Htok].
Qed.

Lemma extractBearerToken_spec_witness :
  extractBearerToken (Sample.request "") = MissingHeader (Sample.request "")
  /\ extractBearerToken (Sample.request "Token abc")
     = MalformedHeader (Sample.request "Token abc")
  /\ extractBearerToken (Sample.request "Bearer abc")
     = ("abc", true, Sample.request "Bearer abc").
Proof.
  split; [| split].
  - apply (proj1 (extractBearerToken_spec (Sample.request ""))). reflexivity.
  - apply (proj1 (proj2 (extractBearerToken_spec (Sample.request "Token abc")))).
    + discriminate.
    + intros tok H. vm_compute in H. discriminate.
  - apply (proj2 (proj2 (extractBearerToken_spec (Sample.request "Bearer abc"))) "abc").
    reflexivity.
Defined.

(** C3 as stated fails: the header [Bearer<TAB>abc] has exactly two
    whitespace-separated parts, the first equal to [Bearer], yet the
    extractor rejects it as malformed instead of returning [abc]. *)
Lemma extractBearerToken_tab_rejected :
  let header := "Bearer" +:+ String (ascii_of_nat 9) "abc" in
  header <> ""
  /\ twoPartsBearer header = Some "abc"
  /\ extractBearerToken (Sample.request header) = MalformedHeader (Sample.request header)
  /\ extractBearerToken (Sample.request header) <> ("abc", true, Sample.request header).
Proof.
  cbv zeta. split; [discriminate|]. split; [reflexivity|]. split; [reflexivity|].
  discriminate.
Qed.

(** C10.  For every request whose Authorization header is ["Bearer "]
    (the scheme, one space, nothing else) the extractor succeeds with the
    empty string as the token and writes no response. *)
Theorem extractBearerToken_empty_token (c : Context) :
  GetHeader c "Authorization" = "Bearer " ->
  extractBearerToken c = ("", true, c).
Proof.
  intros H. unfold extractBearerToken. rewrite H. reflexivity.
Qed.

Lemma extractBearerToken_empty_token_witness :
  extractBearerToken (Sample.request "Bearer ") = ("", true, Sample.request "Bearer ").
Proof.
  apply (extractBearerToken_empty_token (Sample.request "Bearer ")). reflexivity.
Defined.

(* ===================================================================== *)
(** ** jwt.go: the signature verifier                                     *)
(* ===================================================================== *)

Section Verifier.

Context {ext : External}.
Variable publicKeys : gmap string rsa.PublicKey.
Variables now now' : Time.

(** The parser's steps, one lemma each: what [ParseWithClaims] returns
    once the token is decoded, by the outcome of the next step. *)
Section Steps.

Variables (tokenString p0 p1 p2 : string) (token : jwt.Token) (sig : list Z).
Hypothesis Hparse : ParseUnverified tokenString = inr (token, (p0, p1, p2)).
Hypothesis Hsig : base64.RawURLEncoding_DecodeString p2 = inr sig.

Let signed : jwt.Token :=
  {| jwt.Raw := jwt.Raw token; jwt.Method := jwt.Method token;
     jwt.Header := jwt.Header token; jwt.Claims := jwt.Claims token;
     jwt.Signature := sig; jwt.Valid := false |}.

Lemma ParseWithClaims_keyfunc_error keyFunc t err :
  keyFunc signed = inl err ->
  ParseWithClaims tokenString keyFunc t
  = inl (JWTError "error while executing keyfunc" ErrTokenUnverifiable (Some err)).
Proof.
  intros Hk. unfold ParseWithClaims. rewrite Hparse, Hsig.
  fold signed. rewrite Hk. reflexivity.
Qed.

Lemma ParseWithClaims_signature_error keyFunc t key err :
  keyFunc signed = inr key ->
  Verify (jwt.Method token) (p0 +:+ "." +:+ p1) sig key = Some err ->
  ParseWithClaims tokenString keyFunc t
  = inl (JWTError "" ErrTokenSignatureInvalid (Some err)).
Proof.
  intros Hk Hv. unfold ParseWithClaims. rewrite Hparse, Hsig.
  fold signed. rewrite Hk. cbn [jwt.Method signed]. rewrite Hv. reflexivity.
Qed.

Lemma ParseWithClaims_verified keyFunc t key :
  keyFunc signed = inr key ->
  Verify (jwt.Method token) (p0 +:+ "." +:+ p1) sig key = None ->
  ParseWithClaims tokenString keyFunc t
  = match jwt.Validate (jwt.Claims token) t with
    | Some err => inl (JWTError "" ErrTokenInvalidClaims (Some err))
    | None =>
        inr {| jwt.Raw := jwt.Raw token; jwt.Method := jwt.Method token;
               jwt.Header := jwt.Header token; jwt.Claims := jwt.Claims token;
               jwt.Signature := sig; jwt.Valid := true |}
    end.
Proof.
  intros Hk Hv. unfold ParseWithClaims. rewrite Hparse, Hsig.
  fold signed. rewrite Hk. cbn [jwt.Method jwt.Claims signed]. rewrite Hv.
  reflexivity.
Qed.

(** The parser accepts a token whose signature verifies and whose time
    claims hold at [t]. *)
Lemma ParseWithClaims_accepts keyFunc t key :
  keyFunc signed = inr key ->
  Verify (jwt.Method token) (p0 +:+ "." +:+ p1) sig key = None ->
  jwt.verifyExpiresAt (jwt.Claims token) t = true ->
  jwt.verifyNotBefore (jwt.Claims token) t = true ->
  ParseWithClaims tokenString keyFunc t
  = inr {| jwt.Raw := jwt.Raw token; jwt.Method := jwt.Method token;
           jwt.Header := jwt.Header token; jwt.Claims := jwt.Claims token;
           jwt.Signature := sig; jwt.Valid := true |}.
Proof.
  intros Hk Hv He Hn. rewrite (ParseWithClaims_verified keyFunc t key Hk Hv).
  unfold jwt.Validate. rewrite He, Hn. reflexivity.
Qed.

(** The key function on a token of an RSA method with a string [kid]:
    the cache decides. *)
Lemma keyFunc_lookup h kid :
  jwt.Method token = jwt.SigningMethodRSA h ->
  jwt.Header token !! "kid" = Some (VString kid) ->
  keyFunc publicKeys signed
  = match publicKeys !! kid with
    | Some publicKey => inr publicKey
    | None => inl (Errorf "public key not found for kid: %s" [ArgString kid] None)
    end.
Proof.
  intros Hm Hk. unfold keyFunc. cbn [jwt.Method jwt.Header signed].
  rewrite Hm, Hk. reflexivity.
Qed.

(** A signature that does not verify under the cached key: the failure
    is the bad-signature one, whatever the claims say. *)
Lemma verifyToken_bad_signature h kid key err :
  jwt.Method token = jwt.SigningMethodRSA h ->
  jwt.Header token !! "kid" = Some (VString kid) ->
  publicKeys !! kid = Some key ->
  Verify (jwt.Method token) (p0 +:+ "." +:+ p1) sig key = Some err ->
  verifyToken publicKeys now now' tokenString
  = inl (Errorf "failed to parse token: %w" []
           (Some (JWTError "" ErrTokenSignatureInvalid (Some err)))).
Proof.
  intros Hm Hk Hl Hv. unfold verifyToken.
  rewrite (ParseWithClaims_signature_error _ _ key err); [reflexivity | | exact Hv].
  rewrite (keyFunc_lookup h kid Hm Hk), Hl. reflexivity.
Qed.

End Steps.

(** A token the parser accepts comes back marked valid. *)
Lemma ParseWithClaims_valid tokenString keyFunc t token :
  ParseWithClaims tokenString keyFunc t = inr token -> jwt.Valid token = true.
Proof.
  unfold ParseWithClaims.
  destruct (ParseUnverified tokenString) as [e | [t0 [[p0 p1] p2]]]; [discriminate|].
  destruct (base64.RawURLEncoding_DecodeString p2) as [e | sig]; [discriminate|].
  destruct (keyFunc _) as [e | key]; [discriminate|].
  destruct (Verify _ _ _ _) as [e|]; [discriminate|].
  destruct (jwt.Validate _ _) as [e|]; [discriminate|].
  intros [= <-]. reflexivity.
Qed.

End Verifier.

(** C1, as amended.  For every token that decodes into three segments with
    a readable header, claims and signature, whose signing method is an RSA
    one and whose header carries the key identifier [kid] as a string:
    - if [kid] is absent from the key-set cache, [verifyToken] fails with
      the unknown-key failure (public key not found for kid) and not with
      the bad-signature failure;
    - if [kid] is in the cache and the signature does not verify under the
      cached key (it was produced with some other key), [verifyToken] fails
      with the bad-signature failure. *)
Theorem verifyToken_unknown_key {ext : External}
    (publicKeys : gmap string rsa.PublicKey) (now now' : Time)
    (tokenString p0 p1 p2 : string) (token : jwt.Token) (sig : list Z)
    (h : jwt.Hash) (kid : string) :
  ParseUnverified tokenString = inr (token, (p0, p1, p2)) ->
  base64.RawURLEncoding_DecodeString p2 = inr sig ->
  jwt.Method token = jwt.SigningMethodRSA h ->
  jwt.Header token !! "kid" = Some (VString kid) ->
  (publicKeys !! kid = None ->
   exists err,
     verifyToken publicKeys now now' tokenString = inl err
     /\ err = Errorf "failed to parse token: %w" []
                (Some (JWTError "error while executing keyfunc" ErrTokenUnverifiable
                         (Some (Errorf "public key not found for kid: %s"
                                       [ArgString kid] None))))
     /\ UnknownKey err = true /\ BadSignature err = false)
  /\ (forall key cause,
        publicKeys !! kid = Some key ->
        Verify (jwt.Method token) (p0 +:+ "." +:+ p1) sig key = Some cause ->
        exists err,
          verifyToken publicKeys now now' tokenString = inl err
          /\ BadSignature err = true).
Proof.
  intros Hparse Hsig Hm Hk. split.
  - intros Hl. eexists. split; [| split; [reflexivity | split; reflexivity]].
    unfold verifyToken.
    rewrite (ParseWithClaims_keyfunc_error tokenString p0 p1 p2 token sig Hparse Hsig
               (keyFunc publicKeys) now
               (Errorf "public key not found for kid: %s" [ArgString kid] None)).
    + reflexivity.
    + rewrite (keyFunc_lookup publicKeys token sig h kid Hm Hk), Hl. reflexivity.
  - intros key cause Hl Hv. eexists. split.
    + exact (verifyToken_bad_signature publicKeys now now' tokenString p0 p1 p2 token sig
               Hparse Hsig h kid key cause Hm Hk Hl Hv).
    + reflexivity.
Qed.

(** C2, as amended.  For every token that decodes, names a key of the cache
    through a string [kid] under an RSA method, carries a signature that
    verifies under that key, and has an [exp] claim:
    - if [exp] is strictly before the time at which the parser validates
      the claims, [verifyToken] fails with the expired failure (the
      parser's);
    - if the token passes the parser's validation and the issuer check, and
      [exp] is strictly before the time at which [verifyToken] checks the
      expiry itself, [verifyToken] fails with the expired failure (its own,
      "token has expired"). *)
Theorem verifyToken_expired {ext : External}
    (publicKeys : gmap string rsa.PublicKey) (now now' : Time)
    (tokenString p0 p1 p2 : string) (token : jwt.Token) (sig : list Z)
    (h : jwt.Hash) (kid : string) (key : rsa.PublicKey) (exp : Time) :
  ParseUnverified tokenString = inr (token, (p0, p1, p2)) ->
  base64.RawURLEncoding_DecodeString p2 = inr sig ->
  jwt.Method token = jwt.SigningMethodRSA h ->
  jwt.Header token !! "kid" = Some (VString kid) ->
  publicKeys !! kid = Some key ->
  Verify (jwt.Method token) (p0 +:+ "." +:+ p1) sig key = None ->
  ExpiresAt (Registered (jwt.Claims token)) = Some exp ->
  (exp < now ->
   exists err,
     verifyToken publicKeys now now' tokenString = inl err
     /\ Expired err = true /\ BadSignature err = false /\ UnknownKey err = false)
  /\ (now < exp ->
      jwt.verifyNotBefore (jwt.Claims token) now = true ->
      Issuer (Registered (jwt.Claims token)) = keycloakURL ->
      exp < now' ->
      verifyToken publicKeys now now' tokenString
      = inl (Errorf "token has expired" [] None)
      /\ Expired (Errorf "token has expired" [] None) = true).
Proof.
  intros Hparse Hsig Hm Hk Hl Hv Hexp.
  assert (Hkey : keyFunc publicKeys
                   {| jwt.Raw := jwt.Raw token; jwt.Method := jwt.Method token;
                      jwt.Header := jwt.Header token; jwt.Claims := jwt.Claims token;
                      jwt.Signature := sig; jwt.Valid := false |} = inr key).
  { rewrite (keyFunc_lookup publicKeys token sig h kid Hm Hk), Hl. reflexivity. }
  split.
  - intros Hlt. unfold verifyToken.
    rewrite (ParseWithClaims_verified tokenString p0 p1 p2 token sig Hparse Hsig
               (keyFunc publicKeys) now key Hkey Hv).
    unfold jwt.Validate, jwt.verifyExpiresAt. rewrite Hexp.
    assert ((now <? exp) = false) as -> by (apply Z.ltb_ge; lia).
    destruct (jwt.verifyNotBefore (jwt.Claims token) now);
      (eexists; split; [reflexivity|]; repeat split; reflexivity).
  - intros Hfuture Hnbf Hiss Hlate. split; [| reflexivity]. unfold verifyToken.
    rewrite (ParseWithClaims_accepts tokenString p0 p1 p2 token sig Hparse Hsig
               (keyFunc publicKeys) now key Hkey Hv); [| | exact Hnbf].
    2: { unfold jwt.verifyExpiresAt. rewrite Hexp. apply Z.ltb_lt. exact Hfuture. }
    cbn [jwt.Valid jwt.Claims negb]. rewrite Hiss, String.eqb_refl. cbn [negb].
    rewrite Hexp. assert ((exp <? now') = true) as -> by (apply Z.ltb_lt; exact Hlate).
    reflexivity.
Qed.

(** C4, as amended.  For every token the parser accepts (it decodes, its
    signature verifies under the cached key its [kid] names, and its expiry
    and its not-before time hold when the parser validates them) and that
    passes the issuer check and the expiry check of [verifyToken]: with an
    empty audience list the claims are returned; with a non-empty one they
    are returned iff the list contains the expected value ["account"], and
    otherwise [verifyToken] fails with the invalid-audience failure. *)
Theorem verifyToken_audience {ext : External}
    (publicKeys : gmap string rsa.PublicKey) (now now' : Time)
    (tokenString : string) (token : jwt.Token) :
  ParseWithClaims tokenString (keyFunc publicKeys) now = inr token ->
  Issuer (Registered (jwt.Claims token)) = keycloakURL ->
  (forall exp, ExpiresAt (Registered (jwt.Claims token)) = Some exp -> now' <= exp) ->
  let audience := Audience (Registered (jwt.Claims token)) in
  let result := verifyToken publicKeys now now' tokenString in
  (audience = [] -> result = inr (jwt.Claims token))
  /\ (audience <> [] ->
      (result = inr (jwt.Claims token) <-> In "account" audience)
      /\ (~ In "account" audience ->
          result = inl (Errorf "invalid audience" [] None)
          /\ InvalidAudience (Errorf "invalid audience" [] None) = true)).
Proof.
  intros Hparse Hiss Hexp audience result.
  assert (Hres : result =
                 if negb (Nat.eqb (length audience) 0) && negb (validAudience audience)
                 then inl (Errorf "invalid audience" [] None)
                 else inr (jwt.Claims token)).
  { subst result audience. unfold verifyToken. rewrite Hparse.
    rewrite (ParseWithClaims_valid _ _ _ _ Hparse). cbn [negb].
    rewrite Hiss, String.eqb_refl. cbn [negb].
    destruct (ExpiresAt (Registered (jwt.Claims token))) as [exp|] eqn:He;
      [| reflexivity].
    assert ((exp <? now') = false) as -> by (apply Z.ltb_ge, Hexp; reflexivity).
    reflexivity. }
  assert (Hin : validAudience audience = true <-> In "account" audience).
  { unfold validAudience. rewrite existsb_exists. split.
    - intros (aud & Hi & He). apply String.eqb_eq in He. subst aud. exact Hi.
    - intros Hi. exists "account". split; [exact Hi | apply String.eqb_refl]. }
  split.
  - intros Ha. rewrite Hres, Ha. reflexivity.
  - intros Ha. assert (Hlen : Nat.eqb (length audience) 0 = false).
    { destruct audience; [contradiction | reflexivity]. }
    rewrite Hres, Hlen. cbn [negb andb]. split.
    + destruct (validAudience audience) eqn:Hv; cbn [negb].
      * split; [intros _; apply Hin; reflexivity | reflexivity].
      * split; [discriminate |].
        intros Hi. apply Hin in Hi. discriminate.
    + intros Hni. destruct (validAudience audience) eqn:Hv; cbn [negb].
      * exfalso. apply Hni, Hin. reflexivity.
      * split; reflexivity.
Qed.

(** *** The verifier against the sample provider *)

Lemma verifyToken_unknown_key_witness :
  (exists err,
     @verifyToken Sample.healthy Sample.publicKeys 1000 1001 Sample.tokUnknownKid = inl err
     /\ UnknownKey err = true /\ BadSignature err = false)
  /\ (exists err,
        @verifyToken Sample.healthy Sample.publicKeys 1000 1001 Sample.tokForged = inl err
        /\ BadSignature err = true).
Proof.
  split.
  - edestruct (@verifyToken_unknown_key Sample.healthy Sample.publicKeys 1000 1001
                 Sample.tokUnknownKid) as [Habsent _].
    + vm_compute. reflexivity.
    + vm_compute. reflexivity.
    + vm_compute. reflexivity.
    + vm_compute. reflexivity.
    + destruct Habsent as (err & Hv & _ & Hu & Hb); [vm_compute; reflexivity|].
      exists err. repeat split; eassumption.
  - edestruct (@verifyToken_unknown_key Sample.healthy Sample.publicKeys 1000 1001
                 Sample.tokForged) as [_ Hpresent].
    + vm_compute. reflexivity.
    + vm_compute. reflexivity.
    + vm_compute. reflexivity.
    + vm_compute. reflexivity.
    + edestruct Hpresent as (err & Hv & Hb).
      * vm_compute. reflexivity.
      * vm_compute. reflexivity.
      * exists err. split; eassumption.
Defined.

(** C1 as stated fails: [tokForged] names the cached key [k1] but its
    signature was produced with the private exponent of key B, a key that is
    not in the cache; [verifyToken] fails with the bad-signature failure,
    not with the unknown-key one. *)
Lemma verifyToken_forged_is_bad_signature :
  Sample.publicKeys = {[ "k1" := Sample.keyA ]}
  /\ Sample.keyA <> Sample.keyB
  /\ base64.RawURLEncoding_DecodeString "GBE" = inr [24; 17]
  /\ big.SetBytes [24; 17] = Sample.sign Sample.privB Sample.keyB "AQ.AQ"
  /\ @verifyToken Sample.healthy Sample.publicKeys 1000 1001 Sample.tokForged
     = inl (Errorf "failed to parse token: %w" []
              (Some (JWTError "" ErrTokenSignatureInvalid
                       (Some (ErrorNew "crypto/rsa: verification error")))))
  /\ UnknownKey (Errorf "failed to parse token: %w" []
                   (Some (JWTError "" ErrTokenSignatureInvalid
                            (Some (ErrorNew "crypto/rsa: verification error"))))) = false
  /\ BadSignature (Errorf "failed to parse token: %w" []
                     (Some (JWTError "" ErrTokenSignatureInvalid
                              (Some (ErrorNew "crypto/rsa: verification error"))))) = true.
Proof.
  split; [reflexivity|]. split; [discriminate|].
  split; [vm_compute; reflexivity|]. split; [vm_compute; reflexivity|].
  split; [vm_compute; reflexivity|]. split; vm_compute; reflexivity.
Qed.

Lemma verifyToken_expired_witness :
  (exists err,
     @verifyToken Sample.healthy Sample.publicKeys 1000 1001 Sample.tokExpired = inl err
     /\ Expired err = true /\ BadSignature err = false /\ UnknownKey err = false)
  /\ @verifyToken Sample.healthy Sample.publicKeys 1999 2001 Sample.tokGood
     = inl (Errorf "token has expired" [] None).
Proof.
  split.
  - edestruct (@verifyToken_expired Sample.healthy Sample.publicKeys 1000 1001
                 Sample.tokExpired) as [Hparser _].
    + vm_compute. reflexivity.
    + vm_compute. reflexivity.
    + vm_compute. reflexivity.
    + vm_compute. reflexivity.
    + vm_compute. reflexivity.
    + vm_compute. reflexivity.
    + vm_compute. reflexivity.
    + apply Hparser. lia.
  - edestruct (@verifyToken_expired Sample.healthy Sample.publicKeys 1999 2001
                 Sample.tokGood) as [_ Hown].
    + vm_compute. reflexivity.
    + vm_compute. reflexivity.
    + vm_compute. reflexivity.
    + vm_compute. reflexivity.
    + vm_compute. reflexivity.
    + vm_compute. reflexivity.
    + vm_compute. reflexivity.
    + apply Hown; [lia | reflexivity | reflexivity | lia].
Defined.

(** C2 as stated fails: [tokForgedExpired] has [exp] 500, in the past at
    time 1000, and a signature that does not verify under the cached key;
    [verifyToken] fails with the bad-signature failure and not with the
    expired one. *)
Lemma verifyToken_forged_expired_is_bad_signature :
  base64.RawURLEncoding_DecodeString "Ag" = inr [2]
  /\ Sample.unmarshalClaims [2] = inr (Sample.claimsOf (Some 500) None ["account"])
  /\ 500 < 1000
  /\ @verifyToken Sample.healthy Sample.publicKeys 1000 1001 Sample.tokForgedExpired
     = inl (Errorf "failed to parse token: %w" []
              (Some (JWTError "" ErrTokenSignatureInvalid
                       (Some (ErrorNew "crypto/rsa: verification error")))))
  /\ Expired (Errorf "failed to parse token: %w" []
                (Some (JWTError "" ErrTokenSignatureInvalid
                         (Some (ErrorNew "crypto/rsa: verification error"))))) = false.
Proof.
  split; [vm_compute; reflexivity|]. split; [reflexivity|]. split; [lia|].
  split; vm_compute; reflexivity.
Qed.

Lemma verifyToken_audience_witness :
  @verifyToken Sample.healthy Sample.publicKeys 1000 1001 Sample.tokNoAudience
  = inr (Sample.claimsOf (Some 2000) None [])
  /\ @verifyToken Sample.healthy Sample.publicKeys 1000 1001 Sample.tokGood
     = inr (Sample.claimsOf (Some 2000) None ["account"])
  /\ @verifyToken Sample.healthy Sample.publicKeys 1000 1001 Sample.tokOtherAudience
     = inl (Errorf "invalid audience" [] None).
Proof.
  split; [| split].
  - edestruct (@verifyToken_audience Sample.healthy Sample.publicKeys 1000 1001
                 Sample.tokNoAudience) as [Hempty _].
    + vm_compute. reflexivity.
    + vm_compute. reflexivity.
    + intros exp [= <-]. lia.
    + apply Hempty. reflexivity.
  - edestruct (@verifyToken_audience Sample.healthy Sample.publicKeys 1000 1001
                 Sample.tokGood) as [_ Hsome].
    + vm_compute. reflexivity.
    + vm_compute. reflexivity.
    + intros exp [= <-]. lia.
    + destruct Hsome as [Hiff _]; [discriminate|].
      apply Hiff. left. reflexivity.
  - edestruct (@verifyToken_audience Sample.healthy Sample.publicKeys 1000 1001
                 Sample.tokOtherAudience) as [_ Hsome].
    + vm_compute. reflexivity.
    + vm_compute. reflexivity.
    + intros exp [= <-]. lia.
    + destruct Hsome as [_ Hnot]; [discriminate|].
      apply Hnot. intros [H | [H | []]]; discriminate.
Defined.

(** C4 as stated fails: [Probe.tokNotYet] carries a signature that verifies
    under the cached key [k1], the configured issuer, an expiry in the
    future and no audience, so it passes the signature, issuer and expiry
    checks; its not-before time 1500 is still ahead at time 1000, and
    [verifyToken] rejects it instead of accepting it. *)
Lemma verifyToken_not_yet_valid_rejected :
  let claims := Sample.claimsOf (Some 2000) (Some 1500) [] in
  base64.RawURLEncoding_DecodeString "BQ" = inr [5]
  /\ Sample.unmarshalClaims [5] = inr claims
  /\ Sample.publicKeys !! "k1" = Some Sample.keyA
  /\ base64.RawURLEncoding_DecodeString "CTw" = inr [9; 60]
  /\ Sample.verify (jwt.SigningMethodRSA jwt.SHA256) "AQ.BQ" [9; 60] Sample.keyA = None
  /\ Issuer (Registered claims) = keycloakURL
  /\ ExpiresAt (Registered claims) = Some 2000 /\ 1000 < 2000 /\ 1001 <= 2000
  /\ Audience (Registered claims) = []
  /\ @verifyToken Sample.healthy Sample.publicKeys 1000 1001 Probe.tokNotYet
     = inl (Errorf "failed to parse token: %w" []
              (Some (JWTError "" ErrTokenInvalidClaims
                       (Some (Joined [ErrTokenNotValidYet])))))
  /\ @verifyToken Sample.healthy Sample.publicKeys 1000 1001 Probe.tokNotYet
     <> inr claims.
Proof.
  cbv zeta.
  split; [reflexivity|]. split; [reflexivity|]. split; [reflexivity|].
  split; [reflexivity|]. split; [vm_compute; reflexivity|].
  split; [reflexivity|]. split; [reflexivity|]. split; [lia|]. split; [lia|].
  split; [reflexivity|].
  assert (H : @verifyToken Sample.healthy Sample.publicKeys 1000 1001 Probe.tokNotYet
              = inl (Errorf "failed to parse token: %w" []
                       (Some (JWTError "" ErrTokenInvalidClaims
                                (Some (Joined [ErrTokenNotValidYet]))))))
    by (vm_compute; reflexivity).
  split; [exact H|]. rewrite H. discriminate.
Qed.

(* ===================================================================== *)
(** ** tokenintrospect.go: the introspection client and its middleware    *)
(* ===================================================================== *)

(** A successful extraction leaves the context as it was. *)
Lemma extractBearerToken_ok (c : Context) (token : string) :
  fst (extractBearerToken c) = (token, true) ->
  extractBearerToken c = (token, true, c).
Proof.
  unfold extractBearerToken.
  destruct (String.eqb (GetHeader c "Authorization") ""); [discriminate|].
  destruct (negb _ || negb _); [discriminate|].
  cbn [fst]. intros [= <-]. reflexivity.
Qed.

(** A failed extraction aborts with one 401 response that has a reason and
    nothing else. *)
Lemma extractBearerToken_rejects (c : Context) :
  snd (fst (extractBearerToken c)) = false ->
  exists msg,
    extractBearerToken c
    = ("", false, Abort (JSON c StatusUnauthorized {[ "error" := Lit msg ]})).
Proof.
  unfold extractBearerToken.
  destruct (String.eqb (GetHeader c "Authorization") ""); [eexists; reflexivity|].
  destruct (negb _ || negb _); [eexists; reflexivity|].
  discriminate.
Qed.

(** C5.  For every request whose bearer token the extractor returned and
    whose introspection round trip brings back status 200 with a body that
    decodes to a response with [active] false: [introspectToken] returns
    that response and no error, and the introspection middleware writes one
    response of status 401, aborts, stores nothing and does not run the
    downstream handler. *)
Theorem introspection_inactive_rejected {ext : External}
    (c : Context) (token body : string) (resp : http.Response)
    (result : IntrospectionResponse) :
  fst (extractBearerToken c) = (token, true) ->
  Do (introspectionRequest token) = inr resp ->
  http.StatusCode resp = StatusOK ->
  http.Body resp = inr body ->
  UnmarshalIntrospection body = inr result ->
  Active result = false ->
  introspectToken token = inr result
  /\ TokenIntrospectionMiddleware c
     = Abort (JSON c StatusUnauthorized
                {[ "error" := Lit "Token is not active or has been revoked";
                   "method" := Lit "Token Introspection" ]})
  /\ map fst (Written (TokenIntrospectionMiddleware c))
     = map fst (Written c) ++ [StatusUnauthorized]
  /\ Keys (TokenIntrospectionMiddleware c) = Keys c
  /\ ranDownstream c (TokenIntrospectionMiddleware c) = false.
Proof.
  intros Hx Hdo Hst Hbody Hjson Hact.
  assert (Hi : introspectToken token = inr result).
  { unfold introspectToken. rewrite Hdo, Hbody, Hst, Hjson. reflexivity. }
  assert (Hg : TokenIntrospectionMiddleware c
               = Abort (JSON c StatusUnauthorized
                          {[ "error" := Lit "Token is not active or has been revoked";
                             "method" := Lit "Token Introspection" ]})).
  { unfold TokenIntrospectionMiddleware.
    rewrite (extractBearerToken_ok c token Hx). cbn [negb].
    rewrite Hi, Hact. reflexivity. }
  split; [exact Hi|]. split; [exact Hg|]. rewrite Hg.
  split; [| split].
  - cbn [Abort JSON Written]. rewrite map_app. reflexivity.
  - reflexivity.
  - unfold ranDownstream. cbn [Abort JSON NextCalls Aborted negb].
    rewrite Nat.ltb_irrefl. reflexivity.
Qed.

Lemma introspection_inactive_rejected_witness :
  @introspectToken Sample.healthy "revoked"
  = inr {| Active := false; Exp := 0; Iat := 0; ClientID := "";
           Username := ""; TokenType := ""; Sub := ""; IR_Email := "" |}
  /\ map fst (Written (@TokenIntrospectionMiddleware Sample.healthy
                         (Sample.request "Bearer revoked")))
     = [StatusUnauthorized]
  /\ ranDownstream (Sample.request "Bearer revoked")
       (@TokenIntrospectionMiddleware Sample.healthy (Sample.request "Bearer revoked"))
     = false.
Proof.
  edestruct (@introspection_inactive_rejected Sample.healthy
               (Sample.request "Bearer revoked") "revoked")
    as (Hi & _ & Hw & _ & Hd).
  - reflexivity.
  - vm_compute. reflexivity.
  - reflexivity.
  - reflexivity.
  - reflexivity.
  - reflexivity.
  - split; [exact Hi|]. split; [exact Hw | exact Hd].
Defined.



(* ===================================================================== *)
(** ** jwt.go: the key-set cache                                          *)
(* ===================================================================== *)

Lemma keyTable_cons (key : JWK) (keys : list JWK) (pk : rsa.PublicKey)
    (pks : list rsa.PublicKey) (m : gmap string rsa.PublicKey) :
  keyTable (key :: keys) (pk :: pks) ∪ m = keyTable keys pks ∪ <[Kid key := pk]> m.
Proof.
  unfold keyTable. cbn [fmap list_fmap zip zip_with].
  rewrite reverse_cons, list_to_map_app.
  rewrite <- (assoc_L (∪)). f_equal.
  cbn [list_to_map foldr uncurry]. rewrite insert_empty.
  symmetry. apply insert_union_singleton_l.
Qed.

(** The loop on records that all convert: the map it started from, with
    the converted keys laid over it. *)
Lemma convertKeys_all (keys : list JWK) (pks : list rsa.PublicKey)
    (m : gmap string rsa.PublicKey) :
  Forall2 converts keys pks ->
  convertKeys keys m = (keyTable keys pks ∪ m, None).
Proof.
  intros H. revert m. induction H as [|key pk keys pks Hc _ IH]; intros m.
  - cbn [convertKeys]. unfold keyTable. cbn. rewrite (left_id_L ∅ (∪)). reflexivity.
  - cbn [convertKeys]. rewrite Hc, IH, keyTable_cons. reflexivity.
Qed.

(** The loop on records of which [bad] is the first that does not convert:
    it stops there, with the keys converted so far already in the map. *)
Lemma convertKeys_stops (pre post : list JWK) (bad : JWK) (pks : list rsa.PublicKey)
    (cause : error) (m : gmap string rsa.PublicKey) :
  Forall2 converts pre pks ->
  jwkToRSAPublicKey bad = inl cause ->
  convertKeys (pre ++ bad :: post) m
  = (keyTable pre pks ∪ m,
     Some (Errorf "failed to convert JWK to RSA public key: %w" [] (Some cause))).
Proof.
  intros H Hbad. revert m. induction H as [|key pk keys pks Hc _ IH]; intros m.
  - cbn [app convertKeys]. rewrite Hbad. unfold keyTable. cbn.
    rewrite (left_id_L ∅ (∪)). reflexivity.
  - cbn [app convertKeys]. rewrite Hc, IH, keyTable_cons. reflexivity.
Qed.

(** The key table holds a key for exactly the identifiers of the records. *)
Lemma keyTable_dom (keys : list JWK) (pks : list rsa.PublicKey) :
  Forall2 converts keys pks ->
  forall kid, is_Some (keyTable keys pks !! kid) <-> kid ∈ Kid <$> keys.
Proof.
  intros H kid. unfold keyTable.
  rewrite <- elem_of_dom, dom_list_to_map_L, elem_of_list_to_set.
  rewrite fmap_reverse, elem_of_reverse, fst_zip; [reflexivity|].
  rewrite length_fmap. apply Forall2_length in H. lia.
Qed.

(** C7, as amended.  [GetKeycloakPublicKey], from the mapping [old] in
    place before the call:
    - when the fetch fails it returns an error and leaves [old] in place;
    - when the document is fetched and every record converts it returns no
      error and the mapping is exactly the table of the converted keys,
      with a key for the identifiers of the records and no other;
    - when the document is fetched and a record does not convert it
      returns an error, and the mapping is the table of the keys converted
      from the records before that one: [old] is not kept. *)
Theorem GetKeycloakPublicKey_spec {ext : External} (old : gmap string rsa.PublicKey) :
  (forall cause,
     fetchJWKS = inl cause ->
     GetKeycloakPublicKey old
     = (old, Some (Errorf "failed to fetch JWKS: %w" [] (Some cause))))
  /\ (forall doc pks,
        fetchJWKS = inr doc ->
        Forall2 converts (JWKS_Keys doc) pks ->
        GetKeycloakPublicKey old = (keyTable (JWKS_Keys doc) pks, None)
        /\ forall kid, is_Some (keyTable (JWKS_Keys doc) pks !! kid)
                       <-> kid ∈ Kid <$> JWKS_Keys doc)
  /\ (forall doc pre bad post pks cause,
        fetchJWKS = inr doc ->
        JWKS_Keys doc = pre ++ bad :: post ->
        Forall2 converts pre pks ->
        jwkToRSAPublicKey bad = inl cause ->
        GetKeycloakPublicKey old
        = (keyTable pre pks,
           Some (Errorf "failed to convert JWK to RSA public key: %w" []
                        (Some cause)))).
Proof.
  unfold GetKeycloakPublicKey. split; [| split].
  - intros cause ->. reflexivity.
  - intros doc pks -> H. split; [| apply keyTable_dom, H].
    rewrite (convertKeys_all _ pks) by exact H.
    rewrite (right_id_L ∅ (∪)). reflexivity.
  - intros doc pre bad post pks cause -> -> H Hbad.
    rewrite (convertKeys_stops pre post bad pks cause) by assumption.
    rewrite (right_id_L ∅ (∪)). reflexivity.
Qed.

(** *** The cache against the sample provider *)

Lemma GetKeycloakPublicKey_spec_witness :
  @GetKeycloakPublicKey (Sample.provider (inl (ErrorNew "dial tcp: connection refused")))
     {[ "k0" := Sample.keyB ]}
  = ({[ "k0" := Sample.keyB ]},
     Some (Errorf "failed to fetch JWKS: %w" []
             (Some (Errorf "failed to fetch JWKS: %w" []
                      (Some (ErrorNew "dial tcp: connection refused"))))))
  /\ @GetKeycloakPublicKey Sample.healthy {[ "k0" := Sample.keyB ]}
     = (keyTable [Sample.jwkA] [Sample.keyA], None)
  /\ @GetKeycloakPublicKey
       (Sample.provider
          (inr {| http.StatusCode := 200; http.Body := inr "three-keys-second-bad" |}))
       {[ "k0" := Sample.keyB ]}
     = (keyTable [Sample.jwkA] [Sample.keyA],
        Some (Errorf "failed to convert JWK to RSA public key: %w" []
                (Some (Errorf "failed to decode modulus: %w" []
                         (Some (ErrorNew "illegal base64 data at input byte 3")))))).
Proof.
  split; [| split].
  - apply (proj1 (@GetKeycloakPublicKey_spec
                    (Sample.provider (inl (ErrorNew "dial tcp: connection refused")))
                    {[ "k0" := Sample.keyB ]})).
    reflexivity.
  - apply (proj1 (proj2 (@GetKeycloakPublicKey_spec Sample.healthy
                           {[ "k0" := Sample.keyB ]}))
             {| JWKS_Keys := [Sample.jwkA] |} [Sample.keyA]).
    + reflexivity.
    + repeat constructor.
  - apply (proj2 (proj2 (@GetKeycloakPublicKey_spec
                           (Sample.provider
                              (inr {| http.StatusCode := 200;
                                      http.Body := inr "three-keys-second-bad" |}))
                           {[ "k0" := Sample.keyB ]}))
             {| JWKS_Keys := [Sample.jwkA; Sample.jwkBroken; Sample.jwkC] |}
             [Sample.jwkA] Sample.jwkBroken [Sample.jwkC] [Sample.keyA]).
    + reflexivity.
    + reflexivity.
    + repeat constructor.
    + reflexivity.
Defined.

(** C7 as stated fails: with the mapping [k0 -> B] in place, a fetched
    document of three records whose second one has a modulus that is not
    base64url makes [GetKeycloakPublicKey] return an error and leave the
    mapping [k1 -> A]: the previous mapping is gone, and of the two records
    that convert only the first is in. *)
Lemma GetKeycloakPublicKey_partial_on_error :
  let ext := Sample.provider
               (inr {| http.StatusCode := 200;
                       http.Body := inr "three-keys-second-bad" |}) in
  let old : gmap string rsa.PublicKey := {[ "k0" := Sample.keyB ]} in
  @fetchJWKS ext = inr {| JWKS_Keys := [Sample.jwkA; Sample.jwkBroken; Sample.jwkC] |}
  /\ converts Sample.jwkA Sample.keyA
  /\ converts Sample.jwkC Sample.keyB
  /\ @GetKeycloakPublicKey ext old
     = ({[ "k1" := Sample.keyA ]},
        Some (Errorf "failed to convert JWK to RSA public key: %w" []
                (Some (Errorf "failed to decode modulus: %w" []
                         (Some (ErrorNew "illegal base64 data at input byte 3"))))))
  /\ fst (@GetKeycloakPublicKey ext old) <> old
  /\ fst (@GetKeycloakPublicKey ext old) !! "k3" = None.
Proof.
  cbv zeta.
  split; [reflexivity|]. split; [reflexivity|]. split; [reflexivity|].
  split; [vm_compute; reflexivity|]. split; [| vm_compute; reflexivity].
  intros H. apply (f_equal (fun m : gmap string rsa.PublicKey => m !! "k0")) in H.
  vm_compute in H. discriminate.
Qed.

(* ===================================================================== *)
(** ** The two auth middlewares                                           *)
(* ===================================================================== *)

Lemma extractBearerToken_flag (c : Context) :
  snd (fst (extractBearerToken c)) = true ->
  exists token, extractBearerToken c = (token, true, c).
Proof.
  intros H. destruct (extractBearerToken c) as [[token ok] c1] eqn:He.
  cbn in H. subst ok. exists token.
  rewrite <- He. apply extractBearerToken_ok. rewrite He. reflexivity.
Qed.

(** Every run of the JWT middleware is one of the three outcomes. *)
Lemma JWTAuthMiddleware_outcome {ext : External}
    (publicKeys : gmap string rsa.PublicKey) (now now' : Time) (c : Context) :
  MiddlewareOutcome c "JWT Validation" (JWTAuthMiddleware publicKeys now now' c).
Proof.
  unfold JWTAuthMiddleware.
  destruct (snd (fst (extractBearerToken c))) eqn:Hok.
  - destruct (extractBearerToken_flag c Hok) as [token He]. rewrite He. cbn [negb].
    destruct (verifyToken publicKeys now now' token) as [err | claims].
    + apply RejectedByMiddleware; [exact Hok | | reflexivity].
      exists (Lit "Invalid or expired JWT token"). reflexivity.
    + apply Authorized. exact Hok.
  - destruct (extractBearerToken_rejects c Hok) as [msg He]. rewrite He. cbn [negb].
    apply RejectedByExtractor. exact Hok.
Qed.

(** Every run of the introspection middleware is one of the three outcomes. *)
Lemma TokenIntrospectionMiddleware_outcome {ext : External} (c : Context) :
  MiddlewareOutcome c "Token Introspection" (TokenIntrospectionMiddleware c).
Proof.
  unfold TokenIntrospectionMiddleware.
  destruct (snd (fst (extractBearerToken c))) eqn:Hok.
  - destruct (extractBearerToken_flag c Hok) as [token He]. rewrite He. cbn [negb].
    destruct (introspectToken token) as [err | resp].
    + apply RejectedByMiddleware; [exact Hok | | reflexivity].
      exists (Lit "Failed to introspect token"). reflexivity.
    + destruct (Active resp); cbn [negb].
      * apply Authorized. exact Hok.
      * apply RejectedByMiddleware; [exact Hok | | reflexivity].
        exists (Lit "Token is not active or has been revoked"). reflexivity.
  - destruct (extractBearerToken_rejects c Hok) as [msg He]. rewrite He. cbn [negb].
    apply RejectedByExtractor. exact Hok.
Qed.

(** Identity and progress, by outcome. *)
Lemma MiddlewareOutcome_identity (c c' : Context) (method : string) :
  MiddlewareOutcome c method c' ->
  Aborted c = false ->
  noIdentity c ->
  (identityStored c' <-> ranDownstream c c' = true)
  /\ (ranDownstream c c' = false -> Keys c' = Keys c /\ noIdentity c').
Proof.
  intros Hout Hrun [Hu He].
  assert (Hrej : forall code body,
             ~ identityStored (Abort (JSON c code body))
             /\ ranDownstream c (Abort (JSON c code body)) = false).
  { intros code body. split.
    - intros [[v Hv] _]. cbn [Abort JSON Keys] in Hv. congruence.
    - unfold ranDownstream. cbn [Abort JSON NextCalls Aborted negb].
      rewrite Nat.ltb_irrefl. reflexivity. }
  inversion Hout as [msg Hx | code body Hx Herr Hm | user_id email Hx]; subst.
  - destruct (Hrej StatusUnauthorized {[ "error" := Lit msg ]}) as [Hn Hr].
    rewrite Hr. split; [split; [contradiction | discriminate]|].
    intros _. split; [reflexivity | split; assumption].
  - destruct (Hrej code body) as [Hn Hr].
    rewrite Hr. split; [split; [contradiction | discriminate]|].
    intros _. split; [reflexivity | split; assumption].
  - assert (Hr : ranDownstream c (Next (Set_ (Set_ c "user_id" user_id) "email" email))
                 = true).
    { unfold ranDownstream, Next. cbn [Set_ Aborted]. rewrite Hrun.
      cbn [NextCalls Aborted negb]. apply orb_true_r. }
    rewrite Hr. split; [| discriminate].
    split; [reflexivity|]. intros _.
    unfold identityStored, Next. cbn [Set_ Aborted]. rewrite Hrun.
    cbn [Keys Set_]. split.
    + rewrite lookup_insert_ne by discriminate. rewrite lookup_insert_eq. eauto.
    + rewrite lookup_insert_eq. eauto.
Qed.

(** C8. For every request that reaches a middleware un-aborted and without
    identity attributes, be it the JWT middleware or the introspection
    middleware: the attributes [user_id] and [email] are both in the context
    the middleware returns iff the downstream handler ran; and when it did not
    run, the middleware left the context's keys as they were, without either
    attribute. *)
Theorem identity_iff_proceeds {ext : External}
    (publicKeys : gmap string rsa.PublicKey) (now now' : Time) (c : Context) :
  Aborted c = false ->
  noIdentity c ->
  ((identityStored (JWTAuthMiddleware publicKeys now now' c)
    <-> ranDownstream c (JWTAuthMiddleware publicKeys now now' c) = true)
   /\ (ranDownstream c (JWTAuthMiddleware publicKeys now now' c) = false ->
       Keys (JWTAuthMiddleware publicKeys now now' c) = Keys c
       /\ noIdentity (JWTAuthMiddleware publicKeys now now' c)))
  /\ ((identityStored (TokenIntrospectionMiddleware c)
       <-> ranDownstream c (TokenIntrospectionMiddleware c) = true)
      /\ (ranDownstream c (TokenIntrospectionMiddleware c) = false ->
          Keys (TokenIntrospectionMiddleware c) = Keys c
          /\ noIdentity (TokenIntrospectionMiddleware c))).
Proof.
  intros Hrun Hno. split.
  - exact (MiddlewareOutcome_identity _ _ _
             (JWTAuthMiddleware_outcome publicKeys now now' c) Hrun Hno).
  - exact (MiddlewareOutcome_identity _ _ _ (TokenIntrospectionMiddleware_outcome c) Hrun Hno).
Qed.

Lemma identity_iff_proceeds_witness :
  let c := Sample.request "Bearer AQ.AQ.AGo" in
  let jwtOut := @JWTAuthMiddleware Sample.healthy Sample.publicKeys 1000 1001 c in
  let introOut := @TokenIntrospectionMiddleware Sample.healthy c in
  (Aborted c = false /\ noIdentity c)
  /\ ((identityStored jwtOut <-> ranDownstream c jwtOut = true)
      /\ (ranDownstream c jwtOut = false -> Keys jwtOut = Keys c /\ noIdentity jwtOut))
  /\ ((identityStored introOut <-> ranDownstream c introOut = true)
      /\ (ranDownstream c introOut = false ->
          Keys introOut = Keys c /\ noIdentity introOut)).
Proof.
  cbv zeta.
  assert (Hrun : Aborted (Sample.request "Bearer AQ.AQ.AGo") = false) by reflexivity.
  assert (Hno : noIdentity (Sample.request "Bearer AQ.AQ.AGo"))
    by (split; reflexivity).
  split; [split; assumption|].
  exact (@identity_iff_proceeds Sample.healthy Sample.publicKeys 1000 1001
           (Sample.request "Bearer AQ.AQ.AGo") Hrun Hno).
Defined.

(** The sample token is let through by the JWT middleware, with the identity of
    its claims, and stopped by the introspection middleware, whose provider does
    not know it. *)
Example gates_on_sample_token :
  let c := Sample.request "Bearer AQ.AQ.AGo" in
  let jwtOut := @JWTAuthMiddleware Sample.healthy Sample.publicKeys 1000 1001 c in
  let introOut := @TokenIntrospectionMiddleware Sample.healthy c in
  ranDownstream c jwtOut = true
  /\ Keys jwtOut !! "user_id" = Some "alice"
  /\ Keys jwtOut !! "email" = Some "alice@example.com"
  /\ Written jwtOut = []
  /\ ranDownstream c introOut = false
  /\ Keys introOut = ∅
  /\ map fst (Written introOut) = [StatusInternalServerError].
Proof.
  cbv zeta. split; [vm_compute; reflexivity|]. split; [vm_compute; reflexivity|].
  split; [vm_compute; reflexivity|]. split; [vm_compute; reflexivity|].
  split; [vm_compute; reflexivity|]. split; vm_compute; reflexivity.
Qed.

Lemma Written_Next (c : Context) : Written (Next c) = Written c.
Proof. unfold Next. destruct (Aborted c); reflexivity. Qed.

(** The responses a middleware writes, by outcome: none when it authorizes, one
    when it rejects; a reason in each, and the method in those the middleware
    wrote itself. *)
Lemma MiddlewareOutcome_responses (c c' : Context) (method : string) :
  MiddlewareOutcome c method c' ->
  exists ws,
    Written c' = Written c ++ ws
    /\ Forall (carries method (snd (fst (extractBearerToken c)))) ws
    /\ (ws = [] \/ exists r, ws = [r] /\ Aborted c' = true).
Proof.
  intros Hout.
  inversion Hout as [msg Hx | code body Hx Herr Hm | user_id email Hx]; subst.
  - eexists. split; [reflexivity|]. split.
    + constructor; [| constructor]. rewrite Hx. split; [| reflexivity].
      exists (Lit msg). reflexivity.
    + right. eexists. split; reflexivity.
  - eexists. split; [reflexivity|]. split.
    + constructor; [| constructor]. rewrite Hx. split; assumption.
    + right. eexists. split; reflexivity.
  - exists []. rewrite Written_Next, app_nil_r. cbn [Set_ Written].
    split; [reflexivity|]. split; [constructor | left; reflexivity].
Qed.

(** C9, as amended. For every request and either middleware, the middleware
    writes no response or exactly one, and then it has aborted the chain;
    every response it writes carries a machine-readable reason (the [error]
    field); it names the verification method ([method] is ["JWT Validation"],
    respectively ["Token Introspection"]) when the bearer extractor had
    accepted the header, and carries no [method] field when the extractor
    wrote it. *)
Theorem rejection_responses {ext : External}
    (publicKeys : gmap string rsa.PublicKey) (now now' : Time) (c : Context) :
  (exists ws,
     Written (JWTAuthMiddleware publicKeys now now' c) = Written c ++ ws
     /\ Forall (carries "JWT Validation" (snd (fst (extractBearerToken c)))) ws
     /\ (ws = [] \/ exists r, ws = [r]
                              /\ Aborted (JWTAuthMiddleware publicKeys now now' c) = true))
  /\ (exists ws,
        Written (TokenIntrospectionMiddleware c) = Written c ++ ws
        /\ Forall (carries "Token Introspection" (snd (fst (extractBearerToken c)))) ws
        /\ (ws = [] \/ exists r, ws = [r]
                                 /\ Aborted (TokenIntrospectionMiddleware c) = true)).
Proof.
  split.
  - exact (MiddlewareOutcome_responses _ _ _ (JWTAuthMiddleware_outcome publicKeys now now' c)).
  - exact (MiddlewareOutcome_responses _ _ _ (TokenIntrospectionMiddleware_outcome c)).
Qed.

(** C9 as stated fails: a request without an Authorization header is
    rejected by the JWT middleware, and one with the scheme [Token] by the
    introspection middleware, each with a response that has a reason and no
    indication of the verification method. *)
Lemma extractor_rejection_names_no_method :
  let bare := newContext ∅ in
  let other := Sample.request "Token abc" in
  Written (@JWTAuthMiddleware Sample.healthy Sample.publicKeys 1000 1001 bare)
  = [(StatusUnauthorized, {[ "error" := Lit msgHeaderRequired ]})]
  /\ ranDownstream bare
       (@JWTAuthMiddleware Sample.healthy Sample.publicKeys 1000 1001 bare) = false
  /\ ({[ "error" := Lit msgHeaderRequired ]} : H) !! "method" = None
  /\ Written (@TokenIntrospectionMiddleware Sample.healthy other)
     = [(StatusUnauthorized, {[ "error" := Lit msgHeaderFormat ]})]
  /\ ranDownstream other (@TokenIntrospectionMiddleware Sample.healthy other) = false
  /\ ({[ "error" := Lit msgHeaderFormat ]} : H) !! "method" = None.
Proof.
  cbv zeta. split; [vm_compute; reflexivity|]. split; [vm_compute; reflexivity|].
  split; [vm_compute; reflexivity|]. split; [vm_compute; reflexivity|].
  split; vm_compute; reflexivity.
Qed.

(* ===================================================================== *)
(** ** More on the bearer extractor                                       *)
(* ===================================================================== *)

(** One step of the scan for a separator of one character. *)
Lemma genSplit_char_step (a c : ascii) (s cur : string) :
  GoStrings.genSplit (String a "") (String c s) cur O =
  if Ascii.eqb c a
  then cur :: GoStrings.genSplit (String a "") s "" O
  else GoStrings.genSplit (String a "") s (cur +:+ String c "") O.
Proof.
  cbn [GoStrings.genSplit GoStrings.HasPrefix String.length Nat.sub].
  rewrite andb_true_r. reflexivity.
Qed.

(** Splitting at a character gives one part more than the string has
    occurrences of it. *)
Lemma genSplit_char_length (a : ascii) (s cur : string) :
  length (GoStrings.genSplit (String a "") s cur O) = S (countChar a s).
Proof.
  revert cur. induction s as [|c s IH]; intros cur; [reflexivity|].
  rewrite genSplit_char_step. cbn [countChar].
  destruct (Ascii.eqb c a); cbn [length]; rewrite IH; reflexivity.
Qed.

Lemma Split_char_length (a : ascii) (s : string) :
  length (GoStrings.Split s (String a "")) = S (countChar a s).
Proof. apply genSplit_char_length. Qed.

(** X1.  The extractor touches nothing of the context but the response and
    the abort flag: on success the context is as it was; on failure the
    token is empty, the chain is aborted and exactly one response, of
    status 401, is added; the request header, the keys and the count of
    downstream runs are the same either way. *)
Theorem extractBearerToken_effects (c : Context) :
  RequestHeader (snd (extractBearerToken c)) = RequestHeader c
  /\ Keys (snd (extractBearerToken c)) = Keys c
  /\ NextCalls (snd (extractBearerToken c)) = NextCalls c
  /\ (if snd (fst (extractBearerToken c))
      then snd (extractBearerToken c) = c
      else fst (fst (extractBearerToken c)) = ""
           /\ Aborted (snd (extractBearerToken c)) = true
           /\ exists body,
                Written (snd (extractBearerToken c))
                = Written c ++ [(StatusUnauthorized, body)]).
Proof.
  destruct (snd (fst (extractBearerToken c))) eqn:Hok.
  - destruct (extractBearerToken_flag c Hok) as [token ->]. repeat split; reflexivity.
  - destruct (extractBearerToken_rejects c Hok) as [msg ->].
    repeat split; try reflexivity. eexists. reflexivity.
Qed.

(** X2.  A header is only ever accepted with exactly one space in it: a
    non-empty header without a space, or with two or more (a doubled space
    after the scheme, a space inside or after the token), is rejected as
    malformed whatever its scheme. *)
Theorem extractBearerToken_one_space (c : Context) :
  (GetHeader c "Authorization" <> "" ->
   countChar " " (GetHeader c "Authorization") <> 1%nat ->
   extractBearerToken c = MalformedHeader c)
  /\ (snd (fst (extractBearerToken c)) = true ->
      countChar " " (GetHeader c "Authorization") = 1%nat).
Proof.
  pose proof (Split_char_length " " (GetHeader c "Authorization")) as Hlen.
  unfold extractBearerToken, MalformedHeader.
  destruct (String.eqb (GetHeader c "Authorization") "") eqn:He.
  - split; [| discriminate]. intros Hne. apply String.eqb_eq in He. contradiction.
  - destruct (Nat.eqb (length (GoStrings.Split (GetHeader c "Authorization") " ")) 2)
      eqn:Hn; cbn [negb orb].
    + apply Nat.eqb_eq in Hn. rewrite Hn in Hlen. split.
      * intros _ Hc. exfalso. apply Hc. congruence.
      * intros _. congruence.
    + split; [reflexivity | discriminate].
Qed.

Lemma extractBearerToken_one_space_witness :
  extractBearerToken (Sample.request "Bearer  abc")
  = MalformedHeader (Sample.request "Bearer  abc")
  /\ countChar " " (GetHeader (Sample.request "Bearer abc") "Authorization") = 1%nat.
Proof.
  split.
  - apply (proj1 (extractBearerToken_one_space (Sample.request "Bearer  abc"))).
    + discriminate.
    + discriminate.
  - apply (proj2 (extractBearerToken_one_space (Sample.request "Bearer abc"))).
    reflexivity.
Defined.

(* ===================================================================== *)
(** ** jwt.go: the conversion of a key record                             *)
(* ===================================================================== *)

(** A skipped character is not of the alphabet. *)
Lemma decodeMap_skipped (c : ascii) :
  (Nat.eqb (nat_of_ascii c) 10 || Nat.eqb (nat_of_ascii c) 13)%nat = true ->
  base64.decodeMap c = None.
Proof.
  intros H. apply orb_true_iff in H as [H | H]; apply Nat.eqb_eq in H;
    apply (f_equal ascii_of_nat) in H; rewrite ascii_nat_embedding in H;
    subst c; reflexivity.
Qed.

(** The first pass succeeds iff every character is one the decoder takes,
    and gives one value for each alphabet character. *)
Lemma sextets_spec (s : string) :
  match base64.sextets s with
  | Some vs => allBase64 s = true /\ length vs = alphabetLength s
  | None => allBase64 s = false
  end.
Proof.
  induction s as [|c s IH]; [split; reflexivity|].
  cbn [base64.sextets allBase64 alphabetLength]. unfold base64Char.
  destruct (Nat.eqb (nat_of_ascii c) 10 || Nat.eqb (nat_of_ascii c) 13)%nat eqn:Hskip.
  - rewrite (decodeMap_skipped c Hskip). cbn [andb Nat.add].
    exact IH.
  - destruct (base64.decodeMap c) as [v|]; [| reflexivity].
    destruct (base64.sextets s) as [vs|]; cbn [andb].
    + destruct IH as [Ha Hl]. split; [exact Ha | cbn [length]; rewrite Hl; reflexivity].
    + exact IH.
Qed.

(** Induction over a list four elements at a time. *)
Lemma list_ind4 {A : Type} (P : list A -> Prop) :
  P [] -> (forall a, P [a]) -> (forall a b, P [a; b]) -> (forall a b c, P [a; b; c]) ->
  (forall a b c d rest, P rest -> P (a :: b :: c :: d :: rest)) ->
  forall l, P l.
Proof.
  intros H0 H1 H2 H3 H4. fix IH 1.
  intros [|a [|b [|c [|d rest]]]]; [exact H0 | apply H1 | apply H2 | apply H3 |].
  apply H4, IH.
Qed.

Lemma land_255_range (x : Z) : 0 <= Z.land x 255 < 256.
Proof.
  change 255 with (Z.ones 8). rewrite Z.land_ones by lia.
  apply Z.mod_pos_bound. reflexivity.
Qed.

(** The second pass fails exactly on a single left-over value; its bytes
    are bytes, three for every four values. *)
Lemma quanta_spec (vs : list Z) :
  match base64.quanta vs with
  | Some bs =>
      Nat.modulo (length vs) 4 <> 1%nat
      /\ Forall (fun b => 0 <= b < 256) bs
      /\ length bs = Nat.div (3 * length vs) 4
  | None => Nat.modulo (length vs) 4 = 1%nat
  end.
Proof.
  induction vs as [| a | a b | a b c | a b c d rest IH] using list_ind4.
  - cbn. repeat split; [discriminate | constructor].
  - reflexivity.
  - cbn [base64.quanta]. repeat split; [discriminate |].
    repeat constructor; apply land_255_range.
  - cbn [base64.quanta]. repeat split; [discriminate |].
    repeat constructor; apply land_255_range.
  - cbn [base64.quanta].
    assert (Hm : Nat.modulo (length (a :: b :: c :: d :: rest)) 4
                 = Nat.modulo (length rest) 4).
    { cbn [length]. replace (S (S (S (S (length rest))))) with (length rest + 1 * 4)%nat by lia.
      apply Nat.Div0.mod_add. }
    assert (Hd : Nat.div (3 * length (a :: b :: c :: d :: rest)) 4
                 = (Nat.div (3 * length rest) 4 + 3)%nat).
    { cbn [length].
      replace (3 * S (S (S (S (length rest)))))%nat with (3 * length rest + 3 * 4)%nat by lia.
      apply Nat.div_add. discriminate. }
    rewrite Hm, Hd. destruct (base64.quanta rest) as [bs|]; [| exact IH].
    destruct IH as (Hne & Hr & Hl). split; [exact Hne|]. split.
    + repeat (constructor; [apply land_255_range|]). exact Hr.
    + cbn [length]. rewrite Hl. lia.
Qed.

(** The decoder accepts exactly the valid strings. *)
Lemma DecodeString_ok_iff (s : string) :
  (exists bs, base64.RawURLEncoding_DecodeString s = inr bs) <-> rawURLValid s = true.
Proof.
  unfold base64.RawURLEncoding_DecodeString, rawURLValid.
  pose proof (sextets_spec s) as Hs.
  destruct (base64.sextets s) as [vs|].
  - destruct Hs as [-> Hl]. cbn [andb]. rewrite <- Hl.
    pose proof (quanta_spec vs) as Hq.
    destruct (base64.quanta vs) as [bs|].
    + destruct Hq as [Hne _]. apply Nat.eqb_neq in Hne. rewrite Hne.
      split; [reflexivity | eauto].
    + rewrite Hq. cbn. split; [intros [bs [=]] | discriminate].
  - rewrite Hs. cbn [andb]. split; [intros [bs [=]] | discriminate].
Qed.

(** What the decoder returns are bytes. *)
Lemma DecodeString_bytes (s : string) (bs : list Z) :
  base64.RawURLEncoding_DecodeString s = inr bs ->
  Forall (fun b => 0 <= b < 256) bs
  /\ length bs = Nat.div (3 * alphabetLength s) 4.
Proof.
  unfold base64.RawURLEncoding_DecodeString.
  pose proof (sextets_spec s) as Hs.
  destruct (base64.sextets s) as [vs|]; [| discriminate].
  destruct Hs as [_ Hl]. rewrite <- Hl.
  pose proof (quanta_spec vs) as Hq.
  destruct (base64.quanta vs) as [bs'|]; [| discriminate].
  intros [= <-]. destruct Hq as (_ & Hr & Hlen). split; assumption.
Qed.

(** [SetBytes] reads its bytes as the digits of a number in base 256. *)
Lemma SetBytes_fold (bs : list Z) (acc : Z) :
  fold_left (fun acc b => acc * 256 + b) bs acc
  = acc * 256 ^ Z.of_nat (length bs) + big.SetBytes bs.
Proof.
  unfold big.SetBytes. revert acc.
  induction bs as [|b bs IH]; intros acc.
  - cbn. lia.
  - cbn [fold_left length]. rewrite (IH (acc * 256 + b)), (IH (0 * 256 + b)).
    rewrite Nat2Z.inj_succ, Z.pow_succ_r by lia. ring.
Qed.

Lemma SetBytes_cons (b : Z) (bs : list Z) :
  big.SetBytes (b :: bs) = b * 256 ^ Z.of_nat (length bs) + big.SetBytes bs.
Proof.
  unfold big.SetBytes at 1. cbn [fold_left]. rewrite SetBytes_fold. ring.
Qed.

Lemma SetBytes_range (bs : list Z) :
  Forall (fun b => 0 <= b < 256) bs ->
  0 <= big.SetBytes bs < 256 ^ Z.of_nat (length bs).
Proof.
  induction 1 as [|b bs Hb _ IH]; [cbn; lia|].
  rewrite SetBytes_cons. cbn [length].
  rewrite Nat2Z.inj_succ, Z.pow_succ_r by lia.
  assert (0 < 256 ^ Z.of_nat (length bs)) by (apply Z.pow_pos_nonneg; lia).
  nia.
Qed.

(** [Int64] keeps what fits and wraps the rest. *)
Lemma Int64_spec (x : Z) :
  - 2 ^ 63 <= big.Int64 x < 2 ^ 63
  /\ (big.Int64 x - x) mod 2 ^ 64 = 0
  /\ (0 <= x < 2 ^ 63 -> big.Int64 x = x).
Proof.
  unfold big.Int64.
  pose proof (Z.mod_pos_bound (x + 2 ^ 63) (2 ^ 64) eq_refl) as Hb.
  split; [lia|]. split.
  - pose proof (Z.div_mod (x + 2 ^ 63) (2 ^ 64)) as Hdm.
    replace ((x + 2 ^ 63) mod 2 ^ 64 - 2 ^ 63 - x)
      with (- ((x + 2 ^ 63) / 2 ^ 64) * 2 ^ 64) by lia.
    apply Z.mod_mul. discriminate.
  - intros Hx. rewrite Z.mod_small by lia. lia.
Qed.

(** X3.  A key record converts iff its modulus and its exponent are both
    valid raw URL-safe base64 (alphabet characters, line breaks apart, and
    not one character left over after the groups of four; so a padded
    value does not convert), whatever its other fields say.  An invalid
    modulus is reported as such even when the exponent is invalid too; an
    invalid exponent is reported when the modulus is valid. *)
Theorem jwkToRSAPublicKey_succeeds_iff (jwk : JWK) :
  ((exists key, jwkToRSAPublicKey jwk = inr key)
   <-> rawURLValid (JWK_N jwk) = true /\ rawURLValid (JWK_E jwk) = true)
  /\ (rawURLValid (JWK_N jwk) = false ->
      exists cause,
        jwkToRSAPublicKey jwk
        = inl (Errorf "failed to decode modulus: %w" [] (Some cause)))
  /\ (rawURLValid (JWK_N jwk) = true -> rawURLValid (JWK_E jwk) = false ->
      exists cause,
        jwkToRSAPublicKey jwk
        = inl (Errorf "failed to decode exponent: %w" [] (Some cause))).
Proof.
  pose proof (DecodeString_ok_iff (JWK_N jwk)) as HN.
  pose proof (DecodeString_ok_iff (JWK_E jwk)) as HE.
  unfold jwkToRSAPublicKey.
  destruct (base64.RawURLEncoding_DecodeString (JWK_N jwk)) as [en | nBytes].
  - assert (Hn : rawURLValid (JWK_N jwk) = false).
    { destruct (rawURLValid (JWK_N jwk)); [| reflexivity].
      destruct (proj2 HN eq_refl) as [bs [=]]. }
    rewrite Hn. split; [| split].
    + split; [intros [key [=]] | intros [[=] _]].
    + intros _. eexists. reflexivity.
    + discriminate.
  - assert (Hn : rawURLValid (JWK_N jwk) = true) by (apply HN; eauto).
    rewrite Hn.
    destruct (base64.RawURLEncoding_DecodeString (JWK_E jwk)) as [ee | eBytes].
    + assert (He : rawURLValid (JWK_E jwk) = false).
      { destruct (rawURLValid (JWK_E jwk)); [| reflexivity].
        destruct (proj2 HE eq_refl) as [bs [=]]. }
      rewrite He. split; [| split].
      * split; [intros [key [=]] | intros [_ [=]]].
      * discriminate.
      * intros _ _. eexists. reflexivity.
    + assert (He : rawURLValid (JWK_E jwk) = true) by (apply HE; eauto).
      rewrite He. split; [| split]; [| discriminate | discriminate].
      split; [intros _; split; reflexivity | intros _; eexists; reflexivity].
Qed.

Lemma jwkToRSAPublicKey_succeeds_iff_witness :
  (exists key, jwkToRSAPublicKey Sample.jwkA = inr key)
  /\ (exists cause,
        jwkToRSAPublicKey Sample.jwkBroken
        = inl (Errorf "failed to decode modulus: %w" [] (Some cause)))
  /\ (exists cause,
        jwkToRSAPublicKey
          {| Kid := "k4"; Kty := "RSA"; Alg := "RS256"; Use := "sig";
             JWK_N := "DKE"; JWK_E := "AQAB+" |}
        = inl (Errorf "failed to decode exponent: %w" [] (Some cause))).
Proof.
  split; [| split].
  - apply (proj1 (jwkToRSAPublicKey_succeeds_iff Sample.jwkA)). split; reflexivity.
  - apply (proj1 (proj2 (jwkToRSAPublicKey_succeeds_iff Sample.jwkBroken))).
    reflexivity.
  - apply (proj2 (proj2 (jwkToRSAPublicKey_succeeds_iff
                           {| Kid := "k4"; Kty := "RSA"; Alg := "RS256"; Use := "sig";
                              JWK_N := "DKE"; JWK_E := "AQAB+" |}))); reflexivity.
Defined.

(** X4.  The key a record converts to: its modulus is the big-endian value
    of the decoded bytes, a non-negative number below 256 to the number of
    those bytes (three for every four characters); its exponent is within
    the 64-bit signed range and congruent to the decoded value modulo
    2^64; it is the decoded value iff that value is below 2^63, and so
    whenever the exponent has at most ten characters (seven bytes), as the
    usual AQAB has. *)
Theorem jwkToRSAPublicKey_key (jwk : JWK) (key : rsa.PublicKey) :
  jwkToRSAPublicKey jwk = inr key ->
  exists nBytes eBytes,
    base64.RawURLEncoding_DecodeString (JWK_N jwk) = inr nBytes
    /\ base64.RawURLEncoding_DecodeString (JWK_E jwk) = inr eBytes
    /\ rsa.N key = big.SetBytes nBytes
    /\ 0 <= rsa.N key < 256 ^ Z.of_nat (Nat.div (3 * alphabetLength (JWK_N jwk)) 4)
    /\ - 2 ^ 63 <= rsa.E key < 2 ^ 63
    /\ (rsa.E key - big.SetBytes eBytes) mod 2 ^ 64 = 0
    /\ (rsa.E key = big.SetBytes eBytes <-> big.SetBytes eBytes < 2 ^ 63)
    /\ ((alphabetLength (JWK_E jwk) <= 10)%nat -> rsa.E key = big.SetBytes eBytes).
Proof.
  unfold jwkToRSAPublicKey.
  destruct (base64.RawURLEncoding_DecodeString (JWK_N jwk)) as [en | nBytes] eqn:HN;
    [discriminate|].
  destruct (base64.RawURLEncoding_DecodeString (JWK_E jwk)) as [ee | eBytes] eqn:HE;
    [discriminate|].
  intros [= <-]. exists nBytes, eBytes. cbn [rsa.N rsa.E].
  destruct (DecodeString_bytes _ _ HN) as [HrN HlN].
  destruct (DecodeString_bytes _ _ HE) as [HrE HlE].
  pose proof (SetBytes_range nBytes HrN) as HbN. rewrite HlN in HbN.
  pose proof (SetBytes_range eBytes HrE) as HbE.
  destruct (Int64_spec (big.SetBytes eBytes)) as (Hr & Hc & Hx).
  split; [reflexivity|]. split; [reflexivity|]. split; [reflexivity|].
  split; [exact HbN|]. split; [exact Hr|]. split; [exact Hc|].
  split; [split; [intros Heq; rewrite <- Heq; apply Hr | intros Hlt; apply Hx; lia]|].
  intros Hlen. apply Hx.
  assert (Hle : (length eBytes <= 7)%nat).
  { rewrite HlE. transitivity (Nat.div 30 4).
    - apply Nat.Div0.div_le_mono. lia.
    - apply Nat.leb_le. reflexivity. }
  assert (256 ^ Z.of_nat (length eBytes) <= 256 ^ 7)
    by (apply Z.pow_le_mono_r; lia).
  assert (256 ^ 7 < 2 ^ 63) by reflexivity.
  lia.
Qed.

Lemma jwkToRSAPublicKey_key_witness :
  exists nBytes eBytes,
    base64.RawURLEncoding_DecodeString (JWK_N Sample.jwkC) = inr nBytes
    /\ base64.RawURLEncoding_DecodeString (JWK_E Sample.jwkC) = inr eBytes
    /\ rsa.N Sample.keyB = big.SetBytes nBytes
    /\ 0 <= rsa.N Sample.keyB
       < 256 ^ Z.of_nat (Nat.div (3 * alphabetLength (JWK_N Sample.jwkC)) 4)
    /\ - 2 ^ 63 <= rsa.E Sample.keyB < 2 ^ 63
    /\ (rsa.E Sample.keyB - big.SetBytes eBytes) mod 2 ^ 64 = 0
    /\ (rsa.E Sample.keyB = big.SetBytes eBytes <-> big.SetBytes eBytes < 2 ^ 63)
    /\ ((alphabetLength (JWK_E Sample.jwkC) <= 10)%nat ->
        rsa.E Sample.keyB = big.SetBytes eBytes).
Proof.
  apply (jwkToRSAPublicKey_key Sample.jwkC Sample.keyB). reflexivity.
Defined.

(** An exponent of eleven characters that is the number 1 converts to 1:
    what counts is the value, not the length. *)
Example jwkToRSAPublicKey_long_small_exponent :
  jwkToRSAPublicKey
    {| Kid := "k6"; Kty := "RSA"; Alg := "RS256"; Use := "sig";
       JWK_N := "DKE"; JWK_E := "AAAAAAAAAAE" |}
  = inr {| rsa.N := 3233; rsa.E := 1 |}.
Proof. reflexivity. Qed.

(** The exponent wraps: a record whose exponent is 2^64 + 3 (nine bytes)
    converts to a key with exponent 3. *)
Example jwkToRSAPublicKey_wraps :
  jwkToRSAPublicKey
    {| Kid := "k5"; Kty := "RSA"; Alg := "RS256"; Use := "sig";
       JWK_N := "DKE"; JWK_E := "AQAAAAAAAAAD" |}
  = inr {| rsa.N := 3233; rsa.E := 3 |}.
Proof. reflexivity. Qed.

(* ===================================================================== *)
(** ** jwt.go and main.go: loading the key set                            *)
(* ===================================================================== *)

Lemma converts_iff (jwk : JWK) :
  (exists pk, converts jwk pk)
  <-> rawURLValid (JWK_N jwk) = true /\ rawURLValid (JWK_E jwk) = true.
Proof.
  unfold converts, jwkToRSAPublicKey.
  rewrite <- !DecodeString_ok_iff.
  destruct (base64.RawURLEncoding_DecodeString (JWK_N jwk)) as [en | nBytes].
  - split; [intros [pk [=]] | intros [[bs [=]] _]].
  - destruct (base64.RawURLEncoding_DecodeString (JWK_E jwk)) as [ee | eBytes].
    + split; [intros [pk [=]] | intros [_ [bs [=]]]].
    + split; [intros _; split; eauto | intros _; eauto].
Qed.

(** The loop over two lists of records, one after the other. *)
Lemma convertKeys_app (l1 l2 : list JWK) (m : gmap string rsa.PublicKey) :
  convertKeys (l1 ++ l2) m
  = match convertKeys l1 m with
    | (m1, None) => convertKeys l2 m1
    | (m1, Some err) => (m1, Some err)
    end.
Proof.
  revert m. induction l1 as [|key l1 IH]; intros m; [reflexivity|].
  cbn [app convertKeys]. destruct (jwkToRSAPublicKey key); [reflexivity | apply IH].
Qed.

(** The loop ends without an error iff every record converts. *)
Lemma convertKeys_nil_error (keys : list JWK) (m : gmap string rsa.PublicKey) :
  snd (convertKeys keys m) = None <-> exists pks, Forall2 converts keys pks.
Proof.
  revert m. induction keys as [|key keys IH]; intros m.
  - split; [intros _; exists []; constructor | reflexivity].
  - cbn [convertKeys]. destruct (jwkToRSAPublicKey key) as [err | pk] eqn:Hk.
    + split; [discriminate|]. intros [pks H]. inversion H as [|? pk' ? ? Hc]; subst.
      unfold converts in Hc. congruence.
    + rewrite IH. split.
      * intros [pks H]. exists (pk :: pks). constructor; assumption.
      * intros [pks H]. inversion H; subst. eauto.
Qed.

(** The loop leaves alone every identifier none of its records has. *)
Lemma convertKeys_other (keys : list JWK) (m : gmap string rsa.PublicKey) (kid : string) :
  Forall (fun jwk => Kid jwk <> kid) keys ->
  fst (convertKeys keys m) !! kid = m !! kid.
Proof.
  intros H. revert m. induction H as [|key keys Hne _ IH]; intros m; [reflexivity|].
  cbn [convertKeys]. destruct (jwkToRSAPublicKey key) as [err | pk]; [reflexivity|].
  rewrite IH. apply lookup_insert_ne. exact Hne.
Qed.

(** X5.  When the certs endpoint answers with a status other than 200,
    [fetchJWKS] fails with the status error whatever the body holds, be it
    a well-formed key set, and [GetKeycloakPublicKey] returns an error with
    the mapping as it was. *)
Theorem fetchJWKS_status_first {ext : External}
    (old : gmap string rsa.PublicKey) (resp : http.Response) :
  Do {| http.Method := "GET"; http.URL := jwksURL;
        http.Header := ∅; http.Form := ∅ |} = inr resp ->
  http.StatusCode resp <> StatusOK ->
  fetchJWKS
  = inl (Errorf "failed to fetch JWKS: status code %d"
                [ArgInt (http.StatusCode resp)] None)
  /\ GetKeycloakPublicKey old
     = (old,
        Some (Errorf "failed to fetch JWKS: %w" []
                (Some (Errorf "failed to fetch JWKS: status code %d"
                              [ArgInt (http.StatusCode resp)] None)))).
Proof.
  intros Hdo Hst.
  assert (Hf : fetchJWKS
               = inl (Errorf "failed to fetch JWKS: status code %d"
                             [ArgInt (http.StatusCode resp)] None)).
  { unfold fetchJWKS. rewrite Hdo.
    apply Z.eqb_neq in Hst. rewrite Hst. reflexivity. }
  split; [exact Hf|]. unfold GetKeycloakPublicKey. rewrite Hf. reflexivity.
Qed.

Lemma fetchJWKS_status_first_witness :
  let ext := Sample.provider
               (inr {| http.StatusCode := 404; http.Body := inr "one-key" |}) in
  @fetchJWKS ext
  = inl (Errorf "failed to fetch JWKS: status code %d" [ArgInt 404] None)
  /\ @GetKeycloakPublicKey ext {[ "k0" := Sample.keyB ]}
     = ({[ "k0" := Sample.keyB ]},
        Some (Errorf "failed to fetch JWKS: %w" []
                (Some (Errorf "failed to fetch JWKS: status code %d"
                              [ArgInt 404] None)))).
Proof.
  cbv zeta.
  apply (@fetchJWKS_status_first
           (Sample.provider (inr {| http.StatusCode := 404; http.Body := inr "one-key" |}))
           {[ "k0" := Sample.keyB ]}
           {| http.StatusCode := 404; http.Body := inr "one-key" |}).
  - reflexivity.
  - discriminate.
Defined.

(** X6.  [GetKeycloakPublicKey] returns a nil error iff the key-set
    document was fetched and the modulus and the exponent of every one of
    its records are valid raw URL-safe base64; nothing else about a record
    (its key type, algorithm or use, a zero modulus) makes the load fail. *)
Theorem GetKeycloakPublicKey_nil_error_iff {ext : External}
    (old : gmap string rsa.PublicKey) :
  snd (GetKeycloakPublicKey old) = None
  <-> exists doc,
        fetchJWKS = inr doc
        /\ Forall (fun jwk => rawURLValid (JWK_N jwk) = true
                              /\ rawURLValid (JWK_E jwk) = true) (JWKS_Keys doc).
Proof.
  unfold GetKeycloakPublicKey. destruct fetchJWKS as [err | doc].
  - split; [discriminate | intros [doc [[=] _]]].
  - rewrite convertKeys_nil_error. split.
    + intros [pks H]. exists doc. split; [reflexivity|].
      induction H as [|jwk pk keys pks Hc _ IH]; constructor; [| exact IH].
      apply converts_iff. eauto.
    + intros [doc' [[= <-] H]].
      induction H as [|jwk keys Hv _ [pks IH]]; [exists []; constructor|].
      apply converts_iff in Hv as [pk Hpk]. exists (pk :: pks). constructor; assumption.
Qed.

(** X7.  Of several records with one key identifier the last one counts:
    after a load without error, the mapping has under the identifier of a
    record that no later record shares the key that record converts to. *)
Theorem GetKeycloakPublicKey_last_record_wins {ext : External}
    (old : gmap string rsa.PublicKey) (doc : JWKS) (pre post : list JWK) (jwk : JWK) :
  fetchJWKS = inr doc ->
  JWKS_Keys doc = pre ++ jwk :: post ->
  snd (GetKeycloakPublicKey old) = None ->
  Forall (fun later => Kid later <> Kid jwk) post ->
  exists pk,
    converts jwk pk /\ fst (GetKeycloakPublicKey old) !! Kid jwk = Some pk.
Proof.
  unfold GetKeycloakPublicKey. intros -> -> Hnil Hpost.
  rewrite convertKeys_app in Hnil |- *.
  destruct (convertKeys pre ∅) as [m1 [err|]]; [discriminate|].
  cbn [convertKeys] in Hnil |- *.
  destruct (jwkToRSAPublicKey jwk) as [err | pk] eqn:Hk; [discriminate|].
  exists pk. split; [exact Hk|].
  rewrite (convertKeys_other post _ (Kid jwk) Hpost). apply lookup_insert_eq.
Qed.

Lemma GetKeycloakPublicKey_last_record_wins_witness :
  @fetchJWKS Probe.rotating
  = inr {| JWKS_Keys := [Sample.jwkA; Probe.jwkRotated; Sample.jwkC] |}
  /\ converts Sample.jwkA {| rsa.N := 3233; rsa.E := 17 |}
  /\ converts Probe.jwkRotated {| rsa.N := 3233; rsa.E := 65537 |}
  /\ fst (@GetKeycloakPublicKey Probe.rotating {[ "k0" := Sample.keyB ]}) !! "k1"
     = Some {| rsa.N := 3233; rsa.E := 65537 |}.
Proof.
  split; [reflexivity|]. split; [reflexivity|]. split; [reflexivity|].
  destruct (@GetKeycloakPublicKey_last_record_wins Probe.rotating
              {[ "k0" := Sample.keyB ]}
              {| JWKS_Keys := [Sample.jwkA; Probe.jwkRotated; Sample.jwkC] |}
              [Sample.jwkA] [Sample.jwkC] Probe.jwkRotated) as (pk & Hc & Hl).
  - reflexivity.
  - reflexivity.
  - vm_compute. reflexivity.
  - constructor; [discriminate | constructor].
  - refine (eq_trans Hl _). unfold converts in Hc. vm_compute in Hc.
    injection Hc as <-. reflexivity.
Defined.

(** X8.  [main] panics before it runs the router exactly when the load of
    the key set returns an error, and then with that error; its only other
    panic is for an error [router.Run] returns, after a load without
    error.  Whenever [main] gets to run the router, the mapping is the
    table of the converted keys of all the records of the fetched document,
    with a key for each of their identifiers and no other: a mapping filled
    in part is never served from. *)
Theorem main_listens_with_all_keys {ext : External} :
  match main with
  | Panic value =>
      exists err,
        snd (GetKeycloakPublicKey ∅) = Some err
        /\ value = Sprintf "Failed to initialize JWT: %v" err
  | Listening publicKeys =>
      snd (GetKeycloakPublicKey ∅) = None
      /\ exists doc pks,
           fetchJWKS = inr doc
           /\ Forall2 converts (JWKS_Keys doc) pks
           /\ publicKeys = keyTable (JWKS_Keys doc) pks
           /\ forall kid, is_Some (publicKeys !! kid) <-> kid ∈ Kid <$> JWKS_Keys doc
  | Returned => False
  end
  /\ forall run value,
       mainEnd run = Panic value
       <-> (exists err,
              snd (GetKeycloakPublicKey ∅) = Some err
              /\ value = Sprintf "Failed to initialize JWT: %v" err)
           \/ (snd (GetKeycloakPublicKey ∅) = None
               /\ exists err,
                    run = Some err /\ value = Sprintf "Failed to start server: %v" err).
Proof.
  unfold mainEnd, main.
  destruct (GetKeycloakPublicKey ∅) as [publicKeys [err|]] eqn:Hload; cbn [snd].
  - split; [eauto|]. intros run value. split.
    + intros [= <-]. left. eauto.
    + intros [(err' & [= <-] & ->) | [[=] _]]. reflexivity.
  - split.
    + split; [reflexivity|].
      unfold GetKeycloakPublicKey in Hload.
      destruct fetchJWKS as [err | doc]; [discriminate|]. exists doc.
      assert (Hnil : snd (convertKeys (JWKS_Keys doc) ∅) = None)
        by (rewrite Hload; reflexivity).
      apply convertKeys_nil_error in Hnil as [pks Hall]. exists pks.
      rewrite (convertKeys_all _ pks ∅ Hall), (right_id_L ∅ (∪)) in Hload.
      injection Hload as <-.
      split; [reflexivity|]. split; [exact Hall|]. split; [reflexivity|].
      apply keyTable_dom, Hall.
    + intros run value. split.
      * destruct run as [err|]; [| discriminate].
        intros [= <-]. right. split; [reflexivity|]. eauto.
      * intros [(err' & [=] & _) | (_ & err' & -> & ->)]. reflexivity.
Qed.

(** The sample provider at start-up: listening with its one key when it is
    healthy, a panic when its document has a record that does not
    convert, and a panic when the router cannot bind its port. *)
Example main_on_sample :
  @main Sample.healthy = Listening {[ "k1" := Sample.keyA ]}
  /\ @main (Sample.provider
              (inr {| http.StatusCode := 200;
                      http.Body := inr "three-keys-second-bad" |}))
     = Panic (Sprintf "Failed to initialize JWT: %v"
                (Errorf "failed to convert JWK to RSA public key: %w" []
                   (Some (Errorf "failed to decode modulus: %w" []
                            (Some (ErrorNew "illegal base64 data at input byte 3"))))))
  /\ @mainEnd Sample.healthy (Some (ErrorNew "listen tcp :9000: bind: address already in use"))
     = Panic (Sprintf "Failed to start server: %v"
                (ErrorNew "listen tcp :9000: bind: address already in use")).
Proof. split; [| split]; vm_compute; reflexivity. Qed.

(* ===================================================================== *)
(** ** jwt.go: what the verifier accepts and how it fails                 *)
(* ===================================================================== *)

Section Acceptance.

Context {ext : External}.
Variable publicKeys : gmap string rsa.PublicKey.
Variables now now' : Time.

(** The parser's acceptance, taken apart. *)
Lemma ParseWithClaims_inr_inv tokenString keyFunc t accepted :
  ParseWithClaims tokenString keyFunc t = inr accepted ->
  exists token p0 p1 p2 sig key,
    ParseUnverified tokenString = inr (token, (p0, p1, p2))
    /\ base64.RawURLEncoding_DecodeString p2 = inr sig
    /\ keyFunc {| jwt.Raw := jwt.Raw token; jwt.Method := jwt.Method token;
                 jwt.Header := jwt.Header token; jwt.Claims := jwt.Claims token;
                 jwt.Signature := sig; jwt.Valid := false |} = inr key
    /\ Verify (jwt.Method token) (p0 +:+ "." +:+ p1) sig key = None
    /\ jwt.verifyExpiresAt (jwt.Claims token) t = true
    /\ jwt.verifyNotBefore (jwt.Claims token) t = true
    /\ jwt.Claims accepted = jwt.Claims token.
Proof.
  unfold ParseWithClaims.
  destruct (ParseUnverified tokenString) as [e | [token [[p0 p1] p2]]] eqn:Hu;
    [discriminate|].
  destruct (base64.RawURLEncoding_DecodeString p2) as [e | sig] eqn:Hs; [discriminate|].
  destruct (keyFunc _) as [e | key] eqn:Hk; [discriminate|].
  cbn [jwt.Method jwt.Claims].
  destruct (Verify _ _ _ _) as [e|] eqn:Hv; [discriminate|].
  unfold jwt.Validate.
  destruct (jwt.verifyExpiresAt _ _) eqn:He; [| discriminate].
  destruct (jwt.verifyNotBefore _ _) eqn:Hn; [| discriminate].
  cbn [app]. intros [= <-]. exists token, p0, p1, p2, sig, key.
  repeat split; assumption || reflexivity.
Qed.

(** The key function's success, taken apart. *)
Lemma keyFunc_inr_inv keys token key :
  keyFunc keys token = inr key ->
  exists h kid,
    jwt.Method token = jwt.SigningMethodRSA h
    /\ jwt.Header token !! "kid" = Some (VString kid)
    /\ keys !! kid = Some key.
Proof.
  unfold keyFunc. destruct (jwt.Method token) as [h | | | | |]; try discriminate.
  destruct (jwt.Header token !! "kid") as [[kid | | | |]|]; try discriminate.
  destruct (keys !! kid) as [k|] eqn:Hl; [| discriminate].
  intros [= <-]. exists h, kid. repeat split; assumption.
Qed.

(** The checks of [verifyToken] after the parser, on a token it accepted. *)
Lemma verifyToken_after_parse tokenString accepted :
  ParseWithClaims tokenString (keyFunc publicKeys) now = inr accepted ->
  verifyToken publicKeys now now' tokenString
  = let claims := jwt.Claims accepted in
    if negb (String.eqb (Issuer (Registered claims)) keycloakURL) then
      inl (Errorf "invalid issuer: expected %s, got %s"
                  [ArgString keycloakURL; ArgString (Issuer (Registered claims))] None)
    else if match ExpiresAt (Registered claims) with
            | Some exp => exp <? now'
            | None => false
            end
    then inl (Errorf "token has expired" [] None)
    else if negb (Nat.eqb (length (Audience (Registered claims))) 0)
            && negb (validAudience (Audience (Registered claims)))
    then inl (Errorf "invalid audience" [] None)
    else inr claims.
Proof.
  intros Hp. unfold verifyToken. rewrite Hp, (ParseWithClaims_valid _ _ _ _ Hp).
  reflexivity.
Qed.

Lemma validAudience_In (audience : list string) :
  validAudience audience = true <-> In "account" audience.
Proof.
  unfold validAudience. rewrite existsb_exists. split.
  - intros (aud & Hi & He). apply String.eqb_eq in He. subst aud. exact Hi.
  - intros Hi. exists "account". split; [exact Hi | apply String.eqb_refl].
Qed.

(** Accepted tokens satisfy every condition of [Accepts]. *)
Lemma verifyToken_inr_Accepts tokenString claims :
  verifyToken publicKeys now now' tokenString = inr claims ->
  Accepts publicKeys now now' tokenString claims.
Proof.
  intros Hv.
  destruct (ParseWithClaims tokenString (keyFunc publicKeys) now) as [e | accepted] eqn:Hp.
  { unfold verifyToken in Hv. rewrite Hp in Hv. discriminate. }
  rewrite (verifyToken_after_parse _ _ Hp) in Hv. cbv zeta in Hv.
  destruct (ParseWithClaims_inr_inv _ _ _ _ Hp)
    as (token & p0 & p1 & p2 & sig & key & Hu & Hs & Hk & Hver & He & Hn & Hc).
  destruct (keyFunc_inr_inv _ _ _ Hk) as (h & kid & Hm & Hkid & Hl).
  cbn [jwt.Method jwt.Header] in Hm, Hkid.
  rewrite Hc in Hv.
  destruct (String.eqb (Issuer (Registered (jwt.Claims token))) keycloakURL) eqn:Hiss;
    cbn [negb] in Hv; [| discriminate].
  destruct (match ExpiresAt (Registered (jwt.Claims token)) with
            | Some exp => exp <? now'
            | None => false
            end) eqn:Hexp; [discriminate|].
  destruct (negb (Nat.eqb (length (Audience (Registered (jwt.Claims token)))) 0)
            && negb (validAudience (Audience (Registered (jwt.Claims token)))))
    eqn:Haud; [discriminate|].
  injection Hv as <-.
  exists token, p0, p1, p2, sig, h, kid, key.
  split; [exact Hu|]. split; [exact Hs|]. split; [exact Hm|]. split; [exact Hkid|].
  split; [exact Hl|]. split; [exact Hver|]. split; [reflexivity|].
  split; [| split; [| split]].
  - intros exp Hx. unfold jwt.verifyExpiresAt in He. rewrite Hx in He, Hexp.
    apply Z.ltb_lt in He. apply Z.ltb_ge in Hexp. lia.
  - intros nbf Hx. unfold jwt.verifyNotBefore in Hn. rewrite Hx in Hn.
    apply negb_true_iff, Z.ltb_ge in Hn. lia.
  - apply String.eqb_eq. exact Hiss.
  - apply andb_false_iff in Haud as [Ha | Ha].
    + left. apply negb_false_iff, Nat.eqb_eq in Ha.
      destruct (Audience (Registered (jwt.Claims token))); [reflexivity | discriminate].
    + right. apply negb_false_iff in Ha. apply validAudience_In. exact Ha.
Qed.

(** Tokens that satisfy [Accepts] are accepted. *)
Lemma Accepts_verifyToken_inr tokenString claims :
  Accepts publicKeys now now' tokenString claims ->
  verifyToken publicKeys now now' tokenString = inr claims.
Proof.
  intros (token & p0 & p1 & p2 & sig & h & kid & key
          & Hu & Hs & Hm & Hkid & Hl & Hver & -> & Hexp & Hnbf & Hiss & Haud).
  assert (Hk : keyFunc publicKeys
                 {| jwt.Raw := jwt.Raw token; jwt.Method := jwt.Method token;
                    jwt.Header := jwt.Header token; jwt.Claims := jwt.Claims token;
                    jwt.Signature := sig; jwt.Valid := false |} = inr key).
  { rewrite (keyFunc_lookup publicKeys token sig h kid Hm Hkid), Hl. reflexivity. }
  assert (He : jwt.verifyExpiresAt (jwt.Claims token) now = true).
  { unfold jwt.verifyExpiresAt.
    destruct (ExpiresAt (Registered (jwt.Claims token))) as [exp|]; [| reflexivity].
    apply Z.ltb_lt. apply (Hexp exp eq_refl). }
  assert (Hn : jwt.verifyNotBefore (jwt.Claims token) now = true).
  { unfold jwt.verifyNotBefore.
    destruct (NotBefore (Registered (jwt.Claims token))) as [nbf|]; [| reflexivity].
    apply negb_true_iff, Z.ltb_ge. apply (Hnbf nbf eq_refl). }
  rewrite (verifyToken_after_parse tokenString _
             (ParseWithClaims_accepts tokenString p0 p1 p2 token sig Hu Hs
                (keyFunc publicKeys) now key Hk Hver He Hn)).
  cbv zeta. cbn [jwt.Claims]. rewrite Hiss, String.eqb_refl. cbn [negb].
  assert (Hx : match ExpiresAt (Registered (jwt.Claims token)) with
               | Some exp => exp <? now'
               | None => false
               end = false).
  { destruct (ExpiresAt (Registered (jwt.Claims token))) as [exp|]; [| reflexivity].
    apply Z.ltb_ge. apply (Hexp exp eq_refl). }
  rewrite Hx. destruct Haud as [-> | Hin]; [reflexivity|].
  apply validAudience_In in Hin. rewrite Hin, andb_false_r. reflexivity.
Qed.

End Acceptance.

(** X9.  [verifyToken] returns claims exactly for the tokens that decode,
    are of an RSA method (RS256, RS384, RS512), name through a string [kid]
    a key of the cache under which the signature over the first two
    segments verifies, are unexpired at both clock readings, are not before
    their not-before time, carry the configured issuer and have an audience
    that is empty or contains ["account"]; and the claims it returns are
    the ones decoded from the token's payload. *)
Theorem verifyToken_accepts_iff {ext : External}
    (publicKeys : gmap string rsa.PublicKey) (now now' : Time)
    (tokenString : string) (claims : CustomClaims) :
  verifyToken publicKeys now now' tokenString = inr claims
  <-> Accepts publicKeys now now' tokenString claims.
Proof.
  split.
  - apply verifyToken_inr_Accepts.
  - apply Accepts_verifyToken_inr.
Qed.

(** X10.  A token that decodes (three segments, a header and claims that
    decode, a known [alg]) and whose signature segment is base64url, of any
    other signing method than the RSA ones (HMAC, ECDSA, RSA-PSS, EdDSA,
    none), is refused by the key function before any key is looked up or
    signature checked: [verifyToken] fails with the
    unexpected-signing-method error, whatever the cache holds.  (A signature
    segment that is not base64url fails earlier, as a malformed token.) *)
Theorem verifyToken_rejects_other_methods {ext : External}
    (publicKeys : gmap string rsa.PublicKey) (now now' : Time)
    (tokenString p0 p1 p2 : string) (token : jwt.Token) (sig : list Z) :
  ParseUnverified tokenString = inr (token, (p0, p1, p2)) ->
  base64.RawURLEncoding_DecodeString p2 = inr sig ->
  (forall h, jwt.Method token <> jwt.SigningMethodRSA h) ->
  verifyToken publicKeys now now' tokenString
  = inl (Errorf "failed to parse token: %w" []
           (Some (JWTError "error while executing keyfunc" ErrTokenUnverifiable
                    (Some (Errorf "unexpected signing method: %v"
                                  [ArgValue (jwt.Header token !! "alg")] None))))).
Proof.
  intros Hu Hs Hm. unfold verifyToken.
  rewrite (ParseWithClaims_keyfunc_error tokenString p0 p1 p2 token sig Hu Hs
             (keyFunc publicKeys) now
             (Errorf "unexpected signing method: %v"
                     [ArgValue (jwt.Header token !! "alg")] None)); [reflexivity|].
  unfold keyFunc. cbn [jwt.Method jwt.Header].
  destruct (jwt.Method token) as [h | | | | |]; try reflexivity.
  exfalso. exact (Hm h eq_refl).
Qed.

Lemma verifyToken_rejects_other_methods_witness :
  @verifyToken Sample.healthy Sample.publicKeys 1000 1001 Probe.tokHMAC
  = inl (Errorf "failed to parse token: %w" []
           (Some (JWTError "error while executing keyfunc" ErrTokenUnverifiable
                    (Some (Errorf "unexpected signing method: %v"
                                  [ArgValue (Some (VString "HS256"))] None))))).
Proof.
  refine (@verifyToken_rejects_other_methods Sample.healthy Sample.publicKeys 1000 1001
            Probe.tokHMAC "Aw" "AQ" "BJE"
            {| jwt.Raw := Probe.tokHMAC; jwt.Method := jwt.SigningMethodHMAC jwt.SHA256;
               jwt.Header := {[ "alg" := VString "HS256"; "kid" := VString "k1" ]};
               jwt.Claims := Sample.claimsOf (Some 2000) None ["account"];
               jwt.Signature := []; jwt.Valid := false |}
            [4; 145] _ _ _).
  - vm_compute. reflexivity.
  - vm_compute. reflexivity.
  - intros h. discriminate.
Defined.

(** X11.  A token that decodes (three segments, a header and claims that
    decode, a known [alg]) and whose signature segment is base64url, of an
    RSA method, whose header has no [kid], or one that is not a string,
    fails with the kid-header-not-found error, whatever the cache holds.
    (A signature segment that is not base64url fails earlier, as a
    malformed token.) *)
Theorem verifyToken_kid_not_found {ext : External}
    (publicKeys : gmap string rsa.PublicKey) (now now' : Time)
    (tokenString p0 p1 p2 : string) (token : jwt.Token) (sig : list Z) (h : jwt.Hash) :
  ParseUnverified tokenString = inr (token, (p0, p1, p2)) ->
  base64.RawURLEncoding_DecodeString p2 = inr sig ->
  jwt.Method token = jwt.SigningMethodRSA h ->
  (forall kid, jwt.Header token !! "kid" <> Some (VString kid)) ->
  verifyToken publicKeys now now' tokenString
  = inl (Errorf "failed to parse token: %w" []
           (Some (JWTError "error while executing keyfunc" ErrTokenUnverifiable
                    (Some (Errorf "kid header not found in token" [] None))))).
Proof.
  intros Hu Hs Hm Hk. unfold verifyToken.
  rewrite (ParseWithClaims_keyfunc_error tokenString p0 p1 p2 token sig Hu Hs
             (keyFunc publicKeys) now
             (Errorf "kid header not found in token" [] None)); [reflexivity|].
  unfold keyFunc. cbn [jwt.Method jwt.Header]. rewrite Hm.
  destruct (jwt.Header token !! "kid") as [[kid | | | |]|]; try reflexivity.
  exfalso. exact (Hk kid eq_refl).
Qed.

Lemma verifyToken_kid_not_found_witness :
  @verifyToken Probe.provider Sample.publicKeys 1000 1001 Probe.tokNoKid
  = inl (Errorf "failed to parse token: %w" []
           (Some (JWTError "error while executing keyfunc" ErrTokenUnverifiable
                    (Some (Errorf "kid header not found in token" [] None)))))
  /\ @verifyToken Probe.provider Sample.publicKeys 1000 1001 Probe.tokNumberKid
     = inl (Errorf "failed to parse token: %w" []
              (Some (JWTError "error while executing keyfunc" ErrTokenUnverifiable
                       (Some (Errorf "kid header not found in token" [] None))))).
Proof.
  split.
  - refine (@verifyToken_kid_not_found Probe.provider Sample.publicKeys 1000 1001
              Probe.tokNoKid "BA" "AQ" "AGo"
              {| jwt.Raw := Probe.tokNoKid; jwt.Method := jwt.SigningMethodRSA jwt.SHA256;
                 jwt.Header := {[ "alg" := VString "RS256" ]};
                 jwt.Claims := Sample.claimsOf (Some 2000) None ["account"];
                 jwt.Signature := []; jwt.Valid := false |}
              [0; 106] jwt.SHA256 _ _ _ _).
    + vm_compute. reflexivity.
    + vm_compute. reflexivity.
    + reflexivity.
    + intros kid H. vm_compute in H. discriminate.
  - refine (@verifyToken_kid_not_found Probe.provider Sample.publicKeys 1000 1001
              Probe.tokNumberKid "BQ" "AQ" "AGo"
              {| jwt.Raw := Probe.tokNumberKid;
                 jwt.Method := jwt.SigningMethodRSA jwt.SHA256;
                 jwt.Header := {[ "alg" := VString "RS256"; "kid" := VNumber 7 ]};
                 jwt.Claims := Sample.claimsOf (Some 2000) None ["account"];
                 jwt.Signature := []; jwt.Valid := false |}
              [0; 106] jwt.SHA256 _ _ _ _).
    + vm_compute. reflexivity.
    + vm_compute. reflexivity.
    + reflexivity.
    + intros kid H. vm_compute in H. discriminate.
Defined.

(** The signature segment is decoded before the key function runs: the
    token without [kid] and the HMAC token, their signature segments
    replaced by text that is not base64url, fail as malformed, with the
    offset the decoder reports (the illegal byte; the last byte for a
    single left-over character). *)
Example verifyToken_undecodable_signature :
  @verifyToken Probe.provider Sample.publicKeys 1000 1001 "BA.AQ.A*o"
  = inl (Errorf "failed to parse token: %w" []
           (Some (JWTError "could not base64 decode signature" ErrTokenMalformed
                    (Some (ErrorNew "illegal base64 data at input byte 1")))))
  /\ @verifyToken Sample.healthy Sample.publicKeys 1000 1001 "Aw.AQ.B"
     = inl (Errorf "failed to parse token: %w" []
              (Some (JWTError "could not base64 decode signature" ErrTokenMalformed
                       (Some (ErrorNew "illegal base64 data at input byte 0"))))).
Proof. split; vm_compute; reflexivity. Qed.

(** X12.  A token that does not have exactly two dots, the empty token
    among them, fails as malformed (an invalid number of segments) before
    anything of it is decoded. *)
Theorem verifyToken_wrong_segment_count {ext : External}
    (publicKeys : gmap string rsa.PublicKey) (now now' : Time) (tokenString : string) :
  countChar "." tokenString <> 2%nat ->
  verifyToken publicKeys now now' tokenString
  = inl (Errorf "failed to parse token: %w" []
           (Some (JWTError "token contains an invalid number of segments"
                           ErrTokenMalformed None))).
Proof.
  intros Hc. pose proof (Split_char_length "." tokenString) as Hlen.
  unfold verifyToken, ParseWithClaims, ParseUnverified.
  destruct (GoStrings.Split tokenString ".") as [|p0 [|p1 [|p2 [|p3 rest]]]];
    try reflexivity.
  cbn [length] in Hlen. exfalso. apply Hc. congruence.
Qed.

Lemma verifyToken_wrong_segment_count_witness :
  @verifyToken Sample.healthy Sample.publicKeys 1000 1001 ""
  = inl (Errorf "failed to parse token: %w" []
           (Some (JWTError "token contains an invalid number of segments"
                           ErrTokenMalformed None))).
Proof.
  apply (@verifyToken_wrong_segment_count Sample.healthy Sample.publicKeys 1000 1001 "").
  discriminate.
Defined.

(** X13.  A token the parser accepts but whose issuer is not exactly the
    configured realm URL fails with the invalid-issuer error, naming both
    issuers, whatever its expiry and audience. *)
Theorem verifyToken_invalid_issuer {ext : External}
    (publicKeys : gmap string rsa.PublicKey) (now now' : Time)
    (tokenString : string) (token : jwt.Token) :
  ParseWithClaims tokenString (keyFunc publicKeys) now = inr token ->
  Issuer (Registered (jwt.Claims token)) <> keycloakURL ->
  verifyToken publicKeys now now' tokenString
  = inl (Errorf "invalid issuer: expected %s, got %s"
                [ArgString keycloakURL;
                 ArgString (Issuer (Registered (jwt.Claims token)))] None).
Proof.
  intros Hp Hiss. rewrite (verifyToken_after_parse publicKeys now now' _ _ Hp).
  cbv zeta. apply String.eqb_neq in Hiss. rewrite Hiss. reflexivity.
Qed.

Lemma verifyToken_invalid_issuer_witness :
  @verifyToken Probe.provider Sample.publicKeys 1000 1001 Probe.tokOtherIssuer
  = inl (Errorf "invalid issuer: expected %s, got %s"
                [ArgString keycloakURL;
                 ArgString "http://localhost:8080/realms/staff"] None).
Proof.
  refine (@verifyToken_invalid_issuer Probe.provider Sample.publicKeys 1000 1001
            Probe.tokOtherIssuer
            {| jwt.Raw := Probe.tokOtherIssuer;
               jwt.Method := jwt.SigningMethodRSA jwt.SHA256;
               jwt.Header := {[ "alg" := VString "RS256"; "kid" := VString "k1" ]};
               jwt.Claims :=
                 {| Registered :=
                      {| Issuer := "http://localhost:8080/realms/staff";
                         Subject := "mallory"; Audience := ["account"];
                         ExpiresAt := Some 2000; NotBefore := None;
                         IssuedAt := None; ID := "" |};
                    PreferredUsername := "mallory"; Email := "mallory@example.com";
                    Name := "Mallory" |};
               jwt.Signature := [4; 248]; jwt.Valid := true |} _ _).
  - vm_compute. reflexivity.
  - discriminate.
Defined.

(** X14.  Adding keys to the cache never turns an accepted token away: a
    token [verifyToken] accepts with a cache is accepted, with the same
    claims, with every cache that extends it. *)
Theorem verifyToken_cache_monotone {ext : External}
    (publicKeys publicKeys' : gmap string rsa.PublicKey) (now now' : Time)
    (tokenString : string) (claims : CustomClaims) :
  publicKeys ⊆ publicKeys' ->
  verifyToken publicKeys now now' tokenString = inr claims ->
  verifyToken publicKeys' now now' tokenString = inr claims.
Proof.
  intros Hsub Hv. apply Accepts_verifyToken_inr.
  apply verifyToken_inr_Accepts in Hv
    as (token & p0 & p1 & p2 & sig & h & kid & key & Hu & Hs & Hm & Hk & Hl & Hrest).
  exists token, p0, p1, p2, sig, h, kid, key.
  split; [exact Hu|]. split; [exact Hs|]. split; [exact Hm|]. split; [exact Hk|].
  split; [| exact Hrest].
  eapply lookup_weaken; eassumption.
Qed.

Lemma verifyToken_cache_monotone_witness :
  @verifyToken Sample.healthy (<["k7" := Sample.keyB]> Sample.publicKeys) 1000 1001
     Sample.tokGood
  = inr (Sample.claimsOf (Some 2000) None ["account"]).
Proof.
  apply (@verifyToken_cache_monotone Sample.healthy Sample.publicKeys
           (<["k7" := Sample.keyB]> Sample.publicKeys) 1000 1001 Sample.tokGood).
  - apply insert_subseteq. reflexivity.
  - vm_compute. reflexivity.
Defined.

(** The parser's errors all carry one of four sentinels. *)
Lemma ParseWithClaims_inl_shape {ext : External} tokenString keyFunc t err :
  ParseWithClaims tokenString keyFunc t = inl err ->
  exists msg sentinel cause,
    err = JWTError msg sentinel cause
    /\ In sentinel [ErrTokenMalformed; ErrTokenUnverifiable;
                    ErrTokenSignatureInvalid; ErrTokenInvalidClaims].
Proof.
  unfold ParseWithClaims, ParseUnverified.
  destruct (GoStrings.Split tokenString ".") as [|p0 [|p1 [|p2 [|p3 rest]]]];
    try (intros [= <-]; do 3 eexists; split; [reflexivity | cbn; tauto]).
  destruct (base64.RawURLEncoding_DecodeString p0);
    [intros [= <-]; do 3 eexists; split; [reflexivity | cbn; tauto]|].
  destruct (UnmarshalHeader _) as [e | header];
    [intros [= <-]; do 3 eexists; split; [reflexivity | cbn; tauto]|].
  destruct (base64.RawURLEncoding_DecodeString p1);
    [intros [= <-]; do 3 eexists; split; [reflexivity | cbn; tauto]|].
  destruct (UnmarshalClaims _) as [e | claims];
    [intros [= <-]; do 3 eexists; split; [reflexivity | cbn; tauto]|].
  destruct (header !! "alg") as [[alg | | | |]|];
    try (intros [= <-]; do 3 eexists; split; [reflexivity | cbn; tauto]).
  destruct (jwt.GetSigningMethod alg) as [method|];
    [| intros [= <-]; do 3 eexists; split; [reflexivity | cbn; tauto]].
  destruct (base64.RawURLEncoding_DecodeString p2);
    [intros [= <-]; do 3 eexists; split; [reflexivity | cbn; tauto]|].
  destruct (keyFunc _);
    [intros [= <-]; do 3 eexists; split; [reflexivity | cbn; tauto]|].
  destruct (Verify _ _ _ _);
    [intros [= <-]; do 3 eexists; split; [reflexivity | cbn; tauto]|].
  destruct (jwt.Validate _ _);
    [intros [= <-]; do 3 eexists; split; [reflexivity | cbn; tauto] | discriminate].
Qed.

(** X15.  The failures of [verifyToken] are of four kinds and no other: a
    parser error wrapped as failed-to-parse, carrying the malformed, the
    unverifiable, the signature-invalid or the invalid-claims sentinel; the
    invalid-issuer error, with an issuer that is not the configured one;
    the expired error; the invalid-audience error.  The invalid-token-claims
    error of the source is never returned. *)
Theorem verifyToken_failures {ext : External}
    (publicKeys : gmap string rsa.PublicKey) (now now' : Time)
    (tokenString : string) (err : error) :
  verifyToken publicKeys now now' tokenString = inl err ->
  ((exists msg sentinel cause,
      err = Errorf "failed to parse token: %w" []
              (Some (JWTError msg sentinel cause))
      /\ In sentinel [ErrTokenMalformed; ErrTokenUnverifiable;
                      ErrTokenSignatureInvalid; ErrTokenInvalidClaims])
   \/ (exists got,
         got <> keycloakURL
         /\ err = Errorf "invalid issuer: expected %s, got %s"
                    [ArgString keycloakURL; ArgString got] None)
   \/ err = Errorf "token has expired" [] None
   \/ err = Errorf "invalid audience" [] None)
  /\ err <> Errorf "invalid token claims" [] None.
Proof.
  intros Hv.
  assert (Hshape :
    (exists msg sentinel cause,
        err = Errorf "failed to parse token: %w" []
                (Some (JWTError msg sentinel cause))
        /\ In sentinel [ErrTokenMalformed; ErrTokenUnverifiable;
                        ErrTokenSignatureInvalid; ErrTokenInvalidClaims])
    \/ (exists got,
           got <> keycloakURL
           /\ err = Errorf "invalid issuer: expected %s, got %s"
                      [ArgString keycloakURL; ArgString got] None)
    \/ err = Errorf "token has expired" [] None
    \/ err = Errorf "invalid audience" [] None).
  { destruct (ParseWithClaims tokenString (keyFunc publicKeys) now)
      as [e | accepted] eqn:Hp.
    - unfold verifyToken in Hv. rewrite Hp in Hv. injection Hv as <-.
      destruct (ParseWithClaims_inl_shape _ _ _ _ Hp) as (msg & s & cause & -> & Hin).
      left. exists msg, s, cause. split; [reflexivity | exact Hin].
    - rewrite (verifyToken_after_parse publicKeys now now' _ _ Hp) in Hv.
      cbv zeta in Hv.
      destruct (String.eqb (Issuer (Registered (jwt.Claims accepted))) keycloakURL)
        eqn:Hiss; cbn [negb] in Hv.
      + destruct (match ExpiresAt (Registered (jwt.Claims accepted)) with
                  | Some exp => exp <? now'
                  | None => false
                  end).
        * injection Hv as <-. right. right. left. reflexivity.
        * destruct (negb _ && negb _); [| discriminate].
          injection Hv as <-. right. right. right. reflexivity.
      + injection Hv as <-. right. left.
        exists (Issuer (Registered (jwt.Claims accepted))).
        split; [apply String.eqb_neq; exact Hiss | reflexivity]. }
  split; [exact Hshape|].
  destruct Hshape as [(msg & s & cause & -> & _) | [(got & _ & ->) | [-> | ->]]];
    discriminate.
Qed.

Lemma verifyToken_failures_witness :
  let err := Errorf "invalid audience" [] None in
  ((exists msg sentinel cause,
      err = Errorf "failed to parse token: %w" []
              (Some (JWTError msg sentinel cause))
      /\ In sentinel [ErrTokenMalformed; ErrTokenUnverifiable;
                      ErrTokenSignatureInvalid; ErrTokenInvalidClaims])
   \/ (exists got,
         got <> keycloakURL
         /\ err = Errorf "invalid issuer: expected %s, got %s"
                    [ArgString keycloakURL; ArgString got] None)
   \/ err = Errorf "token has expired" [] None
   \/ err = Errorf "invalid audience" [] None)
  /\ err <> Errorf "invalid token claims" [] None.
Proof.
  cbv zeta.
  apply (@verifyToken_failures Sample.healthy Sample.publicKeys 1000 1001
           Sample.tokOtherAudience).
  vm_compute. reflexivity.
Defined.

(** The cache of a listening server, by the document it was loaded from. *)
Lemma Listening_keys {ext : External} (publicKeys : gmap string rsa.PublicKey) :
  main = Listening publicKeys ->
  exists doc pks,
    fetchJWKS = inr doc /\ Forall2 converts (JWKS_Keys doc) pks
    /\ publicKeys = keyTable (JWKS_Keys doc) pks.
Proof.
  unfold main.
  destruct (GetKeycloakPublicKey ∅) as [keys [err|]] eqn:Hload; [discriminate|].
  intros [= <-]. unfold GetKeycloakPublicKey in Hload.
  destruct fetchJWKS as [err | doc]; [discriminate|]. exists doc.
  assert (Hnil : snd (convertKeys (JWKS_Keys doc) ∅) = None) by (rewrite Hload; reflexivity).
  apply convertKeys_nil_error in Hnil as [pks Hall]. exists pks.
  rewrite (convertKeys_all _ pks ∅ Hall), (right_id_L ∅ (∪)) in Hload.
  injection Hload as <-. repeat split; [exact Hall].
Qed.

(** X16.  Start-up and verification together: once the server listens,
    a token of an RSA method that names the key identifier of any record
    of the loaded document finds a key in the cache, so [verifyToken] does
    not fail on it with the public-key-not-found error. *)
Theorem published_kid_is_found {ext : External}
    (publicKeys : gmap string rsa.PublicKey) (now now' : Time)
    (doc : JWKS) (jwk : JWK)
    (tokenString p0 p1 p2 : string) (token : jwt.Token) (sig : list Z) (h : jwt.Hash) :
  main = Listening publicKeys ->
  fetchJWKS = inr doc ->
  In jwk (JWKS_Keys doc) ->
  ParseUnverified tokenString = inr (token, (p0, p1, p2)) ->
  base64.RawURLEncoding_DecodeString p2 = inr sig ->
  jwt.Method token = jwt.SigningMethodRSA h ->
  jwt.Header token !! "kid" = Some (VString (Kid jwk)) ->
  (exists key, publicKeys !! Kid jwk = Some key)
  /\ verifyToken publicKeys now now' tokenString
     <> inl (Errorf "failed to parse token: %w" []
               (Some (JWTError "error while executing keyfunc" ErrTokenUnverifiable
                        (Some (Errorf "public key not found for kid: %s"
                                      [ArgString (Kid jwk)] None))))).
Proof.
  intros Hmain Hdoc Hin Hu Hs Hm Hk.
  destruct (Listening_keys publicKeys Hmain) as (doc' & pks & Hdoc' & Hall & ->).
  assert (doc' = doc) as -> by congruence.
  assert (Hsome : is_Some (keyTable (JWKS_Keys doc) pks !! Kid jwk)).
  { apply (keyTable_dom _ _ Hall). apply list_elem_of_fmap. exists jwk.
    split; [reflexivity | apply list_elem_of_In; exact Hin]. }
  destruct Hsome as [key Hl]. split; [eauto|].
  assert (Hkey : keyFunc (keyTable (JWKS_Keys doc) pks)
                   {| jwt.Raw := jwt.Raw token; jwt.Method := jwt.Method token;
                      jwt.Header := jwt.Header token; jwt.Claims := jwt.Claims token;
                      jwt.Signature := sig; jwt.Valid := false |} = inr key).
  { rewrite (keyFunc_lookup _ token sig h (Kid jwk) Hm Hk), Hl. reflexivity. }
  intros Hv.
  unfold verifyToken, ParseWithClaims in Hv. rewrite Hu, Hs, Hkey in Hv.
  destruct (Verify _ _ _ _); [discriminate|].
  destruct (jwt.Validate _ _); [discriminate|].
  cbn [jwt.Valid jwt.Claims negb] in Hv.
  destruct (negb (String.eqb _ _)); [discriminate|].
  destruct (match ExpiresAt _ with Some _ => _ | None => _ end); [discriminate|].
  destruct (negb _ && negb _); discriminate.
Qed.

Lemma published_kid_is_found_witness :
  (exists key, Sample.publicKeys !! "k1" = Some key)
  /\ @verifyToken Sample.healthy Sample.publicKeys 1000 1001 Sample.tokGood
     <> inl (Errorf "failed to parse token: %w" []
               (Some (JWTError "error while executing keyfunc" ErrTokenUnverifiable
                        (Some (Errorf "public key not found for kid: %s"
                                      [ArgString "k1"] None))))).
Proof.
  refine (@published_kid_is_found Sample.healthy Sample.publicKeys 1000 1001
            {| JWKS_Keys := [Sample.jwkA] |} Sample.jwkA
            Sample.tokGood "AQ" "AQ" "AGo"
            {| jwt.Raw := Sample.tokGood; jwt.Method := jwt.SigningMethodRSA jwt.SHA256;
               jwt.Header := {[ "alg" := VString "RS256"; "kid" := VString "k1" ]};
               jwt.Claims := Sample.claimsOf (Some 2000) None ["account"];
               jwt.Signature := []; jwt.Valid := false |}
            [0; 106] jwt.SHA256 _ _ _ _ _ _ _).
  - vm_compute. reflexivity.
  - reflexivity.
  - left. reflexivity.
  - vm_compute. reflexivity.
  - vm_compute. reflexivity.
  - reflexivity.
  - vm_compute. reflexivity.
Defined.

(* ===================================================================== *)
(** ** The middlewares: who gets through, and with what                   *)
(* ===================================================================== *)

Lemma Next_Set_authorized (c : Context) (user_id email : string) :
  Aborted c = false ->
  Next (Set_ (Set_ c "user_id" user_id) "email" email) = authorized c user_id email.
Proof.
  intros Hrun. unfold Next, authorized. cbn [Set_ Aborted]. rewrite Hrun. reflexivity.
Qed.

Lemma ranDownstream_Abort (c : Context) (code : Z) (body : H) :
  ranDownstream c (Abort (JSON c code body)) = false.
Proof.
  unfold ranDownstream. cbn [Abort JSON NextCalls Aborted negb].
  rewrite Nat.ltb_irrefl. reflexivity.
Qed.

Lemma ranDownstream_authorized (c : Context) (user_id email : string) :
  ranDownstream c (authorized c user_id email) = true.
Proof. unfold ranDownstream. cbn [authorized Aborted negb]. apply orb_true_r. Qed.

(** X17.  The JWT middleware lets an un-aborted request through exactly
    when the extractor returns a token and [verifyToken] accepts it; the
    context it then passes on is the one it got with [user_id] set to the
    subject and [email] to the email of the verified claims, no response
    written and the downstream handlers run once. *)
Theorem JWTAuthMiddleware_lets_through_iff {ext : External}
    (publicKeys : gmap string rsa.PublicKey) (now now' : Time) (c : Context) :
  Aborted c = false ->
  (ranDownstream c (JWTAuthMiddleware publicKeys now now' c) = true
   <-> exists token claims,
         fst (extractBearerToken c) = (token, true)
         /\ verifyToken publicKeys now now' token = inr claims)
  /\ (forall token claims,
        fst (extractBearerToken c) = (token, true) ->
        verifyToken publicKeys now now' token = inr claims ->
        JWTAuthMiddleware publicKeys now now' c
        = authorized c (Subject (Registered claims)) (Email claims)).
Proof.
  intros Hrun.
  assert (Hok : forall token claims,
             fst (extractBearerToken c) = (token, true) ->
             verifyToken publicKeys now now' token = inr claims ->
             JWTAuthMiddleware publicKeys now now' c
             = authorized c (Subject (Registered claims)) (Email claims)).
  { intros token claims Hx Hv. unfold JWTAuthMiddleware.
    rewrite (extractBearerToken_ok c token Hx). cbn [negb]. rewrite Hv.
    apply Next_Set_authorized, Hrun. }
  split; [| exact Hok]. split.
  - unfold JWTAuthMiddleware.
    destruct (snd (fst (extractBearerToken c))) eqn:Hflag.
    + destruct (extractBearerToken_flag c Hflag) as [token He]. rewrite He. cbn [negb].
      destruct (verifyToken publicKeys now now' token) as [err | claims] eqn:Hv.
      * rewrite ranDownstream_Abort. discriminate.
      * intros _. exists token, claims. split; [reflexivity | exact Hv].
    + destruct (extractBearerToken_rejects c Hflag) as [msg He]. rewrite He. cbn [negb].
      rewrite ranDownstream_Abort. discriminate.
  - intros (token & claims & Hx & Hv). rewrite (Hok token claims Hx Hv).
    apply ranDownstream_authorized.
Qed.

Lemma JWTAuthMiddleware_lets_through_iff_witness :
  let c := Sample.request "Bearer AQ.AQ.AGo" in
  @JWTAuthMiddleware Sample.healthy Sample.publicKeys 1000 1001 c
  = authorized c "alice" "alice@example.com".
Proof.
  cbv zeta.
  apply (proj2 (@JWTAuthMiddleware_lets_through_iff Sample.healthy Sample.publicKeys
                  1000 1001 (Sample.request "Bearer AQ.AQ.AGo") eq_refl)
           "AQ.AQ.AGo" (Sample.claimsOf (Some 2000) None ["account"])).
  - reflexivity.
  - vm_compute. reflexivity.
Defined.

(** X18.  The introspection middleware lets an un-aborted request through
    exactly when the extractor returns a token and [introspectToken]
    returns for it a response with [active] true; the identity it stores is
    the [sub] and [email] of that response, whatever its expiry, token type
    and other fields say. *)
Theorem TokenIntrospectionMiddleware_lets_through_iff {ext : External} (c : Context) :
  Aborted c = false ->
  (ranDownstream c (TokenIntrospectionMiddleware c) = true
   <-> exists token resp,
         fst (extractBearerToken c) = (token, true)
         /\ introspectToken token = inr resp /\ Active resp = true)
  /\ (forall token resp,
        fst (extractBearerToken c) = (token, true) ->
        introspectToken token = inr resp ->
        Active resp = true ->
        TokenIntrospectionMiddleware c = authorized c (Sub resp) (IR_Email resp)).
Proof.
  intros Hrun.
  assert (Hok : forall token resp,
             fst (extractBearerToken c) = (token, true) ->
             introspectToken token = inr resp ->
             Active resp = true ->
             TokenIntrospectionMiddleware c = authorized c (Sub resp) (IR_Email resp)).
  { intros token resp Hx Hi Ha. unfold TokenIntrospectionMiddleware.
    rewrite (extractBearerToken_ok c token Hx). cbn [negb]. rewrite Hi, Ha. cbn [negb].
    apply Next_Set_authorized, Hrun. }
  split; [| exact Hok]. split.
  - unfold TokenIntrospectionMiddleware.
    destruct (snd (fst (extractBearerToken c))) eqn:Hflag.
    + destruct (extractBearerToken_flag c Hflag) as [token He]. rewrite He. cbn [negb].
      destruct (introspectToken token) as [err | resp] eqn:Hi.
      * rewrite ranDownstream_Abort. discriminate.
      * destruct (Active resp) eqn:Ha; cbn [negb].
        -- intros _. exists token, resp. split; [reflexivity|]. split; assumption.
        -- rewrite ranDownstream_Abort. discriminate.
    + destruct (extractBearerToken_rejects c Hflag) as [msg He]. rewrite He. cbn [negb].
      rewrite ranDownstream_Abort. discriminate.
  - intros (token & resp & Hx & Hi & Ha). rewrite (Hok token resp Hx Hi Ha).
    apply ranDownstream_authorized.
Qed.

Lemma TokenIntrospectionMiddleware_lets_through_iff_witness :
  let c := Sample.request "Bearer live" in
  @TokenIntrospectionMiddleware Sample.healthy c
  = authorized c "alice" "alice@example.com".
Proof.
  cbv zeta.
  apply (proj2 (@TokenIntrospectionMiddleware_lets_through_iff Sample.healthy
                  (Sample.request "Bearer live") eq_refl)
           "live"
           {| Active := true; Exp := 2000; Iat := 900; ClientID := "web";
              Username := "alice"; TokenType := "Bearer"; Sub := "alice";
              IR_Email := "alice@example.com" |}).
  - reflexivity.
  - vm_compute. reflexivity.
  - reflexivity.
Defined.

(** X19.  The JWT middleware answers 401 and nothing else: whatever it
    writes, at most one response, has status 401; and when [verifyToken]
    fails on the extracted token, the response carries that very error as
    its detail and the chain is aborted. *)
Theorem JWTAuthMiddleware_rejects_with_401 {ext : External}
    (publicKeys : gmap string rsa.PublicKey) (now now' : Time) (c : Context) :
  (exists ws,
     Written (JWTAuthMiddleware publicKeys now now' c) = Written c ++ ws
     /\ (length ws <= 1)%nat
     /\ Forall (fun r => fst r = StatusUnauthorized) ws)
  /\ (forall token err,
        fst (extractBearerToken c) = (token, true) ->
        verifyToken publicKeys now now' token = inl err ->
        JWTAuthMiddleware publicKeys now now' c
        = Abort (JSON c StatusUnauthorized
                   {[ "error" := Lit "Invalid or expired JWT token";
                      "detail" := ErrorString err;
                      "method" := Lit "JWT Validation" ]})).
Proof.
  split.
  - unfold JWTAuthMiddleware.
    destruct (snd (fst (extractBearerToken c))) eqn:Hflag.
    + destruct (extractBearerToken_flag c Hflag) as [token He]. rewrite He. cbn [negb].
      destruct (verifyToken publicKeys now now' token) as [err | claims].
      * eexists. split; [reflexivity|]. split; [cbn; lia|].
        constructor; [reflexivity | constructor].
      * exists []. rewrite Written_Next, app_nil_r. cbn [Set_ Written].
        split; [reflexivity|]. split; [cbn; lia | constructor].
    + destruct (extractBearerToken_rejects c Hflag) as [msg He]. rewrite He. cbn [negb].
      eexists. split; [reflexivity|]. split; [cbn; lia|].
      constructor; [reflexivity | constructor].
  - intros token err Hx Hv. unfold JWTAuthMiddleware.
    rewrite (extractBearerToken_ok c token Hx). cbn [negb]. rewrite Hv. reflexivity.
Qed.

Lemma JWTAuthMiddleware_rejects_with_401_witness :
  let c := Sample.request "Bearer AQ.BA.BN8" in
  @JWTAuthMiddleware Sample.healthy Sample.publicKeys 1000 1001 c
  = Abort (JSON c StatusUnauthorized
             {[ "error" := Lit "Invalid or expired JWT token";
                "detail" := ErrorString (Errorf "invalid audience" [] None);
                "method" := Lit "JWT Validation" ]}).
Proof.
  cbv zeta.
  apply (proj2 (@JWTAuthMiddleware_rejects_with_401 Sample.healthy Sample.publicKeys
                  1000 1001 (Sample.request "Bearer AQ.BA.BN8")) "AQ.BA.BN8").
  - reflexivity.
  - vm_compute. reflexivity.
Defined.

(** X20.  The introspection middleware answers 401 or 500 and nothing else;
    every error of [introspectToken], of whatever kind, is answered with
    500 carrying that error as its detail, and a 500 is written for no
    other reason. *)
Theorem TokenIntrospectionMiddleware_statuses {ext : External} (c : Context) :
  (exists ws,
     Written (TokenIntrospectionMiddleware c) = Written c ++ ws
     /\ (length ws <= 1)%nat
     /\ Forall (fun r => fst r = StatusUnauthorized
                         \/ fst r = StatusInternalServerError
                            /\ exists token err,
                                 fst (extractBearerToken c) = (token, true)
                                 /\ introspectToken token = inl err) ws)
  /\ (forall token err,
        fst (extractBearerToken c) = (token, true) ->
        introspectToken token = inl err ->
        TokenIntrospectionMiddleware c
        = Abort (JSON c StatusInternalServerError
                   {[ "error" := Lit "Failed to introspect token";
                      "detail" := ErrorString err;
                      "method" := Lit "Token Introspection" ]})).
Proof.
  split.
  - unfold TokenIntrospectionMiddleware.
    destruct (snd (fst (extractBearerToken c))) eqn:Hflag.
    + destruct (extractBearerToken_flag c Hflag) as [token He]. rewrite He. cbn [negb].
      destruct (introspectToken token) as [err | resp] eqn:Hi.
      * eexists. split; [reflexivity|]. split; [cbn; lia|].
        constructor; [| constructor]. right. split; [reflexivity|].
        exists token, err. split; [reflexivity | exact Hi].
      * destruct (Active resp); cbn [negb].
        -- exists []. rewrite Written_Next, app_nil_r. cbn [Set_ Written].
           split; [reflexivity|]. split; [cbn; lia | constructor].
        -- eexists. split; [reflexivity|]. split; [cbn; lia|].
           constructor; [left; reflexivity | constructor].
    + destruct (extractBearerToken_rejects c Hflag) as [msg He]. rewrite He. cbn [negb].
      eexists. split; [reflexivity|]. split; [cbn; lia|].
      constructor; [left; reflexivity | constructor].
  - intros token err Hx Hi. unfold TokenIntrospectionMiddleware.
    rewrite (extractBearerToken_ok c token Hx). cbn [negb]. rewrite Hi. reflexivity.
Qed.

Lemma TokenIntrospectionMiddleware_statuses_witness :
  let c := Sample.request "Bearer garbled" in
  @TokenIntrospectionMiddleware Sample.healthy c
  = Abort (JSON c StatusInternalServerError
             {[ "error" := Lit "Failed to introspect token";
                "detail" := ErrorString
                              (Errorf "failed to parse introspection response: %w" []
                                      (Some (ErrorNew "invalid character")));
                "method" := Lit "Token Introspection" ]}).
Proof.
  cbv zeta.
  apply (proj2 (@TokenIntrospectionMiddleware_statuses Sample.healthy
                  (Sample.request "Bearer garbled")) "garbled").
  - reflexivity.
  - vm_compute. reflexivity.
Defined.

(** What every outcome of a middleware leaves as it was. *)
Lemma MiddlewareOutcome_frame (c c' : Context) (method : string) :
  MiddlewareOutcome c method c' ->
  RequestHeader c' = RequestHeader c
  /\ (forall key, key <> "user_id" -> key <> "email" -> Keys c' !! key = Keys c !! key)
  /\ (NextCalls c <= NextCalls c' <= S (NextCalls c))%nat
  /\ (Aborted c = true -> Aborted c' = true)
  /\ (Aborted c' = true -> NextCalls c' = NextCalls c).
Proof.
  intros Hout.
  inversion Hout as [msg Hx | code body Hx Herr Hm | user_id email Hx]; subst.
  - cbn [Abort JSON RequestHeader Keys NextCalls Aborted].
    repeat split; try reflexivity; lia.
  - cbn [Abort JSON RequestHeader Keys NextCalls Aborted].
    repeat split; try reflexivity; lia.
  - assert (Hkeys : forall key, key <> "user_id" -> key <> "email" ->
                      <["email" := email]> (<["user_id" := user_id]> (Keys c)) !! key
                      = Keys c !! key).
    { intros key Hu He. rewrite !lookup_insert_ne by congruence. reflexivity. }
    unfold Next. cbn [Set_ Aborted].
    destruct (Aborted c) eqn:Hab; cbn [Set_ RequestHeader Keys NextCalls Aborted].
    + split; [reflexivity|]. split; [exact Hkeys|]. split; [lia|].
      split; [intros _; exact Hab | reflexivity].
    + split; [reflexivity|]. split; [exact Hkeys|]. split; [lia|].
      split; discriminate.
Qed.

(** X21.  Neither middleware touches anything else: the request header
    stays as it is, every key of the context other than [user_id] and
    [email] keeps its value, the downstream handlers are run at most once
    and not at all once the chain is aborted, and an aborted chain stays
    aborted. *)
Theorem middlewares_frame {ext : External}
    (publicKeys : gmap string rsa.PublicKey) (now now' : Time) (c : Context) :
  (RequestHeader (JWTAuthMiddleware publicKeys now now' c) = RequestHeader c
   /\ (forall key, key <> "user_id" -> key <> "email" ->
       Keys (JWTAuthMiddleware publicKeys now now' c) !! key = Keys c !! key)
   /\ (NextCalls c <= NextCalls (JWTAuthMiddleware publicKeys now now' c)
       <= S (NextCalls c))%nat
   /\ (Aborted c = true -> Aborted (JWTAuthMiddleware publicKeys now now' c) = true)
   /\ (Aborted (JWTAuthMiddleware publicKeys now now' c) = true ->
       NextCalls (JWTAuthMiddleware publicKeys now now' c) = NextCalls c))
  /\ (RequestHeader (TokenIntrospectionMiddleware c) = RequestHeader c
      /\ (forall key, key <> "user_id" -> key <> "email" ->
          Keys (TokenIntrospectionMiddleware c) !! key = Keys c !! key)
      /\ (NextCalls c <= NextCalls (TokenIntrospectionMiddleware c)
          <= S (NextCalls c))%nat
      /\ (Aborted c = true -> Aborted (TokenIntrospectionMiddleware c) = true)
      /\ (Aborted (TokenIntrospectionMiddleware c) = true ->
          NextCalls (TokenIntrospectionMiddleware c) = NextCalls c)).
Proof.
  split.
  - exact (MiddlewareOutcome_frame _ _ _
             (JWTAuthMiddleware_outcome publicKeys now now' c)).
  - exact (MiddlewareOutcome_frame _ _ _ (TokenIntrospectionMiddleware_outcome c)).
Qed.

(** A header of the scheme, one space and a token without a space is
    accepted with that token. *)
Lemma extractBearerToken_accepts (c : Context) (tok : string) :
  GetHeader c "Authorization" = "Bearer " +:+ tok ->
  hasSpace tok = false ->
  extractBearerToken c = (tok, true, c).
Proof.
  intros Hh Hs.
  assert (Hsplit : GoStrings.Split (GetHeader c "Authorization") " " = ["Bearer"; tok]).
  { apply Split_space_two. rewrite Hh. split; [reflexivity|]. split; [reflexivity | exact Hs]. }
  unfold extractBearerToken. rewrite Hsplit, Hh. reflexivity.
Qed.

(** X22.  Extractor and verifier together: a header of the scheme, one
    space and a token that has no space and not exactly two dots (the
    header ["Bearer "] with the empty token among them) passes the
    extractor and is then rejected by the JWT middleware with one 401
    response naming the malformed token, the downstream handler not run. *)
Theorem JWTAuthMiddleware_rejects_segmentless {ext : External}
    (publicKeys : gmap string rsa.PublicKey) (now now' : Time)
    (c : Context) (tok : string) :
  GetHeader c "Authorization" = "Bearer " +:+ tok ->
  hasSpace tok = false ->
  countChar "." tok <> 2%nat ->
  extractBearerToken c = (tok, true, c)
  /\ JWTAuthMiddleware publicKeys now now' c
     = Abort (JSON c StatusUnauthorized
                {[ "error" := Lit "Invalid or expired JWT token";
                   "detail" :=
                     ErrorString
                       (Errorf "failed to parse token: %w" []
                          (Some (JWTError "token contains an invalid number of segments"
                                          ErrTokenMalformed None)));
                   "method" := Lit "JWT Validation" ]})
  /\ ranDownstream c (JWTAuthMiddleware publicKeys now now' c) = false.
Proof.
  intros Hh Hs Hd.
  pose proof (extractBearerToken_accepts c tok Hh Hs) as Hx.
  assert (Hv : verifyToken publicKeys now now' tok
               = inl (Errorf "failed to parse token: %w" []
                        (Some (JWTError "token contains an invalid number of segments"
                                        ErrTokenMalformed None)))).
  { pose proof (Split_char_length "." tok) as Hlen.
    unfold verifyToken, ParseWithClaims, ParseUnverified.
    destruct (GoStrings.Split tok ".") as [|p0 [|p1 [|p2 [|p3 rest]]]]; try reflexivity.
    cbn [length] in Hlen. exfalso. apply Hd. congruence. }
  assert (Hm : JWTAuthMiddleware publicKeys now now' c
               = Abort (JSON c StatusUnauthorized
                          {[ "error" := Lit "Invalid or expired JWT token";
                             "detail" :=
                               ErrorString
                                 (Errorf "failed to parse token: %w" []
                                    (Some (JWTError
                                             "token contains an invalid number of segments"
                                             ErrTokenMalformed None)));
                             "method" := Lit "JWT Validation" ]})).
  { unfold JWTAuthMiddleware. rewrite Hx. cbn [negb]. rewrite Hv. reflexivity. }
  split; [exact Hx|]. split; [exact Hm|]. rewrite Hm. apply ranDownstream_Abort.
Qed.

Lemma JWTAuthMiddleware_rejects_segmentless_witness :
  let c := Sample.request "Bearer " in
  extractBearerToken c = ("", true, c)
  /\ map fst (Written (@JWTAuthMiddleware Sample.healthy Sample.publicKeys 1000 1001 c))
     = [StatusUnauthorized]
  /\ ranDownstream c (@JWTAuthMiddleware Sample.healthy Sample.publicKeys 1000 1001 c)
     = false.
Proof.
  cbv zeta.
  destruct (@JWTAuthMiddleware_rejects_segmentless Sample.healthy Sample.publicKeys
              1000 1001 (Sample.request "Bearer ") "") as (Hx & Hm & Hr).
  - reflexivity.
  - reflexivity.
  - discriminate.
  - split; [exact Hx|]. split; [rewrite Hm; reflexivity | exact Hr].
Defined.

(** X23.  [introspectToken] returns a response exactly when the round trip
    worked, the body could be read, the status is 200 and the body decodes;
    a body that cannot be read is an error whatever the status; with a
    readable body every status other than 200, the other 2xx ones too, is
    an error that carries the status and the body, even when that body is a
    well-formed response. *)
Theorem introspectToken_returns_iff {ext : External}
    (token : string) (result : IntrospectionResponse) :
  (introspectToken token = inr result
   <-> exists resp body,
         Do (introspectionRequest token) = inr resp
         /\ http.Body resp = inr body
         /\ http.StatusCode resp = StatusOK
         /\ UnmarshalIntrospection body = inr result)
  /\ (forall resp cause,
        Do (introspectionRequest token) = inr resp ->
        http.Body resp = inl cause ->
        introspectToken token
        = inl (Errorf "failed to read introspection response: %w" [] (Some cause)))
  /\ (forall resp body,
        Do (introspectionRequest token) = inr resp ->
        http.Body resp = inr body ->
        http.StatusCode resp <> StatusOK ->
        introspectToken token
        = inl (Errorf "introspection failed with status %d: %s"
                      [ArgInt (http.StatusCode resp); ArgString body] None)).
Proof.
  unfold introspectToken. split; [| split].
  - split.
    + destruct (Do (introspectionRequest token)) as [e | resp]; [discriminate|].
      destruct (http.Body resp) as [e | body] eqn:Hb; [discriminate|].
      destruct (http.StatusCode resp =? StatusOK) eqn:Hs; cbn [negb]; [| discriminate].
      destruct (UnmarshalIntrospection body) as [e | r] eqn:Hj; [discriminate|].
      intros [= <-]. exists resp, body. apply Z.eqb_eq in Hs.
      repeat split; assumption || reflexivity.
    + intros (resp & body & -> & -> & Hs & ->). rewrite Hs. reflexivity.
  - intros resp cause -> ->. reflexivity.
  - intros resp body -> -> Hs. apply Z.eqb_neq in Hs. rewrite Hs. reflexivity.
Qed.

Lemma introspectToken_returns_iff_witness :
  @introspectToken
     (Sample.provider (inr {| http.StatusCode := 200; http.Body := inr "one-key" |}))
     "live"
  = inr {| Active := true; Exp := 2000; Iat := 900; ClientID := "web";
           Username := "alice"; TokenType := "Bearer"; Sub := "alice";
           IR_Email := "alice@example.com" |}
  /\ @introspectToken Sample.healthy "outage"
     = inl (Errorf "introspection failed with status %d: %s"
                   [ArgInt 503; ArgString "Service Unavailable"] None).
Proof.
  split.
  - apply (proj1 (@introspectToken_returns_iff Sample.healthy "live" _)).
    exists {| http.StatusCode := 200; http.Body := inr "active-alice" |}, "active-alice".
    split; [vm_compute; reflexivity|]. repeat split.
  - apply (proj2 (proj2 (@introspectToken_returns_iff Sample.healthy "outage"
                           {| Active := false; Exp := 0; Iat := 0; ClientID := "";
                              Username := ""; TokenType := ""; Sub := "";
                              IR_Email := "" |}))
             {| http.StatusCode := 503; http.Body := inr "Service Unavailable" |}
             "Service Unavailable").
    + vm_compute. reflexivity.
    + reflexivity.
    + discriminate.
Defined.

(** X24.  A 200 answer whose body does not decode makes [introspectToken]
    fail with the malformed-response error, wrapping the decoder's, and the
    introspection middleware answers it with 500, not with 401, the
    downstream handler not run. *)
Theorem introspection_malformed_response {ext : External}
    (c : Context) (token body : string) (resp : http.Response) (cause : error) :
  fst (extractBearerToken c) = (token, true) ->
  Do (introspectionRequest token) = inr resp ->
  http.Body resp = inr body ->
  http.StatusCode resp = StatusOK ->
  UnmarshalIntrospection body = inl cause ->
  introspectToken token
  = inl (Errorf "failed to parse introspection response: %w" [] (Some cause))
  /\ MalformedResponse
       (Errorf "failed to parse introspection response: %w" [] (Some cause)) = true
  /\ map fst (Written (TokenIntrospectionMiddleware c))
     = map fst (Written c) ++ [StatusInternalServerError]
  /\ ranDownstream c (TokenIntrospectionMiddleware c) = false.
Proof.
  intros Hx Hdo Hb Hs Hj.
  assert (Hi : introspectToken token
               = inl (Errorf "failed to parse introspection response: %w" []
                             (Some cause))).
  { unfold introspectToken. rewrite Hdo, Hb, Hs, Hj. reflexivity. }
  split; [exact Hi|]. split; [reflexivity|].
  unfold TokenIntrospectionMiddleware.
  rewrite (extractBearerToken_ok c token Hx). cbn [negb]. rewrite Hi.
  split; [| apply ranDownstream_Abort].
  cbn [Abort JSON Written]. rewrite map_app. reflexivity.
Qed.

Lemma introspection_malformed_response_witness :
  let c := Sample.request "Bearer garbled" in
  @introspectToken Sample.healthy "garbled"
  = inl (Errorf "failed to parse introspection response: %w" []
                (Some (ErrorNew "invalid character")))
  /\ map fst (Written (@TokenIntrospectionMiddleware Sample.healthy c))
     = [StatusInternalServerError].
Proof.
  cbv zeta.
  destruct (@introspection_malformed_response Sample.healthy
              (Sample.request "Bearer garbled") "garbled" "<html>"
              {| http.StatusCode := 200; http.Body := inr "<html>" |}
              (ErrorNew "invalid character")) as (Hi & _ & Hw & _).
  - reflexivity.
  - vm_compute. reflexivity.
  - reflexivity.
  - reflexivity.
  - reflexivity.
  - split; [exact Hi | exact Hw].
Defined.

(* ===================================================================== *)
(** ** main.go: the private routes                                        *)
(* ===================================================================== *)



(** The private handler behind an authorizing middleware. *)
Lemma handle_authorized (middleware : Context -> Context) (c : Context)
    (user_id email : string) :
  middleware c = authorized c user_id email ->
  server.handle middleware server.getTodosPrivate c
  = (authorized c user_id email,
     Some (StatusOK,
           server.JObject
             [("authenticated_user",
               server.JObject [("email", server.JString email);
                               ("user_id", server.JString user_id)]);
              ("data", server.JArray (map server.todoJson server.todos));
              ("message",
               server.JString "Protected endpoint - authentication required")])).
Proof.
  intros Hm. unfold server.handle. rewrite Hm, ranDownstream_authorized.
  unfold server.getTodosPrivate, server.Get. cbn [authorized Keys].
  rewrite lookup_insert_eq.
  rewrite lookup_insert_ne by discriminate. rewrite lookup_insert_eq. reflexivity.
Qed.


(** X25.  End to end on the JWT route: for an un-aborted request whose
    bearer token [verifyToken] accepts, the client gets status 200 with the
    todos and, as the authenticated user, the subject and the email of the
    verified claims. *)
Theorem routePrivateJWT_answers_identity {ext : External}
    (publicKeys : gmap string rsa.PublicKey) (now now' : Time)
    (c : Context) (token : string) (claims : CustomClaims) :
  Aborted c = false ->
  fst (extractBearerToken c) = (token, true) ->
  verifyToken publicKeys now now' token = inr claims ->
  server.answer (routePrivateJWT publicKeys now now' c)
  = Some (StatusOK,
          inr (server.JObject
                 [("authenticated_user",
                   server.JObject
                     [("email", server.JString (Email claims));
                      ("user_id", server.JString (Subject (Registered claims)))]);
                  ("data", server.JArray (map server.todoJson server.todos));
                  ("message",
                   server.JString "Protected endpoint - authentication required")])).
Proof.
  intros Hrun Hx Hv. unfold routePrivateJWT.
  rewrite (handle_authorized _ c (Subject (Registered claims)) (Email claims)).
  - reflexivity.
  - unfold JWTAuthMiddleware. rewrite (extractBearerToken_ok c token Hx). cbn [negb].
    rewrite Hv. apply Next_Set_authorized, Hrun.
Qed.

Lemma routePrivateJWT_answers_identity_witness :
  server.answer (@routePrivateJWT Sample.healthy Sample.publicKeys 1000 1001
                   (Sample.request "Bearer AQ.AQ.AGo"))
  = Some (StatusOK,
          inr (server.JObject
                 [("authenticated_user",
                   server.JObject
                     [("email", server.JString "alice@example.com");
                      ("user_id", server.JString "alice")]);
                  ("data", server.JArray (map server.todoJson server.todos));
                  ("message",
                   server.JString "Protected endpoint - authentication required")])).
Proof.
  apply (@routePrivateJWT_answers_identity Sample.healthy Sample.publicKeys 1000 1001
           (Sample.request "Bearer AQ.AQ.AGo") "AQ.AQ.AGo"
           (Sample.claimsOf (Some 2000) None ["account"])).
  - reflexivity.
  - reflexivity.
  - vm_compute. reflexivity.
Defined.


